(** * escao-api: the escrow lifecycle over the relational store

    A shallow embedding of the request handlers of the escrow marketplace
    backend (routes/escrow.ts, routes/disputes.ts, routes/admin.ts,
    routes/webhooks.ts, routes/users.ts, middleware/kyc.ts and
    middleware/auth.ts).

    Every handler is a function from the request and the database to a
    response (the HTTP status with the message or the error of the JSON
    body) and a new database.  The handlers run their SQL statements one
    after the other without a transaction, so a handler that fails half-way
    returns the database with the statements it had already run.

    Modelling conventions:
    - a table is the list of its rows in insertion order; [SELECT ... WHERE]
      is a filter, [UPDATE ... WHERE] rewrites every row that matches, and
      [INSERT] appends.  No key constraint is assumed (the schema of these
      tables is not part of the sources), and [rows[0]] is the first match;
    - [NOW()] is the [now] of the handler's environment and [uuidv4()] its
      [uuid], the n-th call in the handler's body reading [uuid n];
    - a handler receives [req.user] as decoded by [authenticateJWT]; the
      token check itself belongs to the JWT library;
    - a column an [INSERT] does not name is NULL ([None]);
    - request fields have the JSON type of the column they end in: strings
      that may be absent ([option string], the empty string being falsy) and
      an integer amount that may be absent ([option Z], 0 being falsy);
    - [req.body] is undefined ([None]) on a request without a body; a
      handler that destructures it then throws inside its [try], and its
      [catch] answers 500;
    - the handlers registered for one path run in the order of their
      registration, each one only when the one before it called [next()]. *)

From Stdlib Require Import String List ZArith Bool Lia.
Import ListNotations.
Open Scope string_scope.
Open Scope bool_scope.

(** ** SQL statements over a table *)

Section Table.
Context {Row : Type}.

Definition select (p : Row -> bool) (t : list Row) : list Row :=
  filter p t.

Definition update (p : Row -> bool) (f : Row -> Row) (t : list Row)
  : list Row :=
  map (fun r => if p r then f r else r) t.

Definition insert (r : Row) (t : list Row) : list Row := t ++ [r].
End Table.

(** JavaScript truthiness of the values a handler tests with [!x] or
    [x || d]. *)
Definition truthy (v : option string) : bool :=
  match v with
  | Some s => negb (s =? "")
  | None => false
  end.

Definition truthyZ (v : option Z) : bool :=
  match v with
  | Some z => negb (z =? 0)%Z
  | None => false
  end.

(** [x || null] *)
Definition or_null (v : option string) : option string :=
  if truthy v then v else None.

(** [x || d] *)
Definition or_else (v : option string) (d : string) : string :=
  match v with
  | Some s => if s =? "" then d else s
  | None => d
  end.

(** ** Rows *)

(** An audit row's [JSON_OBJECT(...)] metadata: scalar fields and, for a
    shipment, one object of scalars. *)
Inductive Scalar :=
| JNull
| JStr (s : string)
| JNum (z : Z).

Inductive Field :=
| Flat (v : Scalar)
| Nested (o : list (string * Scalar)).

Definition Json : Type := list (string * Field).

Definition jstr (v : option string) : Scalar :=
  match v with Some s => JStr s | None => JNull end.

Record User := mkUser {
  u_id : string;
  u_email : string;
  u_role : string;
  u_kyc_status : string }.

Record Escrow := mkEscrow {
  e_id : string;
  e_buyer_id : string;
  e_seller_id : string;
  e_amount : Z;
  e_currency : string;
  e_status : string;
  e_seller_proof_url : option string;
  e_seller_receipt_number : option string;
  e_buyer_proof_url : option string;
  e_created_at : nat;
  e_updated_at : nat }.

(** The body of a gateway callback, also what [JSON.stringify(rawPayload)]
    stores. *)
Record Payload := mkPayload {
  p_event : option string;
  p_pg_ref : option string;
  p_method : option string;
  p_status : option string }.

Record PaymentIntent := mkIntent {
  pi_id : string;
  pi_escrow_id : string;
  pi_method : option string;
  pi_pg_reference : option string;
  pi_qr_code_url : option string;
  pi_status : string;
  pi_paid_at : option nat;
  pi_raw_payload : Payload }.

Record Payout := mkPayout {
  po_id : string;
  po_escrow_id : string;
  po_seller_id : option string;
  po_amount : option Z;
  po_bank_account : option string;
  po_method : option string;
  po_status : string;
  po_created_at : option nat;
  po_sent_at : option nat;
  po_pg_reference : option string }.

Record Dispute := mkDispute {
  d_id : string;
  d_escrow_id : string;
  d_opened_by : string;
  d_reason : string;
  d_status : string;
  d_created_at : option nat;
  d_updated_at : option nat;
  d_resolved_at : option nat }.

Record AuditLog := mkAudit {
  a_id : string;
  a_actor_id : string;
  a_action : string;
  a_entity : string;
  a_entity_id : string;
  a_metadata : Json;
  a_created_at : nat }.

Record WebhookEvent := mkEvent {
  w_id : string;
  w_source : string;
  w_event_type : string;
  w_payload : Payload;
  w_processed : bool;
  w_created_at : nat }.

(** ** The database *)

Record DB := mkDB {
  users : list User;
  escrow_transactions : list Escrow;
  payment_intents : list PaymentIntent;
  payouts : list Payout;
  disputes : list Dispute;
  audit_logs : list AuditLog;
  webhook_events : list WebhookEvent }.

Definition set_escrows (f : list Escrow -> list Escrow) (db : DB) : DB :=
  mkDB (users db) (f (escrow_transactions db)) (payment_intents db)
       (payouts db) (disputes db) (audit_logs db) (webhook_events db).

Definition set_intents (f : list PaymentIntent -> list PaymentIntent)
  (db : DB) : DB :=
  mkDB (users db) (escrow_transactions db) (f (payment_intents db))
       (payouts db) (disputes db) (audit_logs db) (webhook_events db).

Definition set_payouts (f : list Payout -> list Payout) (db : DB) : DB :=
  mkDB (users db) (escrow_transactions db) (payment_intents db)
       (f (payouts db)) (disputes db) (audit_logs db) (webhook_events db).

Definition set_disputes (f : list Dispute -> list Dispute) (db : DB) : DB :=
  mkDB (users db) (escrow_transactions db) (payment_intents db)
       (payouts db) (f (disputes db)) (audit_logs db) (webhook_events db).

Definition set_audit (f : list AuditLog -> list AuditLog) (db : DB) : DB :=
  mkDB (users db) (escrow_transactions db) (payment_intents db)
       (payouts db) (disputes db) (f (audit_logs db)) (webhook_events db).

Definition set_events (f : list WebhookEvent -> list WebhookEvent)
  (db : DB) : DB :=
  mkDB (users db) (escrow_transactions db) (payment_intents db)
       (payouts db) (disputes db) (audit_logs db) (f (webhook_events db)).

(** ** Requests and responses *)

(** [req.user], as set by [authenticateJWT]. *)
Record AuthUser := mkAuth {
  au_id : string;
  au_email : string;
  au_role : string }.

Inductive ResBody :=
| Error (e : string)
| Message (m : string).

Record Response := mkRes {
  res_status : nat;
  res_body : ResBody }.

Definition reject (code : nat) (e : string) (db : DB) : Response * DB :=
  (mkRes code (Error e), db).

Definition reply (code : nat) (m : string) (db : DB) : Response * DB :=
  (mkRes code (Message m), db).

(** The time and the identifiers a request draws, and [BASE_URL]. *)
Record Env := mkEnv {
  now : nat;
  uuid : nat -> string;
  base_url : string }.

(** ** Queries and statements shared by the handlers *)

Definition is_escrow (id : string) (e : Escrow) : bool := e_id e =? id.
Definition is_dispute (id : string) (d : Dispute) : bool := d_id d =? id.
Definition is_user (id : string) (u : User) : bool := u_id u =? id.

(** [SET status = s, updated_at = NOW()] *)
Definition e_set_status (s : string) (t : nat) (e : Escrow) : Escrow :=
  mkEscrow (e_id e) (e_buyer_id e) (e_seller_id e) (e_amount e)
           (e_currency e) s (e_seller_proof_url e)
           (e_seller_receipt_number e) (e_buyer_proof_url e)
           (e_created_at e) t.

Definition update_escrow_status (id s : string) (t : nat) : DB -> DB :=
  set_escrows (update (is_escrow id) (e_set_status s t)).

(** [SELECT kyc_status FROM users WHERE id = ?] *)
Definition select_kyc (db : DB) (id : string) : list string :=
  map u_kyc_status (select (is_user id) (users db)).

(** [rows.length === 0 || rows[0].kyc_status !== "verified"] *)
Definition not_verified (rows : list string) : bool :=
  match rows with
  | [] => true
  | k :: _ => negb (k =? "verified")
  end.

(** [SELECT ... FROM escrow_transactions WHERE id = ?] *)
Definition select_escrow (db : DB) (id : string) : list Escrow :=
  select (is_escrow id) (escrow_transactions db).

(** [SELECT ... FROM disputes d JOIN escrow_transactions e
     ON e.id = d.escrow_id WHERE d.id = ?] *)
Definition select_dispute (db : DB) (id : string)
  : list (Dispute * Escrow) :=
  flat_map (fun d => map (pair d) (select_escrow db (d_escrow_id d)))
           (select (is_dispute id) (disputes db)).

(** A scalar subquery: NULL on no row, an error on more than one. *)
Definition scalar {A : Type} (rows : list A) : option (option A) :=
  match rows with
  | [] => Some None
  | [a] => Some (Some a)
  | _ => None
  end.

Definition insert_audit (id actor action entity entity_id : string)
  (metadata : Json) (t : nat) : DB -> DB :=
  set_audit (insert (mkAudit id actor action entity entity_id metadata t)).

(** The payout of [routes/escrow.ts] and [routes/disputes.ts]:
    [(id, escrow_id, '1234567890', 'BI-FAST', 'pending', NULL, NULL)]. *)
Definition bank_payout (id escrow_id : string) : Payout :=
  mkPayout id escrow_id None None (Some "1234567890") (Some "BI-FAST")
           "pending" None None None.

(** The payout of [routes/admin.ts] and of the buyer's release:
    [(id, escrow_id, seller_id, amount, 'pending', NOW())]. *)
Definition seller_payout (id escrow_id seller_id : string)
  (amount : option Z) (t : nat) : Payout :=
  mkPayout id escrow_id (Some seller_id) amount None None
           "pending" (Some t) None None.

(** ** middleware/kyc.ts *)

Definition Handler : Type := DB -> Response * DB.

Definition requireKYCVerified (user : AuthUser) (next : Handler) : Handler :=
  fun db =>
    match select_kyc db (au_id user) with
    | [] => reject 404 "User not found" db
    | k :: _ =>
        if negb (k =? "verified")
        then reject 403 "KYC verification required to perform this action" db
        else next db
    end.

Definition requireAdmin (user : AuthUser) (next : Handler) : Handler :=
  fun db =>
    if negb (au_role user =? "admin")
    then reject 403 "Admin access required" db
    else next db.

(** ** The router

    What is registered for a path is called with [next], the handlers
    registered after it for the same path.  When none is left Express
    answers 404 itself, with a page that is not JSON and for which
    "Not Found" stands here. *)

Definition Layer : Type := Handler -> Handler.

Fixpoint route (layers : list Layer) : Handler :=
  match layers with
  | [] => reject 404 "Not Found"
  | layer :: rest => layer (route rest)
  end.

(** ** routes/admin.ts *)

Module Admin.

Definition d_set_status (s : string) (t : nat) (d : Dispute) : Dispute :=
  mkDispute (d_id d) (d_escrow_id d) (d_opened_by d) (d_reason d) s
            (d_created_at d) (Some t) (d_resolved_at d).

(** POST /api/admin/disputes/:id/reject *)
Definition disputes_reject (env : Env) (user : AuthUser) (id : string)
  : Handler :=
  requireAdmin user (fun db =>
    match select_dispute db id with
    | [] => reject 404 "Dispute not found" db
    | (rec, e) :: _ =>
        let alreadyRejected := d_status rec =? "rejected" in
        let escrowCompleted := e_status e =? "completed" in
        if alreadyRejected && escrowCompleted
        then reply 200 "Dispute already rejected and escrow completed" db
        else
          let db := update_escrow_status (d_escrow_id rec) "completed"
                      (now env) db in
          let db := set_disputes
                      (update (is_dispute id)
                              (d_set_status "rejected" (now env))) db in
          let db := insert_audit (uuid env 0) (au_id user) "dispute_reject"
                      "disputes" id
                      [("escrow_id", Flat (JStr (d_escrow_id rec)));
                       ("to", Flat (JStr "rejected"))] (now env) db in
          reply 200 "Dispute rejected; escrow completed" db
    end).

(** POST /api/admin/disputes/:id/approve *)
Definition disputes_approve (env : Env) (user : AuthUser) (id : string)
  : Handler :=
  requireAdmin user (fun db =>
    match select_dispute db id with
    | [] => reject 404 "Dispute not found" db
    | (rec, e) :: _ =>
        let alreadyResolved := d_status rec =? "resolved" in
        let escrowCancelled := e_status e =? "cancelled" in
        if alreadyResolved && escrowCancelled
        then reply 200 "Dispute already approved and escrow cancelled" db
        else
          let db := update_escrow_status (d_escrow_id rec) "cancelled"
                      (now env) db in
          let db := set_disputes
                      (update (is_dispute id)
                              (d_set_status "resolved" (now env))) db in
          let db := insert_audit (uuid env 0) (au_id user) "dispute_approve"
                      "disputes" id
                      [("escrow_id", Flat (JStr (d_escrow_id rec)));
                       ("to", Flat (JStr "resolved"))] (now env) db in
          reply 200 "Dispute approved; escrow cancelled" db
    end).

(** POST /api/admin/escrows/:id/release.  The [payouts] table is one of
    the database's, so the [SHOW TABLES] probe finds it; the amount
    subquery fails when the id names several rows, which the inner
    [catch] answers with 500 after the status was already written. *)
Definition escrows_release (env : Env) (user : AuthUser) (escrowId : string)
  : Handler :=
  requireAdmin user (fun db =>
    match select_escrow db escrowId with
    | [] => reject 404 "Escrow not found" db
    | escrow :: _ =>
        if e_status escrow =? "released"
        then reply 200 "Escrow already released" db
        else if negb (e_status escrow =? "confirmed")
        then reject 400 "Escrow must be 'confirmed' before release" db
        else if not_verified (select_kyc db (e_seller_id escrow))
        then reject 403 "Seller is not KYC verified" db
        else
          let db := update_escrow_status escrowId "released" (now env) db in
          let payoutId := uuid env 0 in
          match scalar (map e_amount (select_escrow db escrowId)) with
          | None => reject 500 "Internal server error" db
          | Some amount =>
              let db := set_payouts
                          (insert (seller_payout payoutId escrowId
                                     (e_seller_id escrow) amount (now env)))
                          db in
              let db := insert_audit (uuid env 1) (au_id user) "release"
                          "escrow_transactions" escrowId
                          [("status", Flat (JStr "released"));
                           ("by", Flat (JStr "admin"))] (now env) db in
              reply 200 "Escrow released by admin, payout initiated" db
          end
    end).

(** [ORDER BY created_at DESC LIMIT 1]: NULL sorts last, and of two rows
    of the same time the one inserted first is kept. *)
Definition later (a b : option nat) : bool :=
  match a, b with
  | Some x, Some y => Nat.ltb y x
  | Some _, None => true
  | None, _ => false
  end.

Fixpoint latest (l : list Payout) : option Payout :=
  match l with
  | [] => None
  | p :: r =>
      match latest r with
      | Some q =>
          if later (po_created_at q) (po_created_at p)
          then Some q else Some p
      | None => Some p
      end
  end.

(** [SET status = 'sent', sent_at = NOW()] *)
Definition po_sent (t : nat) (p : Payout) : Payout :=
  mkPayout (po_id p) (po_escrow_id p) (po_seller_id p) (po_amount p)
           (po_bank_account p) (po_method p) "sent" (po_created_at p)
           (Some t) (po_pg_reference p).

(** The payout step of completion: the number of identifiers it drew and
    the database it leaves. *)
Definition advance_payout (env : Env) (user : AuthUser) (escrowId : string)
  (db : DB) : nat * DB :=
  match latest (select (fun p => po_escrow_id p =? escrowId) (payouts db))
  with
  | Some payout =>
      if po_status payout =? "pending"
      then
        let db := set_payouts
                    (update (fun p => po_id p =? po_id payout)
                            (po_sent (now env))) db in
        (1, insert_audit (uuid env 0) (au_id user) "payout_status"
              "payouts" (po_id payout)
              [("from", Flat (JStr "pending")); ("to", Flat (JStr "sent"))]
              (now env) db)
      else (0, db)
  | None => (0, db)
  end.

(** POST /api/admin/escrows/:id/complete *)
Definition escrows_complete (env : Env) (user : AuthUser)
  (escrowId : string) : Handler :=
  requireAdmin user (fun db =>
    match select_escrow db escrowId with
    | [] => reject 404 "Escrow not found" db
    | escrow :: _ =>
        if e_status escrow =? "completed"
        then reply 200 "Escrow already completed" db
        else if negb (e_status escrow =? "released")
        then reject 400 "Escrow must be 'released' before completion" db
        else
          let db := update_escrow_status escrowId "completed" (now env) db in
          let '(n, db) := advance_payout env user escrowId db in
          let db := insert_audit (uuid env n) (au_id user) "complete"
                      "escrow_transactions" escrowId
                      [("status", Flat (JStr "completed"))] (now env) db in
          reply 200 "Escrow marked as completed" db
    end).

(** POST /api/admin/escrows/:id/refund *)
Definition escrows_refund (env : Env) (user : AuthUser) (escrowId : string)
  : Handler :=
  requireAdmin user (fun db =>
    match select_escrow db escrowId with
    | [] => reject 404 "Escrow not found" db
    | escrow :: _ =>
        if negb (e_status escrow =? "dispute")
        then reject 400 "Escrow must be in 'dispute' to refund" db
        else
          let db := update_escrow_status escrowId "cancelled" (now env) db in
          let db := insert_audit (uuid env 0) (au_id user) "refund"
                      "escrow_transactions" escrowId
                      [("status", Flat (JStr "cancelled"))] (now env) db in
          reply 200 "Escrow refunded and cancelled" db
    end).

End Admin.

(** ** routes/escrow.ts *)

(** A value that passed its truthiness test. *)
Definition text (v : option string) : string :=
  match v with Some s => s | None => "" end.

Definition num (v : option Z) : Z :=
  match v with Some z => z | None => 0%Z end.

Record CreateBody := mkCreate {
  buyer_id : option string;
  seller_id : option string;
  amount : option Z;
  currency : option string }.

Record FundBody := mkFund {
  method : option string;
  pg_reference : option string;
  qr_code_url : option string }.

Module Escrow.

(** POST /api/escrow, body [{ buyer_id, seller_id, amount, currency }] *)
Definition create (env : Env) (user : AuthUser)
  (req_body : option CreateBody) : Handler :=
  fun db =>
    match req_body with
    | None => reject 500 "Internal server error" db
    | Some body =>
        if negb (truthy (buyer_id body)) || negb (truthy (seller_id body))
           || negb (truthyZ (amount body))
        then reject 400 "buyer_id, seller_id, and amount are required" db
        else if negb (au_role user =? "buyer")
                && negb (au_role user =? "seller")
        then reject 403 "Only buyers or sellers can create escrow" db
        else
          let escrowId := uuid env 0 in
          let db := set_escrows
                      (insert (mkEscrow escrowId (text (buyer_id body))
                                 (text (seller_id body)) (num (amount body))
                                 (or_else (currency body) "IDR") "created"
                                 None None None (now env) (now env))) db in
          let db := insert_audit (uuid env 1) (au_id user) "create"
                      "escrow_transactions" escrowId
                      [("amount", Flat (JNum (num (amount body))));
                       ("currency",
                         Flat (JStr (or_else (currency body) "IDR")))]
                      (now env) db in
          reply 201 "Escrow created successfully" db
    end.

(** POST /api/escrow/:id/fund *)
Definition fund (env : Env) (user : AuthUser) (escrowId : string)
  (req_body : option FundBody) : Handler :=
  fun db =>
    match req_body with
    | None => reject 400 "No request body received" db
    | Some body =>
        if negb (truthy (method body)) || negb (truthy (pg_reference body))
        then reject 400 "method and pg_reference are required" db
        else
          match select_escrow db escrowId with
          | [] => reject 404 "Escrow not found" db
          | escrow :: _ =>
              if negb (e_status escrow =? "created")
              then reject 400 "Escrow is not in 'created' state" db
              else
                let paymentId := uuid env 0 in
                let db := set_intents
                            (insert (mkIntent paymentId escrowId
                                       (method body) (pg_reference body)
                                       (or_null (qr_code_url body)) "paid"
                                       (Some (now env))
                                       (mkPayload None (pg_reference body)
                                                  (method body) None)))
                            db in
                let db := update_escrow_status escrowId "funded"
                            (now env) db in
                let db := insert_audit (uuid env 1) (au_id user) "fund"
                            "escrow_transactions" escrowId
                            [("method", Flat (jstr (method body)));
                             ("pg_ref", Flat (jstr (pg_reference body)))]
                            (now env) db in
                reply 200 "Escrow funded successfully" db
          end
    end.

End Escrow.

(** The revision of routes/escrow.ts whose ship handler checks the role
    only. *)
Module EscrowRoleOnly.

(** POST /api/escrow/:id/ship, body [{ tracking_number }] *)
Definition ship (env : Env) (user : AuthUser) (escrowId : string)
  (req_body : option (option string)) : Handler :=
  fun db =>
    match req_body with
    | None => reject 400 "No request body received" db
    | Some tracking_number =>
        if negb (au_role user =? "seller")
        then reject 403 "Only sellers can mark escrow as shipped" db
        else
          match select_escrow db escrowId with
          | [] => reject 404 "Escrow not found" db
          | escrow :: _ =>
              if negb (e_status escrow =? "funded")
              then reject 400
                     "Escrow must be in 'funded' state before shipping" db
              else
                let db := update_escrow_status escrowId "shipped"
                            (now env) db in
                let db := insert_audit (uuid env 0) (au_id user) "ship"
                            "escrow_transactions" escrowId
                            [("tracking_number",
                               Flat (jstr (or_null tracking_number)))]
                            (now env) db in
                reply 200 "Escrow marked as shipped" db
          end
    end.

(** POST /api/escrow/:id/release *)
Definition release (env : Env) (user : AuthUser) (escrowId : string)
  : Handler :=
  fun db =>
    if negb (au_role user =? "admin")
    then reject 403 "Only admins can release escrow funds" db
    else
      match select_escrow db escrowId with
      | [] => reject 404 "Escrow not found" db
      | escrow :: _ =>
          if negb (e_status escrow =? "confirmed")
          then reject 400
                 "Escrow must be 'confirmed' before releasing funds" db
          else
            let db := update_escrow_status escrowId "released"
                        (now env) db in
            let payoutId := uuid env 0 in
            let db := set_payouts (insert (bank_payout payoutId escrowId))
                        db in
            let db := insert_audit (uuid env 1) (au_id user) "release"
                        "escrow_transactions" escrowId
                        [("status", Flat (JStr "released"))] (now env) db in
            reply 200 "Escrow released successfully, payout initiated" db
      end.

End EscrowRoleOnly.

(** A file as [multer] stores it. *)
Record File := mkFile {
  fieldname : string;
  originalname : string;
  mimetype : string;
  size : nat;
  basename : string }.

Record ShipReq := mkShip {
  ship_body : option (list (string * string));
  ship_files : list File }.

Fixpoint field (k : string) (body : list (string * string)) : option string :=
  match body with
  | [] => None
  | (k', v) :: rest => if k' =? k then Some v else field k rest
  end.

(** [body.k1 ?? body.k2 ?? ... ?? d] *)
Fixpoint coalesce (ks : list string) (body : list (string * string))
  (d : string) : string :=
  match ks with
  | [] => d
  | k :: rest =>
      match field k body with
      | Some v => v
      | None => coalesce rest body d
      end
  end.

(** SQL [COALESCE(?, column)] *)
Definition sql_coalesce (v old : option string) : option string :=
  match v with Some _ => v | None => old end.

(** The revision of routes/escrow.ts with the KYC and ownership checks. *)
Module EscrowKyc.

Definition e_ship (proof receipt : option string) (t : nat) (e : Escrow)
  : Escrow :=
  mkEscrow (e_id e) (e_buyer_id e) (e_seller_id e) (e_amount e)
           (e_currency e) "shipped"
           (sql_coalesce proof (e_seller_proof_url e))
           (sql_coalesce receipt (e_seller_receipt_number e))
           (e_buyer_proof_url e) (e_created_at e) t.

(** POST /api/escrow/:id/ship *)
Definition ship (env : Env) (user : AuthUser) (escrowId : string)
  (req : ShipReq) : Handler :=
  fun db =>
    let firstFile := hd_error (ship_files req) in
    match ship_body req with
    | None => reject 400 "No request body received" db
    | Some body =>
        let tracking_number :=
          coalesce ["tracking_number"; "tracking_no"; "trackingNo";
                    "shipping_receipt"; "shipping_receipt_number";
                    "receipt"] body "" in
        let seller_proof_url :=
          option_map (fun f => base_url env ++ "/uploads/shipping/"
                               ++ basename f) firstFile in
        if negb (au_role user =? "seller")
        then reject 403 "Only sellers can mark escrow as shipped" db
        else if not_verified (select_kyc db (au_id user))
        then reject 403 "Seller is not KYC verified" db
        else
          match select_escrow db escrowId with
          | [] => reject 404 "Escrow not found" db
          | escrow :: _ =>
              if negb (e_seller_id escrow =? au_id user)
              then reject 403 "You are not the seller of this escrow" db
              else if negb (e_status escrow =? "funded")
              then reject 400
                     "Escrow must be in 'funded' state before shipping" db
              else
                let db := set_escrows
                            (update (is_escrow escrowId)
                               (e_ship seller_proof_url
                                  (or_null (Some tracking_number))
                                  (now env))) db in
                let fstr (g : File -> string) :=
                  jstr (or_null (option_map g firstFile)) in
                let fsize :=
                  match firstFile with
                  | Some f => if Nat.eqb (size f) 0 then JNull
                              else JNum (Z.of_nat (size f))
                  | None => JNull
                  end in
                let db := insert_audit (uuid env 0) (au_id user) "ship"
                            "escrow_transactions" escrowId
                            [("tracking_number",
                               Flat (jstr (or_null (Some tracking_number))));
                             ("file",
                               Nested [("field", fstr fieldname);
                                       ("name", fstr originalname);
                                       ("type", fstr mimetype);
                                       ("size", fsize);
                                       ("url", jstr seller_proof_url)])]
                            (now env) db in
                reply 200 "Escrow marked as shipped" db
          end
    end.

(** POST /api/escrow/:id/confirm *)
Definition confirm (env : Env) (user : AuthUser) (escrowId : string)
  : Handler :=
  fun db =>
    if negb (au_role user =? "buyer")
    then reject 403 "Only buyers can confirm receipt" db
    else
      match select_escrow db escrowId with
      | [] => reject 404 "Escrow not found" db
      | escrow :: _ =>
          if negb (e_buyer_id escrow =? au_id user)
          then reject 403 "You are not the buyer of this escrow" db
          else if negb (e_status escrow =? "shipped")
          then reject 400
                 "Escrow must be in 'shipped' state before confirming" db
          else
            let db := update_escrow_status escrowId "confirmed"
                        (now env) db in
            let db := insert_audit (uuid env 0) (au_id user) "confirm"
                        "escrow_transactions" escrowId
                        [("status", Flat (JStr "confirmed"))] (now env) db in
            reply 200 "Escrow confirmed successfully" db
      end.

(** POST /api/escrow/:id/release, the handler registered first *)
Definition release (env : Env) (user : AuthUser) (escrowId : string)
  : Handler :=
  fun db =>
    if negb (au_role user =? "admin")
    then reject 403 "Only admins can release escrow funds" db
    else
      match select_escrow db escrowId with
      | [] => reject 404 "Escrow not found" db
      | escrow :: _ =>
          if negb (e_status escrow =? "confirmed")
          then reject 400
                 "Escrow must be 'confirmed' before releasing funds" db
          else if not_verified (select_kyc db (e_seller_id escrow))
          then reject 403 "Seller is not KYC verified" db
          else
            let db := update_escrow_status escrowId "released"
                        (now env) db in
            let payoutId := uuid env 0 in
            let db := set_payouts (insert (bank_payout payoutId escrowId))
                        db in
            let db := insert_audit (uuid env 1) (au_id user) "release"
                        "escrow_transactions" escrowId
                        [("status", Flat (JStr "released"))] (now env) db in
            reply 200 "Escrow released successfully, payout initiated" db
      end.

(** POST /api/escrow/:id/dispute, body [{ reason }] *)
Definition dispute (env : Env) (user : AuthUser) (escrowId : string)
  (req_body : option (option string)) : Handler :=
  fun db =>
    match req_body with
    | None => reject 500 "Internal server error" db
    | Some reason =>
        if negb (truthy reason)
        then reject 400 "Reason is required" db
        else
          match select_escrow db escrowId with
          | [] => reject 404 "Escrow not found" db
          | escrow :: _ =>
              if negb (au_id user =? e_buyer_id escrow)
                 && negb (au_id user =? e_seller_id escrow)
              then reject 403 "Only buyer or seller can open dispute" db
              else if negb (existsb (String.eqb (e_status escrow))
                              ["funded"; "shipped"; "confirmed"])
              then reject 400 "Cannot dispute escrow in current state" db
              else
                let disputeId := uuid env 0 in
                let db := set_disputes
                            (insert (mkDispute disputeId escrowId
                                       (au_id user) (text reason) "open"
                                       (Some (now env)) None None)) db in
                let db := insert_audit (uuid env 1) (au_id user) "dispute"
                            "disputes" disputeId
                            [("reason", Flat (jstr reason))] (now env) db in
                reply 201 "Dispute opened successfully" db
          end
    end.

(** POST /api/escrow/:id/cancel *)
Definition cancel (env : Env) (user : AuthUser) (escrowId : string)
  : Handler :=
  fun db =>
    match select_escrow db escrowId with
    | [] => reject 404 "Escrow not found" db
    | escrow :: _ =>
        if negb (au_id user =? e_buyer_id escrow)
           && negb (au_id user =? e_seller_id escrow)
        then reject 403 "Only buyer or seller can cancel this escrow" db
        else if negb (e_status escrow =? "created")
        then reject 400 "Escrow can only be cancelled before funding" db
        else
          let db := update_escrow_status escrowId "cancelled" (now env) db in
          let db := insert_audit (uuid env 0) (au_id user) "cancel"
                      "escrow_transactions" escrowId
                      [("status", Flat (JStr "cancelled"))] (now env) db in
          reply 200 "Escrow cancelled successfully" db
    end.

(** The handler registered second for POST /api/escrow/:id/release: the
    buyer's release behind [requireKYCVerified].  The amount subquery
    fails when the id names several rows; the handler's [catch] answers
    500 after the status was already written. *)
Definition release_buyer (env : Env) (user : AuthUser) (escrowId : string)
  : Handler :=
  requireKYCVerified user (fun db =>
    match select_escrow db escrowId with
    | [] => reject 404 "Escrow not found" db
    | escrow :: _ =>
        if negb (au_id user =? e_buyer_id escrow)
        then reject 403 "Only buyer can release funds" db
        else if negb (e_status escrow =? "confirmed")
        then reject 400 "Escrow must be confirmed before release" db
        else
          let db := update_escrow_status escrowId "released" (now env) db in
          let payoutId := uuid env 0 in
          match scalar (map e_amount (select_escrow db escrowId)) with
          | None => reject 500 "Internal server error" db
          | Some amount =>
              let db := set_payouts
                          (insert (seller_payout payoutId escrowId
                                     (e_seller_id escrow) amount (now env)))
                          db in
              reply 200 "Funds released and payout initiated" db
          end
    end).

(** POST /api/escrow/:id/release as the router serves it: [release] was
    registered first and [release_buyer] second.  Neither takes [next]. *)
Definition post_release (env : Env) (user : AuthUser) (escrowId : string)
  : Handler :=
  route [fun _ => release env user escrowId;
         fun _ => release_buyer env user escrowId].

End EscrowKyc.

(** ** routes/disputes.ts *)

(** The body [{ decision, note }] of a resolve or of a KYC review. *)
Record DecisionBody := mkDecision {
  b_decision : option string;
  b_note : option string }.

Module Disputes.

(** [SET status = 'resolved', resolved_at = NOW()] *)
Definition d_resolve (t : nat) (d : Dispute) : Dispute :=
  mkDispute (d_id d) (d_escrow_id d) (d_opened_by d) (d_reason d)
            "resolved" (d_created_at d) (d_updated_at d) (Some t).

Definition valid_decision (decision : option string) : bool :=
  truthy decision
  && existsb (String.eqb (text decision))
             ["favor_buyer"; "favor_seller"; "rejected"].

(** POST /api/disputes/:id/resolve, body [{ decision, note }] *)
Definition resolve (env : Env) (user : AuthUser) (disputeId : string)
  (req_body : option DecisionBody) : Handler :=
  fun db =>
    match req_body with
    | None => reject 500 "Internal server error" db
    | Some body =>
        let decision := b_decision body in
        let note := b_note body in
        if negb (au_role user =? "admin")
        then reject 403 "Only admins can resolve disputes" db
        else if negb (valid_decision decision)
        then reject 400
               "Decision must be 'favor_buyer', 'favor_seller', or 'rejected'"
               db
        else
          match select_dispute db disputeId with
          | [] => reject 404 "Dispute not found" db
          | (dispute, e) :: _ =>
              if negb (d_status dispute =? "open")
              then reject 400 "Dispute already resolved or closed" db
              else
                let finish (n : nat) (db : DB) :=
                  let db := set_disputes
                              (update (is_dispute disputeId)
                                      (d_resolve (now env))) db in
                  let db := insert_audit (uuid env n) (au_id user)
                              "resolve_dispute" "disputes" disputeId
                              [("decision", Flat (jstr decision));
                               ("note", Flat (jstr (or_null note)))]
                              (now env) db in
                  reply 200 "Dispute resolved successfully" db in
                if text decision =? "favor_seller"
                then
                  if not_verified (select_kyc db (e_seller_id e))
                  then reject 403
                         "Seller is not KYC verified. Cannot release funds."
                         db
                  else
                    let db := update_escrow_status (d_escrow_id dispute)
                                "released" (now env) db in
                    let payoutId := uuid env 0 in
                    let db := set_payouts
                                (insert (bank_payout payoutId
                                           (d_escrow_id dispute))) db in
                    finish 1 db
                else finish 0 db
          end
    end.

End Disputes.

(** ** routes/webhooks.ts *)

Record WebhookReq := mkHook {
  x_signature : option string;
  hook_body : option Payload }.

Module Webhooks.

(** [JSON_EXTRACT(payload, '$.pg_ref') = ? AND event_type = ?]; a NULL on
    either side of [=] matches no row. *)
Definition same_event (pgRef : option string) (eventType : string)
  (w : WebhookEvent) : bool :=
  match p_pg_ref (w_payload w), pgRef with
  | Some stored, Some r => stored =? r
  | _, _ => false
  end && (w_event_type w =? eventType).

(** [WHERE pg_reference = ?] *)
Definition has_reference {Row : Type} (col : Row -> option string)
  (pgRef : string) (r : Row) : bool :=
  match col r with
  | Some stored => stored =? pgRef
  | None => false
  end.

Definition pi_paid (payload : Payload) (t : nat) (i : PaymentIntent)
  : PaymentIntent :=
  mkIntent (pi_id i) (pi_escrow_id i) (or_null (p_method payload))
           (pi_pg_reference i) (pi_qr_code_url i) "paid" (Some t) payload.

Definition w_set_processed (w : WebhookEvent) : WebhookEvent :=
  mkEvent (w_id w) (w_source w) (w_event_type w) (w_payload w) true
          (w_created_at w).

Definition mark_processed (eventId : string) : DB -> DB :=
  set_events (update (fun w => w_id w =? eventId) w_set_processed).

(** POST /webhooks/payments.  Reading a field of an absent body throws,
    which the handler's [catch] answers with 500. *)
Definition payments (env : Env) (req : WebhookReq) : Handler :=
  fun db =>
    if negb (truthy (x_signature req))
    then reject 400 "Missing signature" db
    else
      match hook_body req with
      | None => reject 500 "Internal server error" db
      | Some rawPayload =>
          let eventType := or_else (p_event rawPayload) "unknown" in
          let pgRef := or_null (p_pg_ref rawPayload) in
          let eventId := uuid env 0 in
          match select (same_event pgRef eventType) (webhook_events db) with
          | _ :: _ => reply 200 "Event already processed" db
          | [] =>
              let db := set_events
                          (insert (mkEvent eventId "payment_gateway"
                                     eventType rawPayload false (now env)))
                          db in
              let db :=
                match pgRef with
                | Some ref =>
                    if eventType =? "payment_succeeded"
                    then
                      match select (has_reference pi_pg_reference ref)
                                   (payment_intents db) with
                      | intent :: _ =>
                          let db := set_intents
                                      (update
                                         (fun i => pi_id i =? pi_id intent)
                                         (pi_paid rawPayload (now env)))
                                      db in
                          let db := update_escrow_status
                                      (pi_escrow_id intent) "funded"
                                      (now env) db in
                          mark_processed eventId db
                      | [] => db
                      end
                    else db
                | None => db
                end in
              reply 200 "Webhook processed" db
          end
      end.

(** [SET status = ?, sent_at = NOW(), pg_reference = ?] *)
Definition po_report (status pgRef : string) (t : nat) (p : Payout)
  : Payout :=
  mkPayout (po_id p) (po_escrow_id p) (po_seller_id p) (po_amount p)
           (po_bank_account p) (po_method p) status (po_created_at p)
           (Some t) (Some pgRef).

(** POST /webhooks/payouts *)
Definition payouts (env : Env) (req : WebhookReq) : Handler :=
  fun db =>
    if negb (truthy (x_signature req))
    then reject 400 "Missing signature" db
    else
      match hook_body req with
      | None => reject 500 "Internal server error" db
      | Some rawPayload =>
          let eventType := or_else (p_event rawPayload) "unknown" in
          let pgRef := or_null (p_pg_ref rawPayload) in
          let payoutStatus := or_else (p_status rawPayload) "pending" in
          let eventId := uuid env 0 in
          match select (same_event pgRef eventType) (webhook_events db) with
          | _ :: _ => reply 200 "Event already processed" db
          | [] =>
              let db := set_events
                          (insert (mkEvent eventId "payment_gateway"
                                     eventType rawPayload false (now env)))
                          db in
              let db :=
                match pgRef with
                | Some ref =>
                    match select (has_reference po_pg_reference ref)
                                 (payouts db) with
                    | payout :: _ =>
                        let db := set_payouts
                                    (update
                                       (fun p => po_id p =? po_id payout)
                                       (po_report payoutStatus ref
                                                  (now env))) db in
                        let db :=
                          if payoutStatus =? "sent"
                          then update_escrow_status (po_escrow_id payout)
                                 "completed" (now env) db
                          else db in
                        let db := mark_processed eventId db in
                        insert_audit (uuid env 1) "system" "payout_webhook"
                          "payouts" (po_id payout)
                          [("pg_ref", Flat (JStr ref));
                           ("status", Flat (JStr payoutStatus))]
                          (now env) db
                    | [] => db
                    end
                | None => db
                end in
              reply 200 "Payout webhook processed" db
          end
      end.

End Webhooks.

(** ** Reading the state the way the handlers do *)

(** The status a handler finds for an escrow: that of [rows[0]]. *)
Definition escrow_status (db : DB) (id : string) : option string :=
  option_map e_status (hd_error (select_escrow db id)).

Definition dispute_status (db : DB) (id : string) : option string :=
  option_map (fun r => d_status (fst r)) (hd_error (select_dispute db id)).

Definition kyc_of (db : DB) (id : string) : option string :=
  hd_error (select_kyc db id).

(** The four admin actions the router documents as idempotent. *)
Inductive AdminAction := Reject | Approve | Release | Complete.

Definition admin_action (a : AdminAction) (env : Env) (user : AuthUser)
  (id : string) : Handler :=
  match a with
  | Reject => Admin.disputes_reject env user id
  | Approve => Admin.disputes_approve env user id
  | Release => Admin.escrows_release env user id
  | Complete => Admin.escrows_complete env user id
  end.

(** ** A sample marketplace

    The scenario of one escrow of 100 between a buyer and a KYC verified
    seller, funded by QR with reference ref1 and shipped under TRK1, run
    through the handlers themselves. *)

Module Sample.

Definition alice : AuthUser := mkAuth "u-alice" "alice@example.com" "buyer".
Definition bob : AuthUser := mkAuth "u-bob" "bob@example.com" "seller".
Definition carol : AuthUser := mkAuth "u-carol" "carol@example.com" "seller".
Definition root : AuthUser := mkAuth "u-root" "root@example.com" "admin".

(** The environment of a request served at time [t] that draws the
    identifiers [a] and then [b]. *)
Definition at_time (t : nat) (a b : string) : Env :=
  mkEnv t (fun n => match n with 0 => a | _ => b end) "".

Definition run (h : Handler) (db : DB) : DB := snd (h db).

(** Alice and Bob are verified, Carol is not. *)
Definition market : DB :=
  mkDB [mkUser "u-alice" "alice@example.com" "buyer" "verified";
        mkUser "u-bob" "bob@example.com" "seller" "verified";
        mkUser "u-carol" "carol@example.com" "seller" "pending";
        mkUser "u-root" "root@example.com" "admin" "pending"]
       [] [] [] [] [] [].

Definition created : DB :=
  run (Escrow.create (at_time 1 "e1" "a1") alice
         (Some (mkCreate (Some "u-alice") (Some "u-bob") (Some 100%Z) None)))
      market.

Definition funded : DB :=
  run (Escrow.fund (at_time 2 "p1" "a2") alice "e1"
         (Some (mkFund (Some "qr") (Some "ref1") None)))
      created.

Definition shipped : DB :=
  run (EscrowKyc.ship (at_time 3 "a3" "a3") bob "e1"
         (mkShip (Some [("tracking_number", "TRK1")]) []))
      funded.

Definition confirmed : DB :=
  run (EscrowKyc.confirm (at_time 4 "a4" "a4") alice "e1") shipped.

(** The buyer disputes the shipped escrow. *)
Definition disputed : DB :=
  run (EscrowKyc.dispute (at_time 4 "d1" "a4") alice "e1"
         (Some (Some "not received")))
      shipped.

(** The gateway's callback for ref1. *)
Definition receipt : Payload :=
  mkPayload (Some "payment_succeeded") (Some "ref1") (Some "qr") None.

Definition paid : WebhookReq := mkHook (Some "sig") (Some receipt).

(** Escrow e1, just created, with an intent of reference ref1 that the
    gateway has not reported yet. *)
Definition awaiting : DB :=
  set_intents
    (insert (mkIntent "p1" "e1" None (Some "ref1") None "pending" None
               (mkPayload None (Some "ref1") None None)))
    created.

(** An escrow whose seller, Carol, is not verified. *)
Definition carols : DB :=
  run (Escrow.create (at_time 1 "e2" "a1") alice
         (Some (mkCreate (Some "u-alice") (Some "u-carol") (Some 50%Z)
                  None)))
      market.

Definition carols_funded : DB :=
  run (Escrow.fund (at_time 2 "p2" "a2") alice "e2"
         (Some (mkFund (Some "qr") (Some "ref2") None)))
      carols.

Definition carols_shipped : DB :=
  run (EscrowRoleOnly.ship (at_time 3 "a3" "a3") carol "e2"
         (Some (Some "TRK2")))
      carols_funded.

Definition carols_confirmed : DB :=
  run (EscrowKyc.confirm (at_time 4 "a4" "a4") alice "e2") carols_shipped.

Definition carols_disputed : DB :=
  run (EscrowKyc.dispute (at_time 5 "d2" "a5") alice "e2"
         (Some (Some "wrong item")))
      carols_confirmed.

End Sample.

(** ** The transition graph of the specification

    Follows the specification's words, not the handlers: the chain
    created, funded, shipped, confirmed, released, completed; cancelled
    from created and, by the admin's refund, from dispute; and the
    dispute outcomes (released, cancelled, completed) from the states in
    which a dispute can be open. *)

Definition active (s : string) : bool :=
  existsb (String.eqb s) ["funded"; "shipped"; "confirmed"].

Definition spec_edge (from to : string) : bool :=
  ((from =? "created") && (to =? "funded"))
  || ((from =? "funded") && (to =? "shipped"))
  || ((from =? "shipped") && (to =? "confirmed"))
  || ((from =? "confirmed") && (to =? "released"))
  || ((from =? "released") && (to =? "completed"))
  || ((from =? "created") && (to =? "cancelled"))
  || ((from =? "dispute") && (to =? "cancelled"))
  || (active from
      && existsb (String.eqb to) ["released"; "cancelled"; "completed"]).

(** The handlers that test the status they move the escrow from. *)
Inductive Step :=
| Fund (body : option FundBody)
| Ship (req : ShipReq)
| Confirm
| ReleaseFunds
| Cancel
| AdminRelease
| AdminComplete
| AdminRefund.

Definition step (s : Step) (env : Env) (user : AuthUser) (id : string)
  : Handler :=
  match s with
  | Fund body => Escrow.fund env user id body
  | Ship req => EscrowKyc.ship env user id req
  | Confirm => EscrowKyc.confirm env user id
  | ReleaseFunds => EscrowKyc.release env user id
  | Cancel => EscrowKyc.cancel env user id
  | AdminRelease => Admin.escrows_release env user id
  | AdminComplete => Admin.escrows_complete env user id
  | AdminRefund => Admin.escrows_refund env user id
  end.

(** ** routes/escrow.ts: the buyer's receipt *)

Module Receipt.

(** [SET buyer_proof_url = COALESCE(?, buyer_proof_url), updated_at = NOW()] *)
Definition e_receipt (url : option string) (t : nat) (e : Escrow) : Escrow :=
  mkEscrow (e_id e) (e_buyer_id e) (e_seller_id e) (e_amount e)
           (e_currency e) (e_status e) (e_seller_proof_url e)
           (e_seller_receipt_number e)
           (sql_coalesce url (e_buyer_proof_url e)) (e_created_at e) t.

(** [files.find(f => [...].includes(f.fieldname)) || files[0]] *)
Definition pick_file (files : list File) : option File :=
  match find (fun f => existsb (String.eqb (fieldname f))
                         ["receipt"; "proof"; "file"; "media"]) files with
  | Some f => Some f
  | None => hd_error files
  end.

(** POST /api/escrow/:id/receipt *)
Definition upload (env : Env) (user : AuthUser) (escrowId : string)
  (req : ShipReq) : Handler :=
  fun db =>
    if negb (au_role user =? "buyer")
    then reject 403 "Only buyers can upload receipt proof" db
    else
      match select_escrow db escrowId with
      | [] => reject 404 "Escrow not found" db
      | escrow :: _ =>
          if negb (e_buyer_id escrow =? au_id user)
          then reject 403 "You are not the buyer of this escrow" db
          else if negb (e_status escrow =? "shipped")
          then reject 400
                 "Escrow must be in 'shipped' state to upload receipt" db
          else
            let firstFile := pick_file (ship_files req) in
            let receipt_url :=
              match firstFile with
              | Some f => Some (base_url env ++ "/uploads/receipts/"
                                ++ basename f)
              | None =>
                  match ship_body req with
                  | Some body => field "file_url" body
                  | None => None
                  end
              end in
            if negb (truthy receipt_url)
            then reject 400
                   "Provide a receipt file (multipart) or file_url" db
            else
              let db := set_escrows
                          (update (is_escrow escrowId)
                                  (e_receipt receipt_url (now env))) db in
              let fstr (g : File -> string) :=
                jstr (or_null (option_map g firstFile)) in
              let fsize :=
                match firstFile with
                | Some f => if Nat.eqb (size f) 0 then JNull
                            else JNum (Z.of_nat (size f))
                | None => JNull
                end in
              let db := insert_audit (uuid env 0) (au_id user)
                          "upload_receipt" "escrow_transactions" escrowId
                          [("receipt_url", Flat (jstr receipt_url));
                           ("file",
                             Nested [("field", fstr fieldname);
                                     ("name", fstr originalname);
                                     ("type", fstr mimetype);
                                     ("size", fsize)])]
                          (now env) db in
              reply 201 "Receipt uploaded successfully" db
      end.

End Receipt.

(** ** The tables of evidence and of KYC submissions

    The handlers of routes/users.ts and the evidence upload of
    routes/disputes.ts write two more tables; a store is the database
    together with them. *)

Record Evidence := mkEvidence {
  ev_id : string;
  ev_dispute_id : string;
  ev_file_url : string;
  ev_note : option string;
  ev_uploaded_by : string;
  ev_created_at : nat }.

Record KycSubmission := mkSubmission {
  ks_id : string;
  ks_user_id : string;
  ks_full_name : string;
  ks_id_number : string;
  ks_document_url : string;
  ks_selfie_url : string;
  ks_status : string;
  ks_reviewer_id : option string;
  ks_note : option string;
  ks_verified_at : option nat;
  ks_rejected_at : option nat }.

Record Store := mkStore {
  base : DB;
  evidence : list Evidence;
  kyc_submissions : list KycSubmission }.

Definition StoreHandler : Type := Store -> Response * Store.

Definition set_base (f : DB -> DB) (s : Store) : Store :=
  mkStore (f (base s)) (evidence s) (kyc_submissions s).

Definition set_evidence (f : list Evidence -> list Evidence) (s : Store)
  : Store :=
  mkStore (base s) (f (evidence s)) (kyc_submissions s).

Definition set_submissions
  (f : list KycSubmission -> list KycSubmission) (s : Store) : Store :=
  mkStore (base s) (evidence s) (f (kyc_submissions s)).

(** A handler of the database, run on the store. *)
Definition on_base (h : Handler) : StoreHandler :=
  fun s => (fst (h (base s)), set_base (fun _ => snd (h (base s))) s).

Definition refuse (code : nat) (e : string) (s : Store) : Response * Store :=
  (mkRes code (Error e), s).

Definition answer (code : nat) (m : string) (s : Store) : Response * Store :=
  (mkRes code (Message m), s).

Definition set_users (f : list User -> list User) (db : DB) : DB :=
  mkDB (f (users db)) (escrow_transactions db) (payment_intents db)
       (payouts db) (disputes db) (audit_logs db) (webhook_events db).

(** ** routes/disputes.ts: evidence *)

Record EvidenceBody := mkEvidenceBody {
  eb_file_url : option string;
  eb_note : option string }.

Module EvidenceUpload.

(** POST /api/disputes/:id/evidence, body [{ file_url, note }] *)
Definition upload (env : Env) (user : AuthUser) (disputeId : string)
  (req_body : option EvidenceBody) : StoreHandler :=
  fun s =>
    match req_body with
    | None => refuse 500 "Internal server error" s
    | Some body =>
        let file_url := eb_file_url body in
        let note := eb_note body in
        if negb (truthy file_url)
        then refuse 400 "file_url is required" s
        else
          match select_dispute (base s) disputeId with
          | [] => refuse 404 "Dispute not found" s
          | (dispute, e) :: _ =>
              if negb (d_status dispute =? "open")
              then refuse 400 "Cannot upload evidence to closed dispute" s
              else if negb (au_id user =? e_buyer_id e)
                      && negb (au_id user =? e_seller_id e)
              then refuse 403
                     "Not authorized to upload evidence for this dispute" s
              else
                let evidenceId := uuid env 0 in
                let s := set_evidence
                           (insert (mkEvidence evidenceId disputeId
                                      (text file_url) (or_null note)
                                      (au_id user) (now env))) s in
                let s := set_base
                           (insert_audit (uuid env 1) (au_id user)
                              "upload_evidence" "evidence" evidenceId
                              [("file_url", Flat (jstr file_url));
                               ("note", Flat (jstr (or_null note)))]
                              (now env)) s in
                answer 201 "Evidence uploaded successfully" s
          end
    end.

End EvidenceUpload.

(** ** routes/users.ts: KYC *)

Record KycReq := mkKycReq {
  kyc_body : option (list (string * string));
  kyc_document : option File;
  kyc_selfie : option File }.

Record VerifyBody := mkVerify {
  v_decision : option string;
  v_note : option string;
  v_email : option string;
  v_user_id : option string }.

Module Users.

(** [requireAdmin], in front of a handler of the store. *)
Definition requireAdmin (user : AuthUser) (next : StoreHandler)
  : StoreHandler :=
  fun s =>
    if negb (au_role user =? "admin")
    then refuse 403 "Admin access required" s
    else next s.

Definition u_set_kyc (k : string) (u : User) : User :=
  mkUser (u_id u) (u_email u) (u_role u) k.

(** [file ? BASE_URL/uploads/kyc/basename : body.<key>] *)
Definition upload_url (env : Env) (f : option File) (key : string)
  (body : list (string * string)) : option string :=
  match f with
  | Some f => Some (base_url env ++ "/uploads/kyc/" ++ basename f)
  | None => field key body
  end.

(** POST /api/users/kyc.  Destructuring an absent body throws, which the
    handler's [catch] answers with 500. *)
Definition kyc_submit (env : Env) (user : AuthUser) (req : KycReq)
  : StoreHandler :=
  fun s =>
    match kyc_body req with
    | None => refuse 500 "Internal server error" s
    | Some body =>
        let full_name := field "full_name" body in
        let id_number := field "id_number" body in
        let document_url :=
          upload_url env (kyc_document req) "document_url" body in
        let selfie_url :=
          upload_url env (kyc_selfie req) "selfie_url" body in
        if negb (truthy full_name) || negb (truthy id_number)
           || negb (truthy document_url) || negb (truthy selfie_url)
        then refuse 400
               "All KYC fields are required (full_name, id_number, document or document_url, selfie or selfie_url)"
               s
        else
          let submissionId := uuid env 0 in
          let s := set_submissions
                     (insert (mkSubmission submissionId (au_id user)
                                (text full_name) (text id_number)
                                (text document_url) (text selfie_url)
                                "pending" None None None None)) s in
          let s := set_base
                     (set_users (update (is_user (au_id user))
                                        (u_set_kyc "submitted"))) s in
          answer 201 "KYC submitted successfully" s
    end.

(** [WHERE user_id = ? AND status = 'pending'] *)
Definition pending_of (userId : string) (k : KycSubmission) : bool :=
  (ks_user_id k =? userId) && (ks_status k =? "pending").

(** [SET status = ?, reviewer_id = ?, note = ?,
     verified_at = CASE WHEN ? = 'verified' THEN NOW() ELSE NULL END,
     rejected_at = CASE WHEN ? = 'rejected' THEN NOW() ELSE NULL END] *)
Definition ks_review (decision reviewer : string) (note : option string)
  (t : nat) (k : KycSubmission) : KycSubmission :=
  mkSubmission (ks_id k) (ks_user_id k) (ks_full_name k) (ks_id_number k)
               (ks_document_url k) (ks_selfie_url k) decision (Some reviewer)
               note
               (if decision =? "verified" then Some t else None)
               (if decision =? "rejected" then Some t else None).

(** The two statements every verify handler ends in. *)
Definition review (env : Env) (user : AuthUser) (decision : string)
  (note : option string) (userId : string) (s : Store) : Store :=
  let s := set_submissions
             (update (pending_of userId)
                     (ks_review decision (au_id user) (or_null note)
                                (now env))) s in
  set_base (set_users (update (is_user userId) (u_set_kyc decision))) s.

Definition is_decision (decision : option string) : bool :=
  match decision with
  | Some d => existsb (String.eqb d) ["verified"; "rejected"]
  | None => false
  end.

(** POST /api/users/:id/kyc/verify, body [{ decision, note }] *)
Definition kyc_verify (env : Env) (user : AuthUser) (userId : string)
  (req_body : option DecisionBody) : StoreHandler :=
  requireAdmin user (fun s =>
    match req_body with
    | None => refuse 500 "Internal server error" s
    | Some body =>
        let decision := b_decision body in
        let note := b_note body in
        if negb (is_decision decision)
        then refuse 400 "Decision must be 'verified' or 'rejected'" s
        else
          let s := review env user (text decision) note userId s in
          answer 200 ("KYC " ++ text decision ++ " successfully") s
    end).

(** POST /api/users/kyc/verify, body [{ decision, note, email, user_id }],
    the handler registered first *)
Definition kyc_verify_body (env : Env) (user : AuthUser)
  (req_body : option VerifyBody) : StoreHandler :=
  requireAdmin user (fun s =>
    match req_body with
    | None => refuse 500 "Internal server error" s
    | Some body =>
        if negb (truthy (v_decision body))
           || negb (is_decision (v_decision body))
        then refuse 400 "Decision must be 'verified' or 'rejected'" s
        else
          let finish (targetUserId : option string) :=
            if negb (truthy targetUserId)
            then refuse 400 "Provide email or user_id" s
            else
              let s := review env user (text (v_decision body))
                         (v_note body) (text targetUserId) s in
              answer 200
                ("KYC " ++ text (v_decision body) ++ " successfully") s
          in
          if negb (truthy (v_user_id body)) && truthy (v_email body)
          then
            match select (fun u => u_email u =? text (v_email body))
                         (users (base s)) with
            | [] => refuse 404 "User not found for email" s
            | u :: _ => finish (Some (u_id u))
            end
          else finish (v_user_id body)
    end).

End Users.

(** ** middleware/auth.ts *)

(** [s.split(sep)] for a one-character separator. *)
Fixpoint split_on (sep : Ascii.ascii) (s : string) : list string :=
  match s with
  | EmptyString => [EmptyString]
  | String c rest =>
      if Ascii.eqb c sep
      then EmptyString :: split_on sep rest
      else
        match split_on sep rest with
        | w :: ws => String c w :: ws
        | [] => [String c EmptyString]
        end
  end.

Definition space : Ascii.ascii := Ascii.ascii_of_nat 32.

Section Auth.
(** [jwt.verify(token, JWT_SECRET)]: the claims of a token the library
    accepts, nothing for one it throws on. *)
Variable verify : string -> option AuthUser.

Definition authenticateJWT (authorization : option string)
  (next : AuthUser -> Handler) : Handler :=
  fun db =>
    if negb (truthy authorization)
    then reject 401 "Authorization header missing" db
    else
      let token := nth_error (split_on space (text authorization)) 1 in
      if negb (truthy token)
      then reject 401 "Token missing" db
      else
        match verify (text token) with
        | Some decoded => next decoded db
        | None => reject 403 "Invalid or expired token" db
        end.
End Auth.

(** ** Every request to the database

    One request for each POST route of the escrow, dispute, admin and
    webhook routers, the ship and release routes of the older
    routes/escrow.ts included.  POST /api/escrow/:id/release is served
    by [EscrowKyc.post_release], the two handlers registered for it. *)

Inductive Request :=
| PostEscrow (user : AuthUser) (body : option CreateBody)
| PostFund (user : AuthUser) (id : string) (body : option FundBody)
| PostShipRoleOnly (user : AuthUser) (id : string)
    (body : option (option string))
| PostShip (user : AuthUser) (id : string) (req : ShipReq)
| PostReceipt (user : AuthUser) (id : string) (req : ShipReq)
| PostConfirm (user : AuthUser) (id : string)
| PostRelease (user : AuthUser) (id : string)
| PostReleaseRoleOnly (user : AuthUser) (id : string)
| PostDispute (user : AuthUser) (id : string) (body : option (option string))
| PostCancel (user : AuthUser) (id : string)
| PostResolve (user : AuthUser) (id : string) (body : option DecisionBody)
| PostAdminReject (user : AuthUser) (id : string)
| PostAdminApprove (user : AuthUser) (id : string)
| PostAdminRelease (user : AuthUser) (id : string)
| PostAdminComplete (user : AuthUser) (id : string)
| PostAdminRefund (user : AuthUser) (id : string)
| PostPaymentHook (req : WebhookReq)
| PostPayoutHook (req : WebhookReq).

Definition handle (env : Env) (r : Request) : Handler :=
  match r with
  | PostEscrow user body => Escrow.create env user body
  | PostFund user id body => Escrow.fund env user id body
  | PostShipRoleOnly user id body => EscrowRoleOnly.ship env user id body
  | PostShip user id req => EscrowKyc.ship env user id req
  | PostReceipt user id req => Receipt.upload env user id req
  | PostConfirm user id => EscrowKyc.confirm env user id
  | PostRelease user id => EscrowKyc.post_release env user id
  | PostReleaseRoleOnly user id => EscrowRoleOnly.release env user id
  | PostDispute user id body => EscrowKyc.dispute env user id body
  | PostCancel user id => EscrowKyc.cancel env user id
  | PostResolve user id body => Disputes.resolve env user id body
  | PostAdminReject user id => Admin.disputes_reject env user id
  | PostAdminApprove user id => Admin.disputes_approve env user id
  | PostAdminRelease user id => Admin.escrows_release env user id
  | PostAdminComplete user id => Admin.escrows_complete env user id
  | PostAdminRefund user id => Admin.escrows_refund env user id
  | PostPaymentHook req => Webhooks.payments env req
  | PostPayoutHook req => Webhooks.payouts env req
  end.

(** The database after a sequence of requests, served one after the
    other. *)
Fixpoint serve (reqs : list (Env * Request)) (db : DB) : DB :=
  match reqs with
  | [] => db
  | (env, r) :: rest => serve rest (snd (handle env r db))
  end.

(** What no statement of the handlers assigns: the columns an escrow is
    inserted with, its status and proofs apart. *)
Definition identity (e : Escrow)
  : string * string * string * Z * string * nat :=
  (e_id e, e_buyer_id e, e_seller_id e, e_amount e, e_currency e,
   e_created_at e).


(** What a step of the lifecycle leaves of the one row of an escrow. *)
Definition moved (db db' : DB) (id : string) (e : Escrow) (s : string)
  : Prop :=
  exists e',
    select_escrow db' id = [e'] /\ identity e' = identity e
    /\ e_status e' = s /\ users db' = users db.

(** * Properties *)

(** ** Tables *)

Section TableFacts.
Context {Row : Type}.
Implicit Types (p q : Row -> bool) (f : Row -> Row) (t : list Row).

Lemma select_update_commute p q f t :
  (forall r, q (f r) = q r) ->
  select q (update p f t) = update p f (select q t).
Proof.
  intros Hq. unfold select, update.
  induction t as [|r t IH]; simpl; [reflexivity|].
  destruct (p r) eqn:Hp.
  - rewrite Hq. destruct (q r); simpl; rewrite ?Hp, IH; reflexivity.
  - destruct (q r); simpl; rewrite ?Hp, IH; reflexivity.
Qed.

Lemma update_all p f t :
  forallb p t = true -> update p f t = map f t.
Proof.
  unfold update. induction t as [|r t IH]; simpl; [reflexivity|].
  intros H. apply andb_true_iff in H as [Hr Ht].
  rewrite Hr, IH; auto.
Qed.

Lemma select_all p t : forallb p (select p t) = true.
Proof.
  unfold select. induction t as [|r t IH]; simpl; [reflexivity|].
  destruct (p r) eqn:Hp; simpl; rewrite ?Hp; auto.
Qed.

(** Rewriting the rows a query selects: the query then returns every one
    of them rewritten. *)
Lemma select_update_same p f t :
  (forall r, p (f r) = p r) ->
  select p (update p f t) = map f (select p t).
Proof.
  intros Hp. rewrite select_update_commute by assumption.
  apply update_all, select_all.
Qed.

Lemma select_insert p r t :
  select p (insert r t) = (select p t ++ (if p r then [r] else []))%list.
Proof. unfold select, insert. rewrite filter_app. reflexivity. Qed.

Lemma select_head_in p t r rest : select p t = r :: rest -> p r = true.
Proof.
  intros H. assert (Hin : In r (select p t)) by (rewrite H; left; auto).
  apply filter_In in Hin. tauto.
Qed.

Lemma select_found p t r : In r t -> p r = true -> select p t <> [].
Proof.
  intros Hin Hp Hnil.
  assert (H : In r (select p t)) by (apply filter_In; auto).
  rewrite Hnil in H. exact H.
Qed.

Lemma select_none p t : (forall r, p r = false) -> select p t = [].
Proof.
  intros H. unfold select. induction t as [|r t IH]; simpl; auto.
  rewrite H. exact IH.
Qed.
End TableFacts.

Lemma eqb_true (a b : string) : (a =? b) = true -> a = b.
Proof. apply String.eqb_eq. Qed.

Lemma eqb_same (a : string) : (a =? a) = true.
Proof. apply String.eqb_refl. Qed.

Lemma e_set_status_id s t e : e_id (e_set_status s t e) = e_id e.
Proof. reflexivity. Qed.

Lemma select_escrow_updated db id s t :
  select_escrow (update_escrow_status id s t db) id
  = map (e_set_status s t) (select_escrow db id).
Proof.
  unfold select_escrow, update_escrow_status. simpl.
  apply select_update_same. intros r. reflexivity.
Qed.

Lemma escrow_status_updated db id s t e rest :
  select_escrow db id = e :: rest ->
  escrow_status (update_escrow_status id s t db) id = Some s.
Proof.
  intros H. unfold escrow_status.
  rewrite select_escrow_updated, H. reflexivity.
Qed.

(** ** The dispute-escrow join after both rows were rewritten *)

Lemma join_updated (es : list Escrow) (ds : list Dispute) rec e rest
  (fe : Escrow -> Escrow) (fd : Dispute -> Dispute) :
  flat_map (fun d => map (pair d) (select (is_escrow (d_escrow_id d)) es)) ds
  = (rec, e) :: rest ->
  (forall x, e_id (fe x) = e_id x) ->
  (forall d, d_escrow_id (fd d) = d_escrow_id d) ->
  exists rest',
    flat_map
      (fun d => map (pair d)
                  (select (is_escrow (d_escrow_id d))
                          (update (is_escrow (d_escrow_id rec)) fe es)))
      (map fd ds)
    = (fd rec, fe e) :: rest'.
Proof.
  intros H Hfe Hfd. induction ds as [|d ds IH]; simpl in *; [discriminate|].
  rewrite select_update_commute
    by (intros x; unfold is_escrow; rewrite Hfe; reflexivity).
  rewrite Hfd.
  destruct (select (is_escrow (d_escrow_id d)) es) as [|e0 l] eqn:E.
  - simpl in *. apply IH. exact H.
  - simpl in H. injection H as Hd He Hrest. subst d e0.
    apply select_head_in in E. simpl. rewrite E.
    eexists. reflexivity.
Qed.

Lemma select_dispute_updated db db' id rec e rest
  (fe : Escrow -> Escrow) (fd : Dispute -> Dispute) :
  select_dispute db id = (rec, e) :: rest ->
  (forall x, e_id (fe x) = e_id x) ->
  (forall d, d_id (fd d) = d_id d) ->
  (forall d, d_escrow_id (fd d) = d_escrow_id d) ->
  escrow_transactions db'
  = update (is_escrow (d_escrow_id rec)) fe (escrow_transactions db) ->
  disputes db' = update (is_dispute id) fd (disputes db) ->
  exists rest', select_dispute db' id = (fd rec, fe e) :: rest'.
Proof.
  intros H Hfe Hfd1 Hfd2 Hes Hds.
  unfold select_dispute, select_escrow in *. rewrite Hes, Hds.
  rewrite select_update_same
    by (intros d; unfold is_dispute; rewrite Hfd1; reflexivity).
  eapply join_updated; eauto.
Qed.

(** When only the dispute rows are rewritten the escrow half of the join
    is the one found before. *)
Lemma select_dispute_resolved db db' id rec e rest
  (fd : Dispute -> Dispute) :
  select_dispute db id = (rec, e) :: rest ->
  (forall d, d_id (fd d) = d_id d) ->
  (forall d, d_escrow_id (fd d) = d_escrow_id d) ->
  escrow_transactions db' = escrow_transactions db ->
  disputes db' = update (is_dispute id) fd (disputes db) ->
  exists rest', select_dispute db' id = (fd rec, e) :: rest'.
Proof.
  intros H Hfd1 Hfd2 Hes Hds.
  destruct (select_dispute_updated db db' id rec e rest (fun x => x) fd)
    as [rest' Hr]; auto.
  - rewrite Hes. unfold update. rewrite <- (map_id (escrow_transactions db))
      at 1. apply map_ext. intros a. destruct (is_escrow _ a); reflexivity.
  - eauto.
Qed.

(** The escrow a join row carries is the one the dispute names. *)
Lemma select_dispute_escrow db id rec e rest :
  select_dispute db id = (rec, e) :: rest ->
  exists rest', select_escrow db (d_escrow_id rec) = e :: rest'.
Proof.
  unfold select_dispute.
  induction (select (is_dispute id) (disputes db)) as [|d ds IH]; simpl;
    [discriminate|].
  destruct (select_escrow db (d_escrow_id d)) as [|e0 l] eqn:E; simpl.
  - exact IH.
  - intros H. injection H as Hd He _. subst. eauto.
Qed.

(** ** Idempotent admin actions *)

Ltac refuted :=
  match goal with
  | H : reject _ _ _ = (_, _) |- _ =>
      unfold reject in H; inversion H; subst; simpl in *; discriminate
  | H : (mkRes _ _, _) = (_, _) |- _ =>
      inversion H; subst; simpl in *; discriminate
  end.

Ltac answered :=
  match goal with
  | H : reply _ _ _ = (_, _) |- _ =>
      unfold reply in H; inversion H; subst; clear H
  end.

Lemma reject_twice env env' user id db r db' :
  Admin.disputes_reject env user id db = (r, db') ->
  res_status r = 200 ->
  Admin.disputes_reject env' user id db'
  = reply 200 "Dispute already rejected and escrow completed" db'.
Proof.
  unfold Admin.disputes_reject, requireAdmin. intros H Hok.
  destruct (negb (au_role user =? "admin")); [refuted|].
  destruct (select_dispute db id) as [|[rec e] rest] eqn:J; [refuted|].
  destruct ((d_status rec =? "rejected") && (e_status e =? "completed"))
    eqn:A; answered.
  - rewrite J, A. reflexivity.
  - match goal with |- context [select_dispute ?d id] =>
      destruct (select_dispute_updated db d id rec e rest
                  (e_set_status "completed" (now env))
                  (Admin.d_set_status "rejected" (now env)))
        as [rest' J']; auto
    end.
    rewrite J'. reflexivity.
Qed.

Lemma approve_twice env env' user id db r db' :
  Admin.disputes_approve env user id db = (r, db') ->
  res_status r = 200 ->
  Admin.disputes_approve env' user id db'
  = reply 200 "Dispute already approved and escrow cancelled" db'.
Proof.
  unfold Admin.disputes_approve, requireAdmin. intros H Hok.
  destruct (negb (au_role user =? "admin")); [refuted|].
  destruct (select_dispute db id) as [|[rec e] rest] eqn:J; [refuted|].
  destruct ((d_status rec =? "resolved") && (e_status e =? "cancelled"))
    eqn:A; answered.
  - rewrite J, A. reflexivity.
  - match goal with |- context [select_dispute ?d id] =>
      destruct (select_dispute_updated db d id rec e rest
                  (e_set_status "cancelled" (now env))
                  (Admin.d_set_status "resolved" (now env)))
        as [rest' J']; auto
    end.
    rewrite J'. reflexivity.
Qed.

Lemma release_twice env env' user id db r db' :
  Admin.escrows_release env user id db = (r, db') ->
  res_status r = 200 ->
  Admin.escrows_release env' user id db'
  = reply 200 "Escrow already released" db'.
Proof.
  unfold Admin.escrows_release, requireAdmin. intros H Hok.
  destruct (negb (au_role user =? "admin")); [refuted|].
  destruct (select_escrow db id) as [|escrow rest] eqn:E; [refuted|].
  destruct (e_status escrow =? "released") eqn:R.
  - answered. rewrite E, R. reflexivity.
  - destruct (negb (e_status escrow =? "confirmed")); [refuted|].
    destruct (not_verified _); [refuted|].
    destruct (scalar _); [|refuted].
    answered.
    match goal with |- context [select_escrow ?d id] =>
      change (select_escrow d id)
        with (select_escrow
                (update_escrow_status id "released" (now env) db) id)
    end.
    rewrite select_escrow_updated, E. reflexivity.
Qed.

Lemma advance_payout_escrows env user id db :
  escrow_transactions (snd (Admin.advance_payout env user id db))
  = escrow_transactions db.
Proof.
  unfold Admin.advance_payout.
  destruct (Admin.latest _) as [p|]; [|reflexivity].
  destruct (po_status p =? "pending"); reflexivity.
Qed.

Lemma complete_twice env env' user id db r db' :
  Admin.escrows_complete env user id db = (r, db') ->
  res_status r = 200 ->
  Admin.escrows_complete env' user id db'
  = reply 200 "Escrow already completed" db'.
Proof.
  unfold Admin.escrows_complete, requireAdmin. intros H Hok.
  destruct (negb (au_role user =? "admin")); [refuted|].
  destruct (select_escrow db id) as [|escrow rest] eqn:E; [refuted|].
  destruct (e_status escrow =? "completed") eqn:R.
  - answered. rewrite E, R. reflexivity.
  - destruct (negb (e_status escrow =? "released")); [refuted|].
    pose proof (advance_payout_escrows env user id
                  (update_escrow_status id "completed" (now env) db)) as P.
    destruct (Admin.advance_payout _ _ _ _) as [n dbp]. simpl in P.
    answered.
    assert (S : select_escrow
                  (insert_audit (uuid env n) (au_id user) "complete"
                     "escrow_transactions" id
                     [("status", Flat (JStr "completed"))] (now env) dbp) id
                = map (e_set_status "completed" (now env))
                      (select_escrow db id)).
    { rewrite <- select_escrow_updated. unfold select_escrow. simpl.
      rewrite P. reflexivity. }
    rewrite S, E. reflexivity.
Qed.

(** C4.  Each of the admin actions dispute reject, dispute approve, escrow
    release and escrow complete, run a second time right after a run that
    answered 200, answers 200 again and leaves the whole database (disputes,
    escrows, payouts, and the audit log too) as the first run left it. *)
Theorem admin_action_idempotent a env env' user id db r db' :
  admin_action a env user id db = (r, db') ->
  res_status r = 200 ->
  exists m, admin_action a env' user id db' = (mkRes 200 (Message m), db').
Proof.
  intros H Hok. destruct a; simpl in *; eexists.
  - eapply reject_twice; eauto.
  - eapply approve_twice; eauto.
  - eapply release_twice; eauto.
  - eapply complete_twice; eauto.
Qed.

(** ** Dispute resolution *)

Lemma kyc_verified db id :
  kyc_of db id = Some "verified" -> not_verified (select_kyc db id) = false.
Proof.
  unfold kyc_of, not_verified.
  destruct (select_kyc db id) as [|k l]; simpl; [discriminate|].
  intros H. injection H as ->. reflexivity.
Qed.

Lemma kyc_not_verified db id :
  kyc_of db id <> Some "verified" -> not_verified (select_kyc db id) = true.
Proof.
  unfold kyc_of, not_verified.
  destruct (select_kyc db id) as [|k l]; simpl; [reflexivity|].
  intros H. destruct (k =? "verified") eqn:K; [|reflexivity].
  apply eqb_true in K. subst. congruence.
Qed.

Lemma not_open s : s <> "open" -> (s =? "open") = false.
Proof. intros H. apply String.eqb_neq. exact H. Qed.

(** C5.  An admin's resolve with decision favor_seller on a dispute that is
    open, the seller of its escrow being KYC verified, answers 200, leaves
    the escrow of the dispute released, appends exactly one payout row,
    which names that escrow and is pending, and leaves the dispute
    resolved; on a dispute that is not open it answers 400 and the
    database is the one it was given. *)
Theorem resolve_favor_seller env user id note db dispute e rest :
  au_role user = "admin" ->
  select_dispute db id = (dispute, e) :: rest ->
  let out := Disputes.resolve env user id
               (Some (mkDecision (Some "favor_seller") note)) db in
  (d_status dispute = "open" ->
   kyc_of db (e_seller_id e) = Some "verified" ->
   res_status (fst out) = 200
   /\ e_id e = d_escrow_id dispute
   /\ escrow_status db (e_id e) = Some (e_status e)
   /\ escrow_status (snd out) (e_id e) = Some "released"
   /\ payouts (snd out)
      = (payouts db
         ++ [mkPayout (uuid env 0) (e_id e) None None (Some "1234567890")
                      (Some "BI-FAST") "pending" None None None])%list
   /\ dispute_status (snd out) id = Some "resolved")
  /\ (d_status dispute <> "open" ->
      out = reject 400 "Dispute already resolved or closed" db).
Proof.
  intros Hadmin J out. subst out. unfold Disputes.resolve.
  rewrite Hadmin, J. simpl. split.
  - intros Hopen Hkyc. rewrite Hopen. simpl.
    rewrite (kyc_verified _ _ Hkyc). simpl.
    destruct (select_dispute_escrow _ _ _ _ _ J) as [rest' E].
    assert (Hid : e_id e = d_escrow_id dispute).
    { apply select_head_in in E. apply eqb_true in E. exact E. }
    rewrite Hid. repeat split.
    + unfold escrow_status. rewrite E. reflexivity.
    + exact (escrow_status_updated db _ "released" (now env) _ _ E).
    + match goal with |- dispute_status ?d id = _ =>
        destruct (select_dispute_updated db d id dispute e rest
                    (e_set_status "released" (now env))
                    (Disputes.d_resolve (now env)))
          as [rest'' J']; auto
      end.
      unfold dispute_status. rewrite J'. reflexivity.
  - intros Hclosed. rewrite (not_open _ Hclosed). reflexivity.
Qed.

(** C6.  An admin's resolve with decision favor_buyer on an open dispute
    answers 200 and leaves the dispute resolved, the escrow table exactly as
    it was (so the status of the disputed escrow too), and the payout table
    exactly as it was. *)
Theorem resolve_favor_buyer env user id note db dispute e rest :
  au_role user = "admin" ->
  select_dispute db id = (dispute, e) :: rest ->
  d_status dispute = "open" ->
  let out := Disputes.resolve env user id
               (Some (mkDecision (Some "favor_buyer") note)) db in
  res_status (fst out) = 200
  /\ dispute_status (snd out) id = Some "resolved"
  /\ escrow_transactions (snd out) = escrow_transactions db
  /\ payouts (snd out) = payouts db.
Proof.
  intros Hadmin J Hopen out. subst out. unfold Disputes.resolve.
  rewrite Hadmin, J. simpl. rewrite Hopen. simpl.
  repeat split.
  match goal with |- dispute_status ?d id = _ =>
    destruct (select_dispute_resolved db d id dispute e rest
                (Disputes.d_resolve (now env)))
      as [rest' J']; auto
  end.
  unfold dispute_status. rewrite J'. reflexivity.
Qed.

(** ** The payments webhook *)

Lemma or_null_some v s : or_null v = Some s -> v = Some s /\ s <> "".
Proof.
  unfold or_null, truthy. destruct v as [x|]; [|discriminate].
  destruct (x =? "") eqn:X; simpl; [discriminate|].
  intros H. injection H as ->. split; [reflexivity|].
  apply String.eqb_neq. exact X.
Qed.

Lemma or_null_truthy s : s <> "" -> or_null (Some s) = Some s.
Proof.
  intros H. unfold or_null, truthy.
  apply String.eqb_neq in H. rewrite H. reflexivity.
Qed.

Lemma same_event_processed pgRef ty (p : WebhookEvent -> bool) w :
  Webhooks.same_event pgRef ty
    (if p w then Webhooks.w_set_processed w else w)
  = Webhooks.same_event pgRef ty w.
Proof. destruct (p w); reflexivity. Qed.

(** A stored event of the same reference and type is found again, whatever
    was marked processed since. *)
Lemma stored_event_found pgRef ty (p : WebhookEvent -> bool) w ws :
  In w ws ->
  Webhooks.same_event pgRef ty w = true ->
  select (Webhooks.same_event pgRef ty)
         (update p Webhooks.w_set_processed ws) <> [].
Proof.
  intros Hin Hw.
  apply (select_found _ _ (if p w then Webhooks.w_set_processed w else w)).
  - unfold update.
    apply (in_map (fun r => if p r then Webhooks.w_set_processed r else r)).
    exact Hin.
  - rewrite same_event_processed. exact Hw.
Qed.

Lemma update_nothing {Row : Type} (f : Row -> Row) (t : list Row) :
  update (fun _ => false) f t = t.
Proof. unfold update. apply map_id. Qed.

Lemma payments_unsigned env req db :
  truthy (x_signature req) = false ->
  Webhooks.payments env req db = reject 400 "Missing signature" db.
Proof. intros H. unfold Webhooks.payments. rewrite H. reflexivity. Qed.

Lemma payments_duplicate env req body db ref w :
  truthy (x_signature req) = true ->
  hook_body req = Some body ->
  p_event body = Some "payment_succeeded" ->
  p_pg_ref body = Some ref -> ref <> "" ->
  In w (webhook_events db) ->
  p_pg_ref (w_payload w) = Some ref ->
  w_event_type w = "payment_succeeded" ->
  Webhooks.payments env req db = reply 200 "Event already processed" db.
Proof.
  intros Hsig Hbody Hev Href Hne Hin Hw Hty.
  unfold Webhooks.payments. rewrite Hsig, Hbody, Hev, Href. simpl.
  rewrite (or_null_truthy _ Hne).
  destruct (select _ (webhook_events db)) eqn:S; [|reflexivity].
  exfalso. revert S. apply (select_found _ _ w Hin).
  unfold Webhooks.same_event. rewrite Hw, Hty, eqb_same. reflexivity.
Qed.

Lemma payments_no_body env req db :
  truthy (x_signature req) = true ->
  hook_body req = None ->
  Webhooks.payments env req db = reject 500 "Internal server error" db.
Proof.
  intros Hsig Hb. unfold Webhooks.payments. rewrite Hsig, Hb. reflexivity.
Qed.

Lemma payments_known env req body db w ws :
  truthy (x_signature req) = true ->
  hook_body req = Some body ->
  select (Webhooks.same_event (or_null (p_pg_ref body))
                              (or_else (p_event body) "unknown"))
         (webhook_events db) = w :: ws ->
  Webhooks.payments env req db = reply 200 "Event already processed" db.
Proof.
  intros Hsig Hb S. unfold Webhooks.payments.
  rewrite Hsig, Hb. simpl. rewrite S. reflexivity.
Qed.

(** A delivery without a reference is stored and processes nothing. *)
Lemma payments_no_reference env req body db :
  hook_body req = Some body ->
  or_null (p_pg_ref body) = None ->
  payment_intents (snd (Webhooks.payments env req db)) = payment_intents db
  /\ escrow_transactions (snd (Webhooks.payments env req db))
     = escrow_transactions db.
Proof.
  intros Hb Href. unfold Webhooks.payments. rewrite Hb, Href.
  destruct (negb (truthy (x_signature req))); [split; reflexivity|].
  destruct (select _ _); split; reflexivity.
Qed.

(** A first delivery with a reference stores its event, which the
    processing may mark but does not remove. *)
Lemma payments_stored env req body db ref :
  truthy (x_signature req) = true ->
  hook_body req = Some body ->
  or_null (p_pg_ref body) = Some ref ->
  select (Webhooks.same_event (Some ref) (or_else (p_event body) "unknown"))
         (webhook_events db) = [] ->
  exists p,
    webhook_events (snd (Webhooks.payments env req db))
    = update p Webhooks.w_set_processed
        (insert (mkEvent (uuid env 0) "payment_gateway"
                   (or_else (p_event body) "unknown") body false (now env))
                (webhook_events db)).
Proof.
  intros Hsig Hb Href S. unfold Webhooks.payments.
  rewrite Hsig, Hb, Href. simpl. rewrite S.
  destruct (or_else (p_event body) "unknown" =? "payment_succeeded").
  - destruct (select _ (payment_intents _)).
    + exists (fun _ => false). simpl. rewrite update_nothing. reflexivity.
    + eexists. reflexivity.
  - exists (fun _ => false). simpl. rewrite update_nothing. reflexivity.
Qed.

(** The second of two deliveries of one request never touches a payment
    intent or an escrow; when the event carries a reference it is answered
    as already processed and nothing at all is written. *)
Lemma payments_redelivered env env' req db :
  let db1 := snd (Webhooks.payments env req db) in
  let out := Webhooks.payments env' req db1 in
  payment_intents (snd out) = payment_intents db1
  /\ escrow_transactions (snd out) = escrow_transactions db1
  /\ (forall body ref,
        truthy (x_signature req) = true ->
        hook_body req = Some body ->
        p_pg_ref body = Some ref -> ref <> "" ->
        out = reply 200 "Event already processed" db1).
Proof.
  intros db1 out. subst out.
  destruct (truthy (x_signature req)) eqn:Hsig.
  2:{ rewrite (payments_unsigned env' req db1 Hsig).
      repeat split. discriminate. }
  destruct (hook_body req) as [body|] eqn:Hbody.
  2:{ rewrite (payments_no_body env' req db1 Hsig Hbody).
      repeat split. discriminate. }
  set (ty := or_else (p_event body) "unknown").
  assert (Hknown : forall w ws,
    select (Webhooks.same_event (or_null (p_pg_ref body)) ty)
           (webhook_events db1) = w :: ws ->
    payment_intents (snd (Webhooks.payments env' req db1))
    = payment_intents db1
    /\ escrow_transactions (snd (Webhooks.payments env' req db1))
       = escrow_transactions db1
    /\ (forall body0 ref,
          true = true -> Some body = Some body0 ->
          p_pg_ref body0 = Some ref -> ref <> "" ->
          Webhooks.payments env' req db1
          = reply 200 "Event already processed" db1)).
  { intros w ws S1.
    rewrite (payments_known env' req body db1 w ws Hsig Hbody S1).
    repeat split. }
  destruct (select (Webhooks.same_event (or_null (p_pg_ref body)) ty)
                   (webhook_events db)) as [|w0 ws0] eqn:S.
  2:{ assert (Hdb1 : db1 = db).
      { unfold db1.
        rewrite (payments_known env req body db w0 ws0 Hsig Hbody S).
        reflexivity. }
      apply (Hknown w0 ws0). rewrite Hdb1. exact S. }
  destruct (or_null (p_pg_ref body)) as [ref|] eqn:Href.
  - destruct (payments_stored env req body db ref Hsig Hbody Href S)
      as [p Hp].
    fold db1 in Hp.
    destruct (select (Webhooks.same_event (Some ref) ty) (webhook_events db1))
      as [|w1 ws1] eqn:S1.
    + exfalso. revert S1. rewrite Hp.
      eapply stored_event_found.
      * unfold insert. apply in_or_app. right. left. reflexivity.
      * apply or_null_some in Href as [Hraw _].
        unfold Webhooks.same_event. simpl. fold ty.
        rewrite Hraw, !eqb_same. reflexivity.
    + apply (Hknown w1 ws1). reflexivity.
  - destruct (payments_no_reference env' req body db1 Hbody Href) as [Hi He].
    repeat split; try assumption.
    intros body0 ref _ Hb Hr Hne. injection Hb as <-.
    rewrite Hr, (or_null_truthy _ Hne) in Href. discriminate.
Qed.

(** The delivery that is not yet stored marks the intent of its reference
    paid and moves that intent's escrow to funded. *)
Lemma payments_first env req body db ref intent rest :
  truthy (x_signature req) = true ->
  hook_body req = Some body ->
  p_event body = Some "payment_succeeded" ->
  p_pg_ref body = Some ref -> ref <> "" ->
  select (Webhooks.same_event (Some ref) "payment_succeeded")
         (webhook_events db) = [] ->
  select (Webhooks.has_reference pi_pg_reference ref) (payment_intents db)
  = intent :: rest ->
  let out := Webhooks.payments env req db in
  fst out = mkRes 200 (Message "Webhook processed")
  /\ payment_intents (snd out)
     = map (fun i =>
              if pi_id i =? pi_id intent
              then mkIntent (pi_id i) (pi_escrow_id i)
                     (match p_method body with
                      | Some m => if m =? "" then None else Some m
                      | None => None
                      end)
                     (pi_pg_reference i) (pi_qr_code_url i) "paid"
                     (Some (now env)) body
              else i)
           (payment_intents db)
  /\ escrow_transactions (snd out)
     = map (fun e =>
              if e_id e =? pi_escrow_id intent
              then mkEscrow (e_id e) (e_buyer_id e) (e_seller_id e)
                     (e_amount e) (e_currency e) "funded"
                     (e_seller_proof_url e) (e_seller_receipt_number e)
                     (e_buyer_proof_url e) (e_created_at e) (now env)
              else e)
           (escrow_transactions db).
Proof.
  intros Hsig Hb Hev Href Hne S Hint. unfold Webhooks.payments.
  rewrite Hsig, Hb, Hev, Href. simpl. rewrite (or_null_truthy _ Hne), S.
  simpl. rewrite Hint. split; [reflexivity|]. split.
  - simpl. unfold update. apply map_ext. intros i.
    destruct (pi_id i =? pi_id intent); [|reflexivity].
    unfold Webhooks.pi_paid, or_null, truthy.
    destruct (p_method body) as [m|]; [|reflexivity].
    destruct (m =? ""); reflexivity.
  - reflexivity.
Qed.

(** C7.  The payments webhook answers a request without a signature with
    400 and writes nothing; it answers a signed payment_succeeded delivery
    whose reference and event type are those of a stored event with 200
    "Event already processed" and writes nothing; and of two deliveries of
    one event in a row the first, not yet stored, rewrites every intent of
    the found intent's id to status paid, paid at the time of the delivery,
    with the delivery's method and payload, and every escrow of that
    intent's escrow id to status funded, all other rows and columns being
    kept, while the second changes no payment intent and no escrow, and is
    answered "Event already processed" when the event carries a
    reference. *)
Theorem payments_webhook_idempotent env env' req db :
  (x_signature req = None ->
   Webhooks.payments env req db = reject 400 "Missing signature" db)
  /\ (forall body ref w,
        truthy (x_signature req) = true ->
        hook_body req = Some body ->
        p_event body = Some "payment_succeeded" ->
        p_pg_ref body = Some ref -> ref <> "" ->
        In w (webhook_events db) ->
        p_pg_ref (w_payload w) = Some ref ->
        w_event_type w = "payment_succeeded" ->
        Webhooks.payments env req db
        = reply 200 "Event already processed" db)
  /\ (forall body ref intent rest,
        truthy (x_signature req) = true ->
        hook_body req = Some body ->
        p_event body = Some "payment_succeeded" ->
        p_pg_ref body = Some ref -> ref <> "" ->
        select (Webhooks.same_event (Some ref) "payment_succeeded")
               (webhook_events db) = [] ->
        select (Webhooks.has_reference pi_pg_reference ref)
               (payment_intents db) = intent :: rest ->
        let out := Webhooks.payments env req db in
        fst out = mkRes 200 (Message "Webhook processed")
        /\ payment_intents (snd out)
           = map (fun i =>
                    if pi_id i =? pi_id intent
                    then mkIntent (pi_id i) (pi_escrow_id i)
                           (match p_method body with
                            | Some m => if m =? "" then None else Some m
                            | None => None
                            end)
                           (pi_pg_reference i) (pi_qr_code_url i) "paid"
                           (Some (now env)) body
                    else i)
                 (payment_intents db)
        /\ escrow_transactions (snd out)
           = map (fun e =>
                    if e_id e =? pi_escrow_id intent
                    then mkEscrow (e_id e) (e_buyer_id e) (e_seller_id e)
                           (e_amount e) (e_currency e) "funded"
                           (e_seller_proof_url e) (e_seller_receipt_number e)
                           (e_buyer_proof_url e) (e_created_at e) (now env)
                    else e)
                 (escrow_transactions db))
  /\ (let db1 := snd (Webhooks.payments env req db) in
      let out := Webhooks.payments env' req db1 in
      payment_intents (snd out) = payment_intents db1
      /\ escrow_transactions (snd out) = escrow_transactions db1
      /\ (forall body ref,
            truthy (x_signature req) = true ->
            hook_body req = Some body ->
            p_pg_ref body = Some ref -> ref <> "" ->
            out = reply 200 "Event already processed" db1)).
Proof.
  split; [|split; [|split]].
  - intros H. apply payments_unsigned. rewrite H. reflexivity.
  - intros. eapply payments_duplicate; eauto.
  - intros. eapply payments_first; eauto.
  - apply payments_redelivered.
Qed.

(** ** Escrow creation *)

(** C9.  Creation with the ids in the body answers 201 and appends an
    escrow row in status created, naming the buyer and the seller of the
    body, for every caller of role buyer or seller and every non-empty
    buyer_id and seller_id and non-zero amount: nothing is asked of the
    users table, of the two ids being different, or of the caller being
    one of them. *)
Theorem create_unchecked env user db b s a cur :
  au_role user = "buyer" \/ au_role user = "seller" ->
  b <> "" -> s <> "" -> a <> 0%Z ->
  let out := Escrow.create env user
               (Some (mkCreate (Some b) (Some s) (Some a) cur)) db in
  res_status (fst out) = 201
  /\ escrow_transactions (snd out)
     = (escrow_transactions db
        ++ [mkEscrow (uuid env 0) b s a (or_else cur "IDR") "created"
                     None None None (now env) (now env)])%list.
Proof.
  intros Hrole Hb Hs Ha. unfold Escrow.create. simpl.
  apply String.eqb_neq in Hb, Hs. apply Z.eqb_neq in Ha.
  rewrite Hb, Hs, Ha. simpl.
  destruct Hrole as [-> | ->]; simpl; split; reflexivity.
Qed.

(** A caller who is neither party creates an escrow whose buyer and
    seller are one and the same id, which no user has. *)
Lemma create_unchecked_witness :
  select (is_user "nobody") (users Sample.market) = []
  /\ au_id Sample.carol <> "nobody"
  /\ let out := Escrow.create (Sample.at_time 1 "e9" "a9") Sample.carol
                  (Some (mkCreate (Some "nobody") (Some "nobody") (Some 7%Z)
                           None))
                  Sample.market in
     res_status (fst out) = 201
     /\ escrow_transactions (snd out)
        = [mkEscrow "e9" "nobody" "nobody" 7 "IDR" "created"
                    None None None 1 1].
Proof.
  split; [reflexivity|]. split; [discriminate|].
  apply (create_unchecked (Sample.at_time 1 "e9" "a9") Sample.carol
           Sample.market "nobody" "nobody" 7%Z None).
  - right. reflexivity.
  - discriminate.
  - discriminate.
  - discriminate.
Defined.

(** ** Opening a dispute *)

Lemma active_in s :
  existsb (String.eqb s) ["funded"; "shipped"; "confirmed"] = true
  <-> In s ["funded"; "shipped"; "confirmed"].
Proof.
  rewrite existsb_exists. split.
  - intros [x [Hin Hx]]. apply eqb_true in Hx. subst. exact Hin.
  - intros Hin. exists s. split; [exact Hin|apply eqb_same].
Qed.

Lemma stranger_spec (u a b : string) :
  negb (u =? a) && negb (u =? b) = true <-> ~ (u = a \/ u = b).
Proof.
  destruct (String.eqb_spec u a), (String.eqb_spec u b); simpl;
    split; intros H; try discriminate; try reflexivity; try tauto;
    intros [?|?]; contradiction.
Qed.

(** C8, against the claim as stated.  The buyer of a funded escrow asks
    for a dispute with a body that names no reason: the request is
    answered 400 and no dispute is opened.  The same request without a
    body is answered 500. *)
Lemma dispute_without_reason :
  map e_buyer_id (select_escrow Sample.funded "e1") = [au_id Sample.alice]
  /\ escrow_status Sample.funded "e1" = Some "funded"
  /\ EscrowKyc.dispute (Sample.at_time 3 "d1" "a3") Sample.alice "e1"
       (Some None) Sample.funded
     = reject 400 "Reason is required" Sample.funded
  /\ EscrowKyc.dispute (Sample.at_time 3 "d1" "a3") Sample.alice "e1"
       None Sample.funded
     = reject 500 "Internal server error" Sample.funded.
Proof. repeat split. Qed.

(** C8, amended.  On an escrow that exists, a dispute-open request
    without a body is answered 500.  With a body it succeeds (201, one new
    dispute row in status open) if and only if its reason is non-empty,
    the caller is the escrow's buyer or seller, and the escrow is funded,
    shipped or confirmed; otherwise it is answered 400 for a missing
    reason, else 403 for a caller who is no party, else 400 for an
    inactive escrow.  Whenever the request does not succeed nothing is
    written, and in every case the escrow table is unchanged. *)
Theorem dispute_opens env user id db escrow rest :
  select_escrow db id = escrow :: rest ->
  let party :=
    au_id user = e_buyer_id escrow \/ au_id user = e_seller_id escrow in
  let live := In (e_status escrow) ["funded"; "shipped"; "confirmed"] in
  EscrowKyc.dispute env user id None db
  = reject 500 "Internal server error" db
  /\ forall reason,
       let out := EscrowKyc.dispute env user id (Some reason) db in
       (res_status (fst out) = 201
        <-> truthy reason = true /\ party /\ live)
       /\ (res_status (fst out) = 201 ->
           disputes (snd out)
           = (disputes db
              ++ [mkDispute (uuid env 0) id (au_id user) (text reason)
                            "open" (Some (now env)) None None])%list)
       /\ (truthy reason = false ->
           out = reject 400 "Reason is required" db)
       /\ (truthy reason = true -> ~ party ->
           out = reject 403 "Only buyer or seller can open dispute" db)
       /\ (truthy reason = true -> party -> ~ live ->
           out = reject 400 "Cannot dispute escrow in current state" db)
       /\ escrow_transactions (snd out) = escrow_transactions db.
Proof.
  intros E party live. split; [reflexivity|].
  intros reason out. subst out. unfold EscrowKyc.dispute.
  cbv beta iota. rewrite E. cbv beta iota.
  remember (existsb (String.eqb (e_status escrow))
              ["funded"; "shipped"; "confirmed"]) as act eqn:A.
  symmetry in A.
  destruct (truthy reason) eqn:R; simpl.
  2:{ repeat split; try discriminate; try reflexivity.
      intros [H _]. discriminate. }
  destruct (negb (au_id user =? e_buyer_id escrow)
            && negb (au_id user =? e_seller_id escrow)) eqn:P.
  { apply stranger_spec in P. simpl.
    repeat split; try discriminate; try reflexivity; try tauto. }
  assert (Hparty : party).
  { unfold party.
    destruct (String.eqb_spec (au_id user) (e_buyer_id escrow)); [tauto|].
    destruct (String.eqb_spec (au_id user) (e_seller_id escrow)); [tauto|].
    discriminate. }
  destruct act.
  - apply active_in in A. simpl.
    repeat split; try discriminate; try reflexivity; try tauto.
  - assert (Hdead : ~ live).
    { unfold live. rewrite <- active_in, A. discriminate. }
    simpl. repeat split; try discriminate; try reflexivity; try tauto.
Qed.

Lemma dispute_opens_witness :
  EscrowKyc.dispute (Sample.at_time 4 "d1" "a4") Sample.alice "e1" None
    Sample.shipped
  = reject 500 "Internal server error" Sample.shipped
  /\ EscrowKyc.dispute (Sample.at_time 4 "d1" "a4") Sample.alice "e1"
       (Some (Some "")) Sample.shipped
     = reject 400 "Reason is required" Sample.shipped
  /\ let out := EscrowKyc.dispute (Sample.at_time 4 "d1" "a4") Sample.alice
                  "e1" (Some (Some "not received")) Sample.shipped in
     res_status (fst out) = 201
     /\ disputes (snd out)
        = [mkDispute "d1" "e1" "u-alice" "not received" "open" (Some 4)
                     None None]
     /\ escrow_transactions (snd out) = escrow_transactions Sample.shipped.
Proof.
  destruct (dispute_opens (Sample.at_time 4 "d1" "a4") Sample.alice "e1"
              Sample.shipped
              (mkEscrow "e1" "u-alice" "u-bob" 100 "IDR" "shipped" None
                        (Some "TRK1") None 1 3) [] eq_refl)
    as (Hnone & Hbody).
  split; [exact Hnone|].
  split.
  - destruct (Hbody (Some "")) as (_ & _ & Hempty & _). apply Hempty.
    reflexivity.
  - destruct (Hbody (Some "not received"))
      as (Hiff & Hrow & _ & _ & _ & Hframe).
    assert (Hok : res_status
                    (fst (EscrowKyc.dispute (Sample.at_time 4 "d1" "a4")
                            Sample.alice "e1" (Some (Some "not received"))
                            Sample.shipped)) = 201).
    { apply Hiff. split; [reflexivity|]. split.
      - left. reflexivity.
      - right. left. reflexivity. }
    split; [exact Hok|]. split; [exact (Hrow Hok)|exact Hframe].
Defined.

(** ** The KYC gate on release and payout *)

(** C2, against the claim as stated.  The seller of escrow e2 is not
    verified and the escrow is still in status created: the admin's
    release is answered 400, not 403. *)
Lemma release_unverified_unconfirmed :
  map e_seller_id (select_escrow Sample.carols "e2") = ["u-carol"]
  /\ kyc_of Sample.carols "u-carol" = Some "pending"
  /\ escrow_status Sample.carols "e2" = Some "created"
  /\ Admin.escrows_release (Sample.at_time 5 "po1" "a5") Sample.root "e2"
       Sample.carols
     = reject 400 "Escrow must be 'confirmed' before release" Sample.carols.
Proof. repeat split. Qed.

Lemma not_role (r a : string) : r <> a -> negb (r =? a) = true.
Proof. intros H. apply String.eqb_neq in H. rewrite H. reflexivity. Qed.

Lemma not_status (s a : string) : s <> a -> (s =? a) = false.
Proof. intros H. apply String.eqb_neq. exact H. Qed.

(** The release of the admin router, the seller not being verified: the
    answer is that of the first check that fails. *)
Lemma admin_release_gated env user id db escrow rest :
  select_escrow db id = escrow :: rest ->
  kyc_of db (e_seller_id escrow) <> Some "verified" ->
  let out := Admin.escrows_release env user id db in
  snd out = db
  /\ (au_role user <> "admin" -> out = reject 403 "Admin access required" db)
  /\ (au_role user = "admin" -> e_status escrow = "released" ->
      out = reply 200 "Escrow already released" db)
  /\ (au_role user = "admin" -> e_status escrow <> "released" ->
      e_status escrow <> "confirmed" ->
      out = reject 400 "Escrow must be 'confirmed' before release" db)
  /\ (au_role user = "admin" -> e_status escrow = "confirmed" ->
      out = reject 403 "Seller is not KYC verified" db).
Proof.
  intros E K out. subst out. apply kyc_not_verified in K.
  unfold Admin.escrows_release, requireAdmin. rewrite E, K.
  split; [|split; [|split; [|split]]].
  - destruct (negb (au_role user =? "admin")); [reflexivity|].
    destruct (e_status escrow =? "released"); [reflexivity|].
    destruct (negb (e_status escrow =? "confirmed")); reflexivity.
  - intros H. rewrite (not_role _ _ H). reflexivity.
  - intros -> ->. reflexivity.
  - intros -> H1 H2. simpl.
    rewrite (not_status _ _ H1), (not_status _ _ H2). reflexivity.
  - intros -> ->. reflexivity.
Qed.

(** POST /api/escrow/:id/release as served, the seller not being
    verified. *)
Lemma escrow_release_gated env user id db escrow rest :
  select_escrow db id = escrow :: rest ->
  kyc_of db (e_seller_id escrow) <> Some "verified" ->
  let out := EscrowKyc.post_release env user id db in
  snd out = db
  /\ (au_role user <> "admin" ->
      out = reject 403 "Only admins can release escrow funds" db)
  /\ (au_role user = "admin" -> e_status escrow <> "confirmed" ->
      out = reject 400 "Escrow must be 'confirmed' before releasing funds"
              db)
  /\ (au_role user = "admin" -> e_status escrow = "confirmed" ->
      out = reject 403 "Seller is not KYC verified" db).
Proof.
  intros E K out. subst out. apply kyc_not_verified in K.
  unfold EscrowKyc.post_release, route, EscrowKyc.release. rewrite E, K.
  split; [|split; [|split]].
  - destruct (negb (au_role user =? "admin")); [reflexivity|].
    destruct (negb (e_status escrow =? "confirmed")); reflexivity.
  - intros H. rewrite (not_role _ _ H). reflexivity.
  - intros -> H. simpl. rewrite (not_status _ _ H). reflexivity.
  - intros -> ->. reflexivity.
Qed.

(** The resolve in the seller's favour, the seller not being verified. *)
Lemma resolve_gated env user id note db dispute e rest :
  select_dispute db id = (dispute, e) :: rest ->
  kyc_of db (e_seller_id e) <> Some "verified" ->
  let out := Disputes.resolve env user id
               (Some (mkDecision (Some "favor_seller") note)) db in
  snd out = db
  /\ (au_role user <> "admin" ->
      out = reject 403 "Only admins can resolve disputes" db)
  /\ (au_role user = "admin" -> d_status dispute <> "open" ->
      out = reject 400 "Dispute already resolved or closed" db)
  /\ (au_role user = "admin" -> d_status dispute = "open" ->
      out = reject 403 "Seller is not KYC verified. Cannot release funds."
              db).
Proof.
  intros J K out. subst out. apply kyc_not_verified in K.
  unfold Disputes.resolve. rewrite J. simpl. rewrite K.
  split; [|split; [|split]].
  - destruct (negb (au_role user =? "admin")); [reflexivity|].
    destruct (negb (d_status dispute =? "open")); reflexivity.
  - intros H. rewrite (not_role _ _ H). reflexivity.
  - intros -> H. simpl. rewrite (not_status _ _ H). reflexivity.
  - intros -> ->. reflexivity.
Qed.

(** C2, amended.  When the seller of the escrow is not KYC verified, the
    release of the admin router, POST /api/escrow/:id/release as the
    router serves it (the admin's handler first; the buyer's handler,
    registered second, is never reached) and the resolution of a dispute
    in the seller's favour write nothing, whatever the status of the
    escrow: no payout row is created and the escrow keeps its status.
    The answer is that of the first check that fails: 403 for a caller who
    is not an admin; else, on the admin router, 200 for an escrow that is
    released already; else 400 for an escrow that is not confirmed,
    respectively a dispute that is not open; else 403 for the seller's
    KYC. *)
Theorem unverified_seller_unpaid env user db :
  (forall id escrow rest,
     select_escrow db id = escrow :: rest ->
     kyc_of db (e_seller_id escrow) <> Some "verified" ->
     (let out := Admin.escrows_release env user id db in
      snd out = db
      /\ (au_role user <> "admin" ->
          out = reject 403 "Admin access required" db)
      /\ (au_role user = "admin" -> e_status escrow = "released" ->
          out = reply 200 "Escrow already released" db)
      /\ (au_role user = "admin" -> e_status escrow <> "released" ->
          e_status escrow <> "confirmed" ->
          out = reject 400 "Escrow must be 'confirmed' before release" db)
      /\ (au_role user = "admin" -> e_status escrow = "confirmed" ->
          out = reject 403 "Seller is not KYC verified" db))
     /\ (let out := EscrowKyc.post_release env user id db in
         snd out = db
         /\ (au_role user <> "admin" ->
             out = reject 403 "Only admins can release escrow funds" db)
         /\ (au_role user = "admin" -> e_status escrow <> "confirmed" ->
             out = reject 400
                     "Escrow must be 'confirmed' before releasing funds" db)
         /\ (au_role user = "admin" -> e_status escrow = "confirmed" ->
             out = reject 403 "Seller is not KYC verified" db)))
  /\ (forall id note dispute e rest,
        select_dispute db id = (dispute, e) :: rest ->
        kyc_of db (e_seller_id e) <> Some "verified" ->
        let out := Disputes.resolve env user id
                     (Some (mkDecision (Some "favor_seller") note)) db in
        snd out = db
        /\ (au_role user <> "admin" ->
            out = reject 403 "Only admins can resolve disputes" db)
        /\ (au_role user = "admin" -> d_status dispute <> "open" ->
            out = reject 400 "Dispute already resolved or closed" db)
        /\ (au_role user = "admin" -> d_status dispute = "open" ->
            out = reject 403
                    "Seller is not KYC verified. Cannot release funds." db)).
Proof.
  split.
  - intros id escrow rest E K. split.
    + exact (admin_release_gated env user id db escrow rest E K).
    + exact (escrow_release_gated env user id db escrow rest E K).
  - intros id note dispute e rest J K.
    exact (resolve_gated env user id note db dispute e rest J K).
Qed.

(** Carol, the seller of the confirmed and disputed escrow e2, is not
    verified.  The admin is answered 403 for her KYC by all three
    operations; Alice, the verified buyer of e2, is answered 403 for her
    role; nothing is written. *)
Lemma unverified_seller_unpaid_witness :
  kyc_of Sample.carols_disputed "u-carol" = Some "pending"
  /\ kyc_of Sample.carols_disputed "u-alice" = Some "verified"
  /\ map e_buyer_id (select_escrow Sample.carols_disputed "e2") = ["u-alice"]
  /\ escrow_status Sample.carols_disputed "e2" = Some "confirmed"
  /\ dispute_status Sample.carols_disputed "d2" = Some "open"
  /\ Admin.escrows_release (Sample.at_time 6 "po1" "a6") Sample.root "e2"
       Sample.carols_disputed
     = reject 403 "Seller is not KYC verified" Sample.carols_disputed
  /\ EscrowKyc.post_release (Sample.at_time 6 "po1" "a6") Sample.root "e2"
       Sample.carols_disputed
     = reject 403 "Seller is not KYC verified" Sample.carols_disputed
  /\ Disputes.resolve (Sample.at_time 6 "po1" "a6") Sample.root "d2"
       (Some (mkDecision (Some "favor_seller") None)) Sample.carols_disputed
     = reject 403 "Seller is not KYC verified. Cannot release funds."
         Sample.carols_disputed
  /\ EscrowKyc.post_release (Sample.at_time 6 "po1" "a6") Sample.alice "e2"
       Sample.carols_disputed
     = reject 403 "Only admins can release escrow funds"
         Sample.carols_disputed.
Proof.
  destruct (unverified_seller_unpaid (Sample.at_time 6 "po1" "a6")
              Sample.root Sample.carols_disputed) as [Hrel Hres].
  edestruct (Hrel "e2") as [(_ & _ & _ & _ & A) (_ & _ & _ & B)];
    [vm_compute; reflexivity | discriminate |].
  edestruct (Hres "d2" None) as (_ & _ & _ & C);
    [vm_compute; reflexivity | discriminate |].
  destruct (unverified_seller_unpaid (Sample.at_time 6 "po1" "a6")
              Sample.alice Sample.carols_disputed) as [Hbuyer _].
  edestruct (Hbuyer "e2") as [_ (_ & D & _)];
    [vm_compute; reflexivity | discriminate |].
  split; [reflexivity|]. split; [reflexivity|]. split; [reflexivity|].
  split; [reflexivity|]. split; [reflexivity|].
  split; [exact (A eq_refl eq_refl)|].
  split; [exact (B eq_refl eq_refl)|].
  split; [exact (C eq_refl eq_refl)|].
  apply D. discriminate.
Defined.

(** The revision of the release handler without a KYC check (the older
    routes/escrow.ts) does pay a seller who is not verified. *)
Lemma unchecked_release_pays_unverified_seller :
  kyc_of Sample.carols_confirmed "u-carol" = Some "pending"
  /\ let out := EscrowRoleOnly.release (Sample.at_time 5 "po1" "a5")
                  Sample.root "e2" Sample.carols_confirmed in
     res_status (fst out) = 200
     /\ escrow_status (snd out) "e2" = Some "released"
     /\ payouts (snd out) = [bank_payout "po1" "e2"].
Proof. repeat split. Qed.

(** ** Shipping *)

(** C3, at the revision whose ship handler checks the role only.  Carol,
    a seller who is not verified and is not the seller of escrow e1, ships
    it: the request is answered 200 and the escrow moves from funded to
    shipped. *)
Theorem ship_by_any_seller :
  au_role Sample.carol = "seller"
  /\ map e_seller_id (select_escrow Sample.funded "e1") = ["u-bob"]
  /\ kyc_of Sample.funded (au_id Sample.carol) = Some "pending"
  /\ escrow_status Sample.funded "e1" = Some "funded"
  /\ let out := EscrowRoleOnly.ship (Sample.at_time 3 "a3" "a3") Sample.carol
                  "e1" (Some (Some "TRK9")) Sample.funded in
     res_status (fst out) = 200
     /\ escrow_status (snd out) "e1" = Some "shipped".
Proof. repeat split. Qed.

(** The revision with the KYC and ownership checks does what the claim
    says: on a request with a body for an escrow that exists, the escrow
    is shipped only for a caller of role seller who is the escrow's seller
    and is verified, the escrow being funded; any other caller is answered
    403, and a right caller on an escrow that is not funded 400, with
    nothing written. *)
Lemma ship_guarded env user id req body db escrow rest :
  ship_body req = Some body ->
  select_escrow db id = escrow :: rest ->
  let caller_ok :=
    au_role user = "seller"
    /\ kyc_of db (au_id user) = Some "verified"
    /\ e_seller_id escrow = au_id user in
  let out := EscrowKyc.ship env user id req db in
  (res_status (fst out) = 200 -> caller_ok /\ e_status escrow = "funded")
  /\ (~ caller_ok -> res_status (fst out) = 403 /\ snd out = db)
  /\ (caller_ok -> e_status escrow <> "funded" ->
      res_status (fst out) = 400 /\ snd out = db)
  /\ (caller_ok -> e_status escrow = "funded" ->
      res_status (fst out) = 200
      /\ escrow_status (snd out) id = Some "shipped").
Proof.
  intros Hb E caller_ok out. subst out caller_ok. unfold EscrowKyc.ship.
  rewrite Hb.
  destruct (String.eqb_spec (au_role user) "seller") as [Hr|Hr]; simpl.
  2:{ repeat split; try discriminate; tauto. }
  destruct (not_verified (select_kyc db (au_id user))) eqn:K.
  { assert (kyc_of db (au_id user) <> Some "verified").
    { intros V. apply kyc_verified in V. congruence. }
    repeat split; try discriminate; tauto. }
  assert (V : kyc_of db (au_id user) = Some "verified").
  { destruct (kyc_of db (au_id user)) as [k|] eqn:Q.
    - unfold kyc_of in Q. unfold not_verified in K.
      destruct (select_kyc db (au_id user)); [discriminate|].
      simpl in Q. injection Q as ->.
      destruct (String.eqb_spec k "verified"); [congruence|discriminate].
    - unfold kyc_of in Q. unfold not_verified in K.
      destruct (select_kyc db (au_id user)); discriminate. }
  rewrite E.
  destruct (String.eqb_spec (e_seller_id escrow) (au_id user)) as [Hs|Hs];
    simpl.
  2:{ repeat split; try discriminate; tauto. }
  destruct (String.eqb_spec (e_status escrow) "funded") as [Hf|Hf]; simpl.
  2:{ repeat split; try discriminate; tauto. }
  split; [|split; [|split]].
  - intros _. repeat split; assumption.
  - intros H. exfalso. apply H. repeat split; assumption.
  - intros _ H. contradiction.
  - intros _ _. split; [reflexivity|].
    unfold escrow_status, select_escrow. simpl.
    rewrite select_update_same by reflexivity.
    fold (select_escrow db id). rewrite E. reflexivity.
Qed.

(** ** Transitions outside the graph *)

Lemma status_found db id escrow rest st :
  select_escrow db id = escrow :: rest ->
  escrow_status db id = Some st ->
  e_status escrow = st.
Proof.
  unfold escrow_status. intros ->. simpl. congruence.
Qed.

Ltac kept st :=
  exists st; split; [assumption | left; reflexivity].

Ltac moved E :=
  eexists; split;
  [ unfold escrow_status, select_escrow; simpl;
    rewrite select_update_same by reflexivity;
    match type of E with
    | select_escrow ?db ?id = _ => fold (select_escrow db id)
    end;
    rewrite E; reflexivity
  | right; reflexivity ].

(** The handlers that test the status first do stay on the graph: after
    any of them the escrow has the status it had or one an edge leads
    to. *)
Lemma step_follows_graph s env user id db st :
  escrow_status db id = Some st ->
  exists st',
    escrow_status (snd (step s env user id db)) id = Some st'
    /\ (st' = st \/ spec_edge st st' = true).
Proof.
  intros Hst.
  destruct (select_escrow db id) as [|escrow rest] eqn:E;
    [unfold escrow_status in Hst; rewrite E in Hst; discriminate|].
  pose proof (status_found _ _ _ _ _ E Hst) as Hs.
  destruct s as [body|req| | | | | |]; simpl.
  - unfold Escrow.fund. destruct body as [body|]; [|kept st].
    destruct (negb (truthy (method body)) || negb (truthy (pg_reference body)));
      [kept st|].
    rewrite E.
    destruct (String.eqb_spec (e_status escrow) "created") as [C|C]; simpl;
      [|kept st].
    rewrite <- Hs, C. moved E.
  - unfold EscrowKyc.ship. destruct (ship_body req); [|kept st].
    destruct (negb (au_role user =? "seller")); [kept st|].
    destruct (not_verified _); [kept st|].
    rewrite E.
    destruct (negb (e_seller_id escrow =? au_id user)); [kept st|].
    destruct (String.eqb_spec (e_status escrow) "funded") as [C|C]; simpl;
      [|kept st].
    rewrite <- Hs, C. moved E.
  - unfold EscrowKyc.confirm.
    destruct (negb (au_role user =? "buyer")); [kept st|].
    rewrite E.
    destruct (negb (e_buyer_id escrow =? au_id user)); [kept st|].
    destruct (String.eqb_spec (e_status escrow) "shipped") as [C|C]; simpl;
      [|kept st].
    rewrite <- Hs, C. moved E.
  - unfold EscrowKyc.release.
    destruct (negb (au_role user =? "admin")); [kept st|].
    rewrite E.
    destruct (String.eqb_spec (e_status escrow) "confirmed") as [C|C]; simpl;
      [|kept st].
    destruct (not_verified _); [kept st|].
    rewrite <- Hs, C. moved E.
  - unfold EscrowKyc.cancel. rewrite E.
    destruct (negb (au_id user =? e_buyer_id escrow)
              && negb (au_id user =? e_seller_id escrow)); [kept st|].
    destruct (String.eqb_spec (e_status escrow) "created") as [C|C]; simpl;
      [|kept st].
    rewrite <- Hs, C. moved E.
  - unfold Admin.escrows_release, requireAdmin.
    destruct (negb (au_role user =? "admin")); [kept st|].
    rewrite E.
    destruct (e_status escrow =? "released"); [kept st|].
    destruct (String.eqb_spec (e_status escrow) "confirmed") as [C|C]; simpl;
      [|kept st].
    destruct (not_verified _); [kept st|].
    rewrite <- Hs, C.
    destruct (scalar _); moved E.
  - unfold Admin.escrows_complete, requireAdmin.
    destruct (negb (au_role user =? "admin")); [kept st|].
    rewrite E.
    destruct (e_status escrow =? "completed"); [kept st|].
    destruct (String.eqb_spec (e_status escrow) "released") as [C|C]; simpl;
      [|kept st].
    rewrite <- Hs, C.
    pose proof (advance_payout_escrows env user id
                  (update_escrow_status id "completed" (now env) db)) as P.
    destruct (Admin.advance_payout _ _ _ _) as [n dbp]. simpl in P.
    eexists. split; [|right].
    + unfold escrow_status, select_escrow. simpl. rewrite P.
      rewrite select_update_same by reflexivity.
      fold (select_escrow db id). rewrite E. reflexivity.
    + reflexivity.
  - unfold Admin.escrows_refund, requireAdmin.
    destruct (negb (au_role user =? "admin")); [kept st|].
    rewrite E.
    destruct (String.eqb_spec (e_status escrow) "dispute") as [C|C]; simpl;
      [|kept st].
    rewrite <- Hs, C. moved E.
Qed.

(** C1, at two requests the handlers accept.  The first delivery of the
    gateway's callback for ref1 reaches an escrow that was shipped in the
    meantime: it is answered 200 and the escrow is funded again.  An admin
    rejects the dispute over a shipped escrow, which completes the escrow,
    and then approves the same dispute: the answer is 200 and the
    completed escrow is cancelled.  Neither step is an edge of the graph,
    and neither request is refused. *)
Theorem status_leaves_graph :
  (escrow_status Sample.shipped "e1" = Some "shipped"
   /\ spec_edge "shipped" "funded" = false
   /\ let out := Webhooks.payments (Sample.at_time 5 "w1" "w1") Sample.paid
                   Sample.shipped in
      res_status (fst out) = 200
      /\ escrow_status (snd out) "e1" = Some "funded")
  /\ (let rejected := Admin.disputes_reject (Sample.at_time 5 "a5" "a5")
                        Sample.root "d1" Sample.disputed in
      escrow_status Sample.disputed "e1" = Some "shipped"
      /\ res_status (fst rejected) = 200
      /\ escrow_status (snd rejected) "e1" = Some "completed"
      /\ spec_edge "completed" "cancelled" = false
      /\ let out := Admin.disputes_approve (Sample.at_time 6 "a6" "a6")
                      Sample.root "d1" (snd rejected) in
         res_status (fst out) = 200
         /\ escrow_status (snd out) "e1" = Some "cancelled").
Proof. repeat split. Qed.

(** ** Witnesses *)

Lemma admin_action_idempotent_witness :
  (let first := admin_action Release (Sample.at_time 5 "po1" "a5")
                  Sample.root "e1" Sample.confirmed in
   res_status (fst first) = 200
   /\ exists m,
        admin_action Release (Sample.at_time 6 "po2" "a6") Sample.root "e1"
          (snd first)
        = (mkRes 200 (Message m), snd first))
  /\ (let first := admin_action Reject (Sample.at_time 5 "a5" "a5")
                     Sample.root "d1" Sample.disputed in
      res_status (fst first) = 200
      /\ exists m,
           admin_action Reject (Sample.at_time 6 "a6" "a6") Sample.root "d1"
             (snd first)
           = (mkRes 200 (Message m), snd first)).
Proof.
  split; (split; [reflexivity|]).
  - apply (admin_action_idempotent Release (Sample.at_time 5 "po1" "a5")
             (Sample.at_time 6 "po2" "a6") Sample.root "e1" Sample.confirmed
             (fst (admin_action Release (Sample.at_time 5 "po1" "a5")
                     Sample.root "e1" Sample.confirmed)));
      reflexivity.
  - apply (admin_action_idempotent Reject (Sample.at_time 5 "a5" "a5")
             (Sample.at_time 6 "a6" "a6") Sample.root "d1" Sample.disputed
             (fst (admin_action Reject (Sample.at_time 5 "a5" "a5")
                     Sample.root "d1" Sample.disputed)));
      reflexivity.
Defined.

Lemma resolve_favor_seller_witness :
  dispute_status Sample.disputed "d1" = Some "open"
  /\ kyc_of Sample.disputed "u-bob" = Some "verified"
  /\ (let out := Disputes.resolve (Sample.at_time 5 "po1" "a5") Sample.root
                   "d1" (Some (mkDecision (Some "favor_seller") None))
                   Sample.disputed in
      res_status (fst out) = 200
      /\ escrow_status Sample.disputed "e1" = Some "shipped"
      /\ escrow_status (snd out) "e1" = Some "released"
      /\ payouts Sample.disputed = []
      /\ payouts (snd out)
         = [mkPayout "po1" "e1" None None (Some "1234567890")
                     (Some "BI-FAST") "pending" None None None]
      /\ dispute_status (snd out) "d1" = Some "resolved")
  /\ (let closed := snd (Disputes.resolve (Sample.at_time 5 "a5" "a5")
                           Sample.root "d1"
                           (Some (mkDecision (Some "favor_buyer") None))
                           Sample.disputed) in
      dispute_status closed "d1" = Some "resolved"
      /\ Disputes.resolve (Sample.at_time 6 "po1" "a6") Sample.root "d1"
           (Some (mkDecision (Some "favor_seller") None)) closed
         = reject 400 "Dispute already resolved or closed" closed).
Proof.
  split; [reflexivity|]. split; [reflexivity|]. split.
  - edestruct (resolve_favor_seller (Sample.at_time 5 "po1" "a5")
                 Sample.root "d1" None Sample.disputed) as [H _];
      [reflexivity | vm_compute; reflexivity |].
    destruct (H eq_refl eq_refl) as (H1 & _ & H2 & H3 & H4 & H5).
    split; [exact H1|]. split; [exact H2|]. split; [exact H3|].
    split; [reflexivity|]. split; [exact H4|exact H5].
  - split; [reflexivity|].
    edestruct (resolve_favor_seller (Sample.at_time 6 "po1" "a6")
                 Sample.root "d1" None
                 (snd (Disputes.resolve (Sample.at_time 5 "a5" "a5")
                         Sample.root "d1"
                         (Some (mkDecision (Some "favor_buyer") None))
                         Sample.disputed))) as [_ H];
      [reflexivity | vm_compute; reflexivity |].
    apply H. discriminate.
Defined.

Lemma resolve_favor_buyer_witness :
  escrow_status Sample.disputed "e1" = Some "shipped"
  /\ let out := Disputes.resolve (Sample.at_time 5 "a5" "a5") Sample.root "d1"
                  (Some (mkDecision (Some "favor_buyer") None))
                  Sample.disputed in
     res_status (fst out) = 200
     /\ dispute_status (snd out) "d1" = Some "resolved"
     /\ escrow_transactions (snd out) = escrow_transactions Sample.disputed
     /\ payouts (snd out) = payouts Sample.disputed.
Proof.
  split; [reflexivity|].
  eapply (resolve_favor_buyer (Sample.at_time 5 "a5" "a5") Sample.root "d1"
            None Sample.disputed);
    [reflexivity | vm_compute; reflexivity | reflexivity].
Defined.

(** The gateway reports ref1 for the intent that awaits it: the first
    delivery marks the intent paid and funds the created escrow, the
    deliveries after it change nothing.  On the escrow funded through the
    fund route, whose intent is paid already, the first delivery rewrites
    the time of payment and the payload. *)
Lemma payments_webhook_idempotent_witness :
  payment_intents Sample.awaiting
  = [mkIntent "p1" "e1" None (Some "ref1") None "pending" None
              (mkPayload None (Some "ref1") None None)]
  /\ escrow_status Sample.awaiting "e1" = Some "created"
  /\ Webhooks.payments (Sample.at_time 3 "w0" "w0")
       (mkHook None (hook_body Sample.paid)) Sample.awaiting
     = reject 400 "Missing signature" Sample.awaiting
  /\ (let out := Webhooks.payments (Sample.at_time 3 "w1" "w1") Sample.paid
                   Sample.awaiting in
      fst out = mkRes 200 (Message "Webhook processed")
      /\ payment_intents (snd out)
         = [mkIntent "p1" "e1" (Some "qr") (Some "ref1") None "paid"
                     (Some 3)
                     (mkPayload (Some "payment_succeeded") (Some "ref1")
                                (Some "qr") None)]
      /\ escrow_transactions (snd out)
         = [mkEscrow "e1" "u-alice" "u-bob" 100 "IDR" "funded" None None
                     None 1 3]
      /\ Webhooks.payments (Sample.at_time 4 "w2" "w2") Sample.paid (snd out)
         = reply 200 "Event already processed" (snd out)
      /\ Webhooks.payments (Sample.at_time 9 "w9" "w9") Sample.paid (snd out)
         = reply 200 "Event already processed" (snd out))
  /\ payment_intents Sample.funded
     = [mkIntent "p1" "e1" (Some "qr") (Some "ref1") None "paid" (Some 2)
                 (mkPayload None (Some "ref1") (Some "qr") None)]
  /\ payment_intents
       (snd (Webhooks.payments (Sample.at_time 3 "w1" "w1") Sample.paid
               Sample.funded))
     = [mkIntent "p1" "e1" (Some "qr") (Some "ref1") None "paid" (Some 3)
                 (mkPayload (Some "payment_succeeded") (Some "ref1")
                            (Some "qr") None)].
Proof.
  split; [reflexivity|]. split; [reflexivity|]. split; [|split; [|split]].
  3: reflexivity.
  3:{ destruct (payments_webhook_idempotent (Sample.at_time 3 "w1" "w1")
                  (Sample.at_time 4 "w2" "w2") Sample.paid Sample.funded)
        as (_ & _ & Hfirst & _).
      edestruct (Hfirst Sample.receipt "ref1") as (_ & Hint & _);
        [reflexivity | reflexivity | reflexivity | reflexivity | discriminate
        | reflexivity | vm_compute; reflexivity |].
      rewrite Hint. reflexivity. }
  - destruct (payments_webhook_idempotent (Sample.at_time 3 "w0" "w0")
                (Sample.at_time 4 "w2" "w2")
                (mkHook None (hook_body Sample.paid)) Sample.awaiting)
      as (H & _). apply H. reflexivity.
  - destruct (payments_webhook_idempotent (Sample.at_time 3 "w1" "w1")
                (Sample.at_time 4 "w2" "w2") Sample.paid Sample.awaiting)
      as (_ & _ & Hfirst & Hagain).
    edestruct (Hfirst Sample.receipt "ref1") as (Hres & Hint & Hesc);
      [reflexivity | reflexivity | reflexivity | reflexivity | discriminate
      | reflexivity | vm_compute; reflexivity |].
    destruct Hagain as (_ & _ & Hdup).
    split; [exact Hres|].
    split; [rewrite Hint; reflexivity|].
    split; [rewrite Hesc; reflexivity|].
    split.
    + apply (Hdup Sample.receipt "ref1");
        [reflexivity | reflexivity | reflexivity | discriminate].
    + destruct (payments_webhook_idempotent (Sample.at_time 9 "w9" "w9")
                  (Sample.at_time 9 "w9" "w9") Sample.paid
                  (snd (Webhooks.payments (Sample.at_time 3 "w1" "w1")
                          Sample.paid Sample.awaiting)))
        as (_ & Hstored & _).
      eapply (Hstored Sample.receipt "ref1");
        [reflexivity | reflexivity | reflexivity | reflexivity | discriminate
        | left; reflexivity | reflexivity | reflexivity].
Defined.

(** * Further properties of the handlers *)

(** ** What every request keeps *)

Ltac unfold_handlers :=
  unfold handle, EscrowKyc.post_release; cbn [route];
  unfold Escrow.create, Escrow.fund, EscrowRoleOnly.ship,
    EscrowRoleOnly.release, EscrowKyc.ship, EscrowKyc.confirm,
    EscrowKyc.release, EscrowKyc.dispute,
    EscrowKyc.cancel, Receipt.upload, Disputes.resolve,
    Admin.disputes_reject, Admin.disputes_approve, Admin.escrows_release,
    Admin.escrows_complete, Admin.escrows_refund, Admin.advance_payout,
    Webhooks.payments, Webhooks.payouts, requireAdmin, requireKYCVerified,
    reject, reply.

Ltac branch :=
  match goal with
  | |- context [if ?b then _ else _] => destruct b
  | |- context [match ?x with _ => _ end] =>
      match type of x with
      | list _ => destruct x
      | option _ => destruct x
      end
  | |- context [match ?x with _ => _ end] =>
      match type of x with
      | prod _ _ => destruct x
      end
  end.

Ltac written :=
  unfold update_escrow_status, insert_audit, Webhooks.mark_processed;
  cbn [fst snd users escrow_transactions payment_intents payouts disputes
       audit_logs webhook_events set_escrows set_intents set_payouts
       set_disputes set_audit set_events].

Section UpdateFacts.
Context {Row : Type}.
Implicit Types (p : Row -> bool) (f : Row -> Row) (t : list Row).

Lemma map_update {B : Type} (g : Row -> B) p f t :
  (forall r, g (f r) = g r) -> map g (update p f t) = map g t.
Proof.
  intros H. unfold update. rewrite map_map. apply map_ext.
  intros r. destruct (p r); auto.
Qed.



Lemma update_untouched p f t :
  (forall r, In r t -> p r = false) -> update p f t = t.
Proof.
  intros H. unfold update. rewrite <- (map_id t) at 2.
  apply map_ext_in. intros r Hr. rewrite (H r Hr). reflexivity.
Qed.
End UpdateFacts.










(** The escrow a request names in its path. *)
Lemma other_escrows_kept id id' (f : Escrow -> Escrow) (es : list Escrow) :
  id' <> id ->
  (forall e, e_id (f e) = e_id e) ->
  select (is_escrow id') (update (is_escrow id) f es)
  = select (is_escrow id') es.
Proof.
  intros Hne Hf.
  rewrite select_update_commute
    by (intros e; unfold is_escrow; rewrite Hf; reflexivity).
  apply update_untouched. intros e He.
  apply filter_In in He as [_ He]. unfold is_escrow in *.
  apply eqb_true in He.
  apply String.eqb_neq. congruence.
Qed.

(** X6.  A handler that is given the id of an escrow and tests its status
    first writes the rows of that id only: the rows of any other id are
    what they were. *)
Theorem step_touches_one_escrow s env user id id' db :
  id' <> id ->
  select_escrow (snd (step s env user id db)) id' = select_escrow db id'.
Proof.
  intros Hne. unfold select_escrow.
  destruct s; unfold step; unfold_handlers; cbv zeta; repeat branch;
    written; try reflexivity;
    apply other_escrows_kept; auto.
Qed.

Lemma step_touches_one_escrow_witness :
  let db := snd (step Cancel (Sample.at_time 2 "a2" "a2") Sample.alice "e2"
                   (snd (Escrow.create (Sample.at_time 1 "e2" "a1")
                           Sample.alice
                           (Some (mkCreate (Some "u-alice") (Some "u-carol")
                                           (Some 50%Z) None))
                           Sample.shipped))) in
  escrow_status db "e2" = Some "cancelled"
  /\ escrow_status db "e1" = Some "shipped".
Proof.
  split; [reflexivity|].
  unfold escrow_status.
  rewrite (step_touches_one_escrow Cancel (Sample.at_time 2 "a2" "a2")
             Sample.alice "e2" "e1"); [reflexivity | discriminate].
Defined.

(** X7.  The statuses cancelled and completed are final for these
    handlers: none of them moves an escrow out of either. *)
Theorem final_for_steps s env user id db st :
  st = "cancelled" \/ st = "completed" ->
  escrow_status db id = Some st ->
  escrow_status (snd (step s env user id db)) id = Some st.
Proof.
  intros Hfinal Hst.
  destruct (step_follows_graph s env user id db st Hst)
    as [st' [Hst' [-> | Hedge]]]; [exact Hst'|].
  exfalso. destruct Hfinal as [-> | ->]; discriminate.
Qed.

Lemma final_for_steps_witness :
  let cancelled := snd (EscrowKyc.cancel (Sample.at_time 2 "a2" "a2")
                          Sample.alice "e1" Sample.created) in
  escrow_status cancelled "e1" = Some "cancelled"
  /\ escrow_status
       (snd (step (Fund (Some (mkFund (Some "qr") (Some "ref1") None)))
               (Sample.at_time 3 "p1" "a3") Sample.alice "e1" cancelled))
       "e1"
     = Some "cancelled".
Proof.
  split; [reflexivity|].
  apply final_for_steps; [left; reflexivity | reflexivity].
Defined.

(** ** Funding, confirming, cancelling *)

Lemma status_after_update db id s t escrow rest (f : DB -> DB) :
  select_escrow db id = escrow :: rest ->
  (forall d, escrow_transactions (f d) = escrow_transactions d) ->
  escrow_status (f (update_escrow_status id s t db)) id = Some s.
Proof.
  intros E Hf. unfold escrow_status, select_escrow. rewrite Hf.
  fold (select_escrow (update_escrow_status id s t db) id).
  rewrite select_escrow_updated, E. reflexivity.
Qed.

(** X8.  Funding asks nothing of the caller: on an escrow that exists,
    the request of any authenticated user succeeds exactly when it has a
    body with a non-empty method and reference and the escrow is in status
    created.  It then appends one paid intent carrying the reference and
    leaves the escrow funded. *)
Theorem fund_by_anyone env user id body db escrow rest :
  select_escrow db id = escrow :: rest ->
  let out := Escrow.fund env user id body db in
  (res_status (fst out) = 200 <->
   (exists b, body = Some b /\ truthy (method b) = true
              /\ truthy (pg_reference b) = true)
   /\ e_status escrow = "created")
  /\ (forall b, body = Some b -> res_status (fst out) = 200 ->
      escrow_status (snd out) id = Some "funded"
      /\ payment_intents (snd out)
         = (payment_intents db
            ++ [mkIntent (uuid env 0) id (method b) (pg_reference b)
                         (or_null (qr_code_url b)) "paid" (Some (now env))
                         (mkPayload None (pg_reference b) (method b) None)])
           %list).
Proof.
  intros E out. subst out. unfold Escrow.fund.
  destruct body as [b|].
  2:{ split.
      - split; [discriminate|]. intros [[b [Hb _]] _]. discriminate.
      - intros b Hb. discriminate. }
  destruct (truthy (method b)) eqn:M; cbn [negb orb].
  2:{ split.
      - split; [discriminate|]. intros [[b' [Hb [Hm _]]] _].
        injection Hb as <-. congruence.
      - intros b' _. discriminate. }
  destruct (truthy (pg_reference b)) eqn:P; cbn [negb].
  2:{ split.
      - split; [discriminate|]. intros [[b' [Hb [_ Hp]]] _].
        injection Hb as <-. congruence.
      - intros b' _. discriminate. }
  rewrite E.
  destruct (String.eqb_spec (e_status escrow) "created") as [C|C];
    cbn [negb].
  2:{ split.
      - split; [discriminate|]. tauto.
      - intros b' _. discriminate. }
  split.
  - split; [|reflexivity]. intros _. split; [|exact C].
    exists b. auto.
  - intros b' Hb _. injection Hb as <-. split; [|reflexivity].
    unfold reply. cbn [snd]. unfold insert_audit.
    apply (status_after_update
             (set_intents
                (insert (mkIntent (uuid env 0) id (method b) (pg_reference b)
                           (or_null (qr_code_url b)) "paid" (Some (now env))
                           (mkPayload None (pg_reference b) (method b) None)))
                db)
             id "funded" (now env) escrow rest
             (set_audit _)); [exact E | reflexivity].
Qed.

Lemma fund_by_anyone_witness :
  let out := Escrow.fund (Sample.at_time 2 "p1" "a2") Sample.carol "e1"
               (Some (mkFund (Some "qr") (Some "ref1") None))
               Sample.created in
  au_id Sample.carol <> "u-alice" /\ au_id Sample.carol <> "u-bob"
  /\ res_status (fst out) = 200
  /\ escrow_status (snd out) "e1" = Some "funded".
Proof.
  edestruct (fund_by_anyone (Sample.at_time 2 "p1" "a2") Sample.carol "e1"
               (Some (mkFund (Some "qr") (Some "ref1") None))
               Sample.created) as [Hiff Heff];
    [vm_compute; reflexivity|].
  assert (Hok : res_status
                  (fst (Escrow.fund (Sample.at_time 2 "p1" "a2") Sample.carol
                          "e1" (Some (mkFund (Some "qr") (Some "ref1") None))
                          Sample.created)) = 200).
  { apply Hiff. split; [|reflexivity]. eexists. repeat split. }
  split; [discriminate|]. split; [discriminate|]. split; [exact Hok|].
  exact (proj1 (Heff _ eq_refl Hok)).
Defined.

(** X9.  An escrow is funded once: after a funding request that
    succeeded, every further funding request for that escrow, whoever
    sends it and whatever its body, is answered 400 and writes nothing. *)
Theorem fund_once env env' user user' id body body' db :
  res_status (fst (Escrow.fund env user id body db)) = 200 ->
  let db1 := snd (Escrow.fund env user id body db) in
  let again := Escrow.fund env' user' id body' db1 in
  res_status (fst again) = 400 /\ snd again = db1.
Proof.
  unfold Escrow.fund at 1 2.
  destruct body as [b|]; [|discriminate].
  destruct (negb (truthy (method b)) || negb (truthy (pg_reference b)));
    [discriminate|].
  destruct (select_escrow db id) as [|escrow rest] eqn:E; [discriminate|].
  destruct (negb (e_status escrow =? "created")); [discriminate|].
  intros _. cbv zeta. unfold reply. cbn [snd].
  match goal with |- context [Escrow.fund env' user' id body' ?d] =>
    assert (S : select_escrow d id
                = map (e_set_status "funded" (now env))
                      (select_escrow db id))
  end.
  { unfold insert_audit, select_escrow. cbn.
    apply select_update_same. reflexivity. }
  unfold Escrow.fund.
  destruct body' as [b'|]; [|split; reflexivity].
  destruct (negb (truthy (method b')) || negb (truthy (pg_reference b')));
    [split; reflexivity|].
  rewrite S, E. split; reflexivity.
Qed.

Lemma fund_once_witness :
  let again := Escrow.fund (Sample.at_time 3 "p2" "a3") Sample.bob "e1"
                 (Some (mkFund (Some "card") (Some "ref9") None))
                 Sample.funded in
  res_status (fst again) = 400 /\ snd again = Sample.funded.
Proof.
  apply (fund_once (Sample.at_time 2 "p1" "a2") (Sample.at_time 3 "p2" "a3")
           Sample.alice Sample.bob "e1"
           (Some (mkFund (Some "qr") (Some "ref1") None))
           (Some (mkFund (Some "card") (Some "ref9") None))
           Sample.created).
  reflexivity.
Defined.

(** X10.  On an escrow that exists, confirming succeeds exactly for a
    caller of role buyer who is the buyer of the escrow, the escrow being
    shipped, and leaves it confirmed. *)
Theorem confirm_guard env user id db escrow rest :
  select_escrow db id = escrow :: rest ->
  let out := EscrowKyc.confirm env user id db in
  (res_status (fst out) = 200 <->
   au_role user = "buyer" /\ e_buyer_id escrow = au_id user
   /\ e_status escrow = "shipped")
  /\ (res_status (fst out) = 200 ->
      escrow_status (snd out) id = Some "confirmed").
Proof.
  intros E out. subst out. unfold EscrowKyc.confirm.
  destruct (String.eqb_spec (au_role user) "buyer") as [R|R]; cbn [negb].
  2:{ split; [split; [discriminate|tauto]|discriminate]. }
  rewrite E.
  destruct (String.eqb_spec (e_buyer_id escrow) (au_id user)) as [B|B];
    cbn [negb].
  2:{ split; [split; [discriminate|tauto]|discriminate]. }
  destruct (String.eqb_spec (e_status escrow) "shipped") as [S|S];
    cbn [negb].
  2:{ split; [split; [discriminate|tauto]|discriminate]. }
  split; [split; [tauto|reflexivity]|].
  intros _. unfold reply, insert_audit. cbn [snd].
  apply (status_after_update db id "confirmed" (now env) escrow rest
           (set_audit _)); [exact E | reflexivity].
Qed.

Lemma confirm_guard_witness :
  let out := EscrowKyc.confirm (Sample.at_time 4 "a4" "a4") Sample.alice
               "e1" Sample.shipped in
  res_status (fst out) = 200
  /\ escrow_status (snd out) "e1" = Some "confirmed".
Proof.
  edestruct (confirm_guard (Sample.at_time 4 "a4" "a4") Sample.alice "e1"
               Sample.shipped) as [Hiff Heff];
    [vm_compute; reflexivity|].
  assert (Hok : res_status
                  (fst (EscrowKyc.confirm (Sample.at_time 4 "a4" "a4")
                          Sample.alice "e1" Sample.shipped)) = 200).
  { apply Hiff. repeat split. }
  split; [exact Hok | exact (Heff Hok)].
Defined.

(** X11.  On an escrow that exists, cancelling succeeds exactly for the
    escrow's buyer or seller while the escrow is in status created, and
    leaves it cancelled. *)
Theorem cancel_guard env user id db escrow rest :
  select_escrow db id = escrow :: rest ->
  let out := EscrowKyc.cancel env user id db in
  (res_status (fst out) = 200 <->
   (au_id user = e_buyer_id escrow \/ au_id user = e_seller_id escrow)
   /\ e_status escrow = "created")
  /\ (res_status (fst out) = 200 ->
      escrow_status (snd out) id = Some "cancelled").
Proof.
  intros E out. subst out. unfold EscrowKyc.cancel. rewrite E.
  destruct (negb (au_id user =? e_buyer_id escrow)
            && negb (au_id user =? e_seller_id escrow)) eqn:P.
  { apply stranger_spec in P.
    split; [split; [discriminate|tauto]|discriminate]. }
  assert (Hparty : au_id user = e_buyer_id escrow
                   \/ au_id user = e_seller_id escrow).
  { destruct (String.eqb_spec (au_id user) (e_buyer_id escrow)); [tauto|].
    destruct (String.eqb_spec (au_id user) (e_seller_id escrow)); [tauto|].
    discriminate. }
  destruct (String.eqb_spec (e_status escrow) "created") as [S|S];
    cbn [negb].
  2:{ split; [split; [discriminate|tauto]|discriminate]. }
  split; [split; [tauto|reflexivity]|].
  intros _. unfold reply, insert_audit. cbn [snd].
  apply (status_after_update db id "cancelled" (now env) escrow rest
           (set_audit _)); [exact E | reflexivity].
Qed.

Lemma cancel_guard_witness :
  let out := EscrowKyc.cancel (Sample.at_time 2 "a2" "a2") Sample.bob "e1"
               Sample.created in
  res_status (fst out) = 200
  /\ escrow_status (snd out) "e1" = Some "cancelled".
Proof.
  edestruct (cancel_guard (Sample.at_time 2 "a2" "a2") Sample.bob "e1"
               Sample.created) as [Hiff Heff];
    [vm_compute; reflexivity|].
  assert (Hok : res_status
                  (fst (EscrowKyc.cancel (Sample.at_time 2 "a2" "a2")
                          Sample.bob "e1" Sample.created)) = 200).
  { apply Hiff. split; [right; reflexivity|reflexivity]. }
  split; [exact Hok | exact (Heff Hok)].
Defined.

(** ** The whole lifecycle *)

Ltac row_after E :=
  unfold select_escrow; written;
  rewrite select_update_same by reflexivity;
  match type of E with
  | select_escrow ?db ?id = _ => fold (select_escrow db id)
  end;
  rewrite E; reflexivity.

Lemma fund_moves env user id b db e :
  select_escrow db id = [e] -> e_status e = "created" ->
  truthy (method b) = true -> truthy (pg_reference b) = true ->
  let db' := snd (Escrow.fund env user id (Some b) db) in
  moved db db' id e "funded" /\ payouts db' = payouts db.
Proof.
  intros E C M P. unfold Escrow.fund. rewrite M, P, E, C. cbn [negb orb].
  change ("created" =? "created") with true. cbn [negb].
  unfold reply. cbn [snd]. split; [|reflexivity].
  exists (e_set_status "funded" (now env) e).
  split; [row_after E|]. repeat split.
Qed.

Lemma ship_moves env user id req body db e :
  select_escrow db id = [e] -> e_status e = "funded" ->
  ship_body req = Some body ->
  au_role user = "seller" -> e_seller_id e = au_id user ->
  kyc_of db (au_id user) = Some "verified" ->
  let db' := snd (EscrowKyc.ship env user id req db) in
  moved db db' id e "shipped" /\ payouts db' = payouts db.
Proof.
  intros E C B R S K. unfold EscrowKyc.ship.
  rewrite B, R, (kyc_verified _ _ K), E, S, C, !eqb_same. cbn [negb].
  unfold reply. cbn [snd]. split; [|reflexivity].
  eexists. split; [row_after E|]. repeat split.
Qed.

Lemma confirm_moves env user id db e :
  select_escrow db id = [e] -> e_status e = "shipped" ->
  au_role user = "buyer" -> e_buyer_id e = au_id user ->
  let db' := snd (EscrowKyc.confirm env user id db) in
  moved db db' id e "confirmed" /\ payouts db' = payouts db.
Proof.
  intros E C R B. unfold EscrowKyc.confirm.
  rewrite R, E, B, C, !eqb_same. cbn [negb].
  unfold reply. cbn [snd]. split; [|reflexivity].
  eexists. split; [row_after E|]. repeat split.
Qed.

Lemma admin_release_moves env user id db e :
  select_escrow db id = [e] -> e_status e = "confirmed" ->
  au_role user = "admin" ->
  kyc_of db (e_seller_id e) = Some "verified" ->
  let db' := snd (Admin.escrows_release env user id db) in
  moved db db' id e "released"
  /\ payouts db'
     = (payouts db
        ++ [seller_payout (uuid env 0) id (e_seller_id e) (Some (e_amount e))
                          (now env)])%list.
Proof.
  intros E C R K. unfold Admin.escrows_release, requireAdmin.
  rewrite R, E, C, (kyc_verified _ _ K).
  change ("admin" =? "admin") with true.
  change ("confirmed" =? "released") with false.
  change ("confirmed" =? "confirmed") with true. cbn [negb].
  rewrite select_escrow_updated, E. cbn [map scalar].
  unfold reply. cbn [snd]. split; [|reflexivity].
  eexists. split; [row_after E|]. repeat split.
Qed.

Lemma latest_one p : Admin.latest [p] = Some p.
Proof. reflexivity. Qed.

Lemma admin_complete_moves env user id db e p :
  select_escrow db id = [e] -> e_status e = "released" ->
  au_role user = "admin" ->
  select (fun q => po_escrow_id q =? id) (payouts db) = [p] ->
  po_status p = "pending" ->
  let db' := snd (Admin.escrows_complete env user id db) in
  moved db db' id e "completed"
  /\ select (fun q => po_escrow_id q =? id) (payouts db')
     = update (fun q => po_id q =? po_id p) (Admin.po_sent (now env)) [p].
Proof.
  intros E C R P S. unfold Admin.escrows_complete, requireAdmin.
  rewrite R, E, C.
  change ("admin" =? "admin") with true.
  change ("released" =? "completed") with false.
  change ("released" =? "released") with true. cbn [negb].
  unfold Admin.advance_payout.
  change (payouts (update_escrow_status id "completed" (now env) db))
    with (payouts db).
  rewrite P, latest_one, S.
  change ("pending" =? "pending") with true. cbv iota beta.
  unfold reply. cbn [snd]. split.
  - eexists. split; [row_after E|]. repeat split.
  - written. rewrite select_update_commute by reflexivity.
    rewrite P. reflexivity.
Qed.

(** X12.  The lifecycle composes: on an escrow in status created whose id
    names one row and has no payout yet, a funding request with a method
    and a reference, the shipment by the escrow's verified seller, the
    confirmation by its buyer, the admin's release and the admin's
    completion, served in this order, leave the escrow completed with one
    payout of the escrow's amount to its seller, in status sent. *)
Theorem lifecycle_completes env1 env2 env3 env4 env5
  payer buyer seller admin id fbody sreq sbody db e :
  select_escrow db id = [e] ->
  e_status e = "created" ->
  select (fun q => po_escrow_id q =? id) (payouts db) = [] ->
  truthy (method fbody) = true -> truthy (pg_reference fbody) = true ->
  ship_body sreq = Some sbody ->
  au_role seller = "seller" -> e_seller_id e = au_id seller ->
  kyc_of db (au_id seller) = Some "verified" ->
  au_role buyer = "buyer" -> e_buyer_id e = au_id buyer ->
  au_role admin = "admin" ->
  let db' := serve [(env1, PostFund payer id (Some fbody));
                    (env2, PostShip seller id sreq);
                    (env3, PostConfirm buyer id);
                    (env4, PostAdminRelease admin id);
                    (env5, PostAdminComplete admin id)] db in
  escrow_status db' id = Some "completed"
  /\ select (fun q => po_escrow_id q =? id) (payouts db')
     = [mkPayout (uuid env4 0) id (Some (au_id seller)) (Some (e_amount e))
                 None None "sent" (Some (now env4)) (Some (now env5)) None].
Proof.
  intros E C P M R B Rs Hs K Rb Hb Ra. cbn [serve handle].
  destruct (fund_moves env1 payer id fbody db e E C M R)
    as [(e1 & E1 & I1 & C1 & U1) P1].
  set (db1 := snd (Escrow.fund env1 payer id (Some fbody) db)) in *.
  injection I1 as _ Hb1 Hs1 Ha1 _ _.
  destruct (ship_moves env2 seller id sreq sbody db1 e1 E1 C1 B Rs)
    as [(e2 & E2 & I2 & C2 & U2) P2];
    [congruence | unfold kyc_of, select_kyc; rewrite U1; exact K|].
  set (db2 := snd (EscrowKyc.ship env2 seller id sreq db1)) in *.
  injection I2 as _ Hb2 Hs2 Ha2 _ _.
  destruct (confirm_moves env3 buyer id db2 e2 E2 C2 Rb)
    as [(e3 & E3 & I3 & C3 & U3) P3]; [congruence|].
  set (db3 := snd (EscrowKyc.confirm env3 buyer id db2)) in *.
  injection I3 as _ Hb3 Hs3 Ha3 _ _.
  destruct (admin_release_moves env4 admin id db3 e3 E3 C3 Ra)
    as [(e4 & E4 & I4 & C4 & U4) P4].
  { unfold kyc_of, select_kyc. rewrite U3, U2, U1.
    replace (e_seller_id e3) with (au_id seller) by congruence. exact K. }
  set (db4 := snd (Admin.escrows_release env4 admin id db3)) in *.
  injection I4 as _ Hb4 Hs4 Ha4 _ _.
  assert (P4' : select (fun q => po_escrow_id q =? id) (payouts db4)
                = [seller_payout (uuid env4 0) id (au_id seller)
                                 (Some (e_amount e)) (now env4)]).
  { rewrite P4, P3, P2, P1. unfold select. rewrite filter_app.
    fold (select (fun q => po_escrow_id q =? id) (payouts db)). rewrite P.
    cbn. rewrite eqb_same.
    replace (e_seller_id e3) with (au_id seller) by congruence.
    replace (e_amount e3) with (e_amount e) by congruence. reflexivity. }
  destruct (admin_complete_moves env5 admin id db4 e4 _ E4 C4 Ra P4' eq_refl)
    as [(e5 & E5 & I5 & C5 & U5) P5].
  split.
  - unfold escrow_status. rewrite E5. cbn. rewrite C5. reflexivity.
  - rewrite P5. unfold update. cbn. rewrite eqb_same. reflexivity.
Qed.

Lemma lifecycle_completes_witness :
  let db' := serve [(Sample.at_time 2 "p1" "a2",
                     PostFund Sample.carol "e1"
                       (Some (mkFund (Some "qr") (Some "ref1") None)));
                    (Sample.at_time 3 "a3" "a3",
                     PostShip Sample.bob "e1"
                       (mkShip (Some [("tracking_number", "TRK1")]) []));
                    (Sample.at_time 4 "a4" "a4",
                     PostConfirm Sample.alice "e1");
                    (Sample.at_time 5 "po1" "a5",
                     PostAdminRelease Sample.root "e1");
                    (Sample.at_time 6 "a6" "a7",
                     PostAdminComplete Sample.root "e1")]
                   Sample.created in
  escrow_status db' "e1" = Some "completed"
  /\ select (fun q => po_escrow_id q =? "e1") (payouts db')
     = [mkPayout "po1" "e1" (Some "u-bob") (Some 100%Z) None None "sent"
                 (Some 5) (Some 6) None].
Proof.
  eapply (lifecycle_completes (Sample.at_time 2 "p1" "a2")
            (Sample.at_time 3 "a3" "a3") (Sample.at_time 4 "a4" "a4")
            (Sample.at_time 5 "po1" "a5") (Sample.at_time 6 "a6" "a7")
            Sample.carol Sample.alice Sample.bob Sample.root "e1"
            (mkFund (Some "qr") (Some "ref1") None)
            (mkShip (Some [("tracking_number", "TRK1")]) [])
            [("tracking_number", "TRK1")] Sample.created
            (mkEscrow "e1" "u-alice" "u-bob" 100 "IDR" "created" None None
                      None 1 1));
    reflexivity.
Defined.

(** ** The payouts webhook *)

Lemma payout_hook_unsigned env req db :
  truthy (x_signature req) = false ->
  Webhooks.payouts env req db = reject 400 "Missing signature" db.
Proof. intros H. unfold Webhooks.payouts. rewrite H. reflexivity. Qed.

Lemma payout_hook_no_body env req db :
  truthy (x_signature req) = true ->
  hook_body req = None ->
  Webhooks.payouts env req db = reject 500 "Internal server error" db.
Proof.
  intros Hsig Hb. unfold Webhooks.payouts. rewrite Hsig, Hb. reflexivity.
Qed.

Lemma payout_hook_known env req body db w ws :
  truthy (x_signature req) = true ->
  hook_body req = Some body ->
  select (Webhooks.same_event (or_null (p_pg_ref body))
                              (or_else (p_event body) "unknown"))
         (webhook_events db) = w :: ws ->
  Webhooks.payouts env req db = reply 200 "Event already processed" db.
Proof.
  intros Hsig Hb S. unfold Webhooks.payouts.
  rewrite Hsig, Hb. simpl. rewrite S. reflexivity.
Qed.

Lemma payout_hook_no_reference env req body db :
  hook_body req = Some body ->
  or_null (p_pg_ref body) = None ->
  payouts (snd (Webhooks.payouts env req db)) = payouts db
  /\ escrow_transactions (snd (Webhooks.payouts env req db))
     = escrow_transactions db.
Proof.
  intros Hb Href. unfold Webhooks.payouts. rewrite Hb, Href.
  destruct (negb (truthy (x_signature req))); [split; reflexivity|].
  destruct (select _ _); split; reflexivity.
Qed.

Lemma payout_hook_stored env req body db ref :
  truthy (x_signature req) = true ->
  hook_body req = Some body ->
  or_null (p_pg_ref body) = Some ref ->
  select (Webhooks.same_event (Some ref) (or_else (p_event body) "unknown"))
         (webhook_events db) = [] ->
  exists p,
    webhook_events (snd (Webhooks.payouts env req db))
    = update p Webhooks.w_set_processed
        (insert (mkEvent (uuid env 0) "payment_gateway"
                   (or_else (p_event body) "unknown") body false (now env))
                (webhook_events db)).
Proof.
  intros Hsig Hb Href S. unfold Webhooks.payouts.
  rewrite Hsig, Hb, Href. simpl. rewrite S.
  destruct (select _ (payouts _)).
  - exists (fun _ => false). simpl. rewrite update_nothing. reflexivity.
  - destruct (or_else (p_status body) "pending" =? "sent");
      eexists; reflexivity.
Qed.

(** A stored delivery of either webhook is found by both. *)
Lemma stored_then_found env req body db ref
  (hook : Env -> WebhookReq -> Handler) :
  hook_body req = Some body ->
  or_null (p_pg_ref body) = Some ref ->
  (exists p,
     webhook_events (snd (hook env req db))
     = update p Webhooks.w_set_processed
         (insert (mkEvent (uuid env 0) "payment_gateway"
                    (or_else (p_event body) "unknown") body false (now env))
                 (webhook_events db))) ->
  select (Webhooks.same_event (Some ref) (or_else (p_event body) "unknown"))
         (webhook_events (snd (hook env req db))) <> [].
Proof.
  intros Hb Href [p Hp]. rewrite Hp.
  eapply stored_event_found.
  - unfold insert. apply in_or_app. right. left. reflexivity.
  - apply or_null_some in Href as [Hraw _].
    unfold Webhooks.same_event. simpl.
    rewrite Hraw, !eqb_same. reflexivity.
Qed.

(** X13.  The second of two deliveries of one request to the payouts
    webhook changes no payout and no escrow, and is answered as already
    processed when the event carries a reference. *)
Theorem payout_hook_redelivered env env' req db :
  let db1 := snd (Webhooks.payouts env req db) in
  let out := Webhooks.payouts env' req db1 in
  payouts (snd out) = payouts db1
  /\ escrow_transactions (snd out) = escrow_transactions db1
  /\ (forall body ref,
        truthy (x_signature req) = true ->
        hook_body req = Some body ->
        p_pg_ref body = Some ref -> ref <> "" ->
        out = reply 200 "Event already processed" db1).
Proof.
  intros db1 out. subst out.
  destruct (truthy (x_signature req)) eqn:Hsig.
  2:{ rewrite (payout_hook_unsigned env' req db1 Hsig).
      repeat split. discriminate. }
  destruct (hook_body req) as [body|] eqn:Hbody.
  2:{ rewrite (payout_hook_no_body env' req db1 Hsig Hbody).
      repeat split. discriminate. }
  set (ty := or_else (p_event body) "unknown").
  assert (Hknown : forall w ws,
    select (Webhooks.same_event (or_null (p_pg_ref body)) ty)
           (webhook_events db1) = w :: ws ->
    payouts (snd (Webhooks.payouts env' req db1)) = payouts db1
    /\ escrow_transactions (snd (Webhooks.payouts env' req db1))
       = escrow_transactions db1
    /\ (forall body0 ref,
          true = true -> Some body = Some body0 ->
          p_pg_ref body0 = Some ref -> ref <> "" ->
          Webhooks.payouts env' req db1
          = reply 200 "Event already processed" db1)).
  { intros w ws S1.
    rewrite (payout_hook_known env' req body db1 w ws Hsig Hbody S1).
    repeat split. }
  destruct (select (Webhooks.same_event (or_null (p_pg_ref body)) ty)
                   (webhook_events db)) as [|w0 ws0] eqn:S.
  2:{ assert (Hdb1 : db1 = db).
      { unfold db1.
        rewrite (payout_hook_known env req body db w0 ws0 Hsig Hbody S).
        reflexivity. }
      apply (Hknown w0 ws0). rewrite Hdb1. exact S. }
  destruct (or_null (p_pg_ref body)) as [ref|] eqn:Href.
  - pose proof (stored_then_found env req body db ref Webhooks.payouts
                  Hbody Href
                  (payout_hook_stored env req body db ref Hsig Hbody Href S))
      as Hfound.
    fold db1 in Hfound. fold ty in Hfound.
    destruct (select (Webhooks.same_event (Some ref) ty) (webhook_events db1))
      as [|w1 ws1] eqn:S1; [contradiction|].
    apply (Hknown w1 ws1). reflexivity.
  - destruct (payout_hook_no_reference env' req body db1 Hbody Href)
      as [Hi He].
    repeat split; try assumption.
    intros body0 ref _ Hb Hr Hne. injection Hb as <-.
    rewrite Hr, (or_null_truthy _ Hne) in Href. discriminate.
Qed.

Lemma payout_hook_redelivered_witness :
  let req := mkHook (Some "sig")
               (Some (mkPayload (Some "payout_sent") (Some "pay1") None
                                (Some "sent"))) in
  let db1 := snd (Webhooks.payouts (Sample.at_time 7 "w1" "a7") req
                    Sample.confirmed) in
  Webhooks.payouts (Sample.at_time 8 "w2" "a8") req db1
  = reply 200 "Event already processed" db1.
Proof.
  destruct (payout_hook_redelivered (Sample.at_time 7 "w1" "a7")
              (Sample.at_time 8 "w2" "a8")
              (mkHook (Some "sig")
                 (Some (mkPayload (Some "payout_sent") (Some "pay1") None
                                  (Some "sent"))))
              Sample.confirmed) as (_ & _ & H).
  eapply (H _ "pay1"); [reflexivity | reflexivity | reflexivity
                       | discriminate].
Defined.

(** X14.  The two webhooks keep one record of deliveries: once the
    payments webhook has stored an event, a signed delivery to the payouts
    webhook with the same reference and the same event name is answered as
    already processed and writes nothing. *)
Theorem hooks_share_deliveries env env' req req' body body' ref db :
  truthy (x_signature req) = true ->
  hook_body req = Some body ->
  truthy (x_signature req') = true ->
  hook_body req' = Some body' ->
  p_pg_ref body = Some ref -> p_pg_ref body' = Some ref -> ref <> "" ->
  or_else (p_event body') "unknown" = or_else (p_event body) "unknown" ->
  let db1 := snd (Webhooks.payments env req db) in
  Webhooks.payouts env' req' db1 = reply 200 "Event already processed" db1.
Proof.
  intros Hsig Hb Hsig' Hb' Hr Hr' Hne Hty db1.
  assert (Href : or_null (p_pg_ref body) = Some ref)
    by (rewrite Hr; apply or_null_truthy; exact Hne).
  assert (Href' : or_null (p_pg_ref body') = Some ref)
    by (rewrite Hr'; apply or_null_truthy; exact Hne).
  assert (Hfound :
    select (Webhooks.same_event (Some ref) (or_else (p_event body) "unknown"))
           (webhook_events db1) <> []).
  { destruct (select (Webhooks.same_event (Some ref)
                        (or_else (p_event body) "unknown"))
                     (webhook_events db)) as [|w ws] eqn:S.
    - apply (stored_then_found env req body db ref Webhooks.payments
               Hb Href).
      apply (payments_stored env req body db ref); assumption.
    - unfold db1. rewrite (payments_known env req body db w ws Hsig Hb);
        [|rewrite Href; exact S].
      unfold reply. cbn [snd]. rewrite S. discriminate. }
  destruct (select (Webhooks.same_event (Some ref)
                      (or_else (p_event body) "unknown"))
                   (webhook_events db1)) as [|w ws] eqn:S1;
    [contradiction|].
  apply (payout_hook_known env' req' body' db1 w ws Hsig' Hb').
  rewrite Href', Hty. exact S1.
Qed.

Lemma hooks_share_deliveries_witness :
  let payout_req := mkHook (Some "sig")
                      (Some (mkPayload (Some "payment_succeeded")
                                       (Some "ref1") None (Some "sent"))) in
  let db1 := snd (Webhooks.payments (Sample.at_time 7 "w1" "a7") Sample.paid
                    Sample.confirmed) in
  Webhooks.payouts (Sample.at_time 8 "w2" "a8") payout_req db1
  = reply 200 "Event already processed" db1.
Proof.
  eapply (hooks_share_deliveries (Sample.at_time 7 "w1" "a7")
            (Sample.at_time 8 "w2" "a8") Sample.paid
            (mkHook (Some "sig")
               (Some (mkPayload (Some "payment_succeeded") (Some "ref1")
                                None (Some "sent"))))
            Sample.receipt _ "ref1" Sample.confirmed);
    [reflexivity | reflexivity | reflexivity | reflexivity | reflexivity
    | reflexivity | discriminate | reflexivity].
Defined.

(** X15.  The first delivery of a signed payout event whose reference is
    that of a payout copies the status of the payload onto that payout,
    whatever the status says ("pending" when it says nothing), stamps it
    as sent now, and completes the payout's escrow when, and only when,
    the status is "sent". *)
Theorem payout_hook_reports env req body db ref payout rest :
  truthy (x_signature req) = true ->
  hook_body req = Some body ->
  p_pg_ref body = Some ref -> ref <> "" ->
  select (Webhooks.same_event (Some ref) (or_else (p_event body) "unknown"))
         (webhook_events db) = [] ->
  select (Webhooks.has_reference po_pg_reference ref) (payouts db)
  = payout :: rest ->
  let status := or_else (p_status body) "pending" in
  let out := Webhooks.payouts env req db in
  fst out = mkRes 200 (Message "Payout webhook processed")
  /\ payouts (snd out)
     = update (fun p => po_id p =? po_id payout)
              (Webhooks.po_report status ref (now env)) (payouts db)
  /\ escrow_transactions (snd out)
     = if status =? "sent"
       then update (is_escrow (po_escrow_id payout))
                   (e_set_status "completed" (now env))
                   (escrow_transactions db)
       else escrow_transactions db.
Proof.
  intros Hsig Hb Href Hne S P. unfold Webhooks.payouts.
  rewrite Hsig, Hb, Href. cbn [negb]. rewrite (or_null_truthy _ Hne), S.
  cbv zeta.
  change (payouts (set_events _ db)) with (payouts db). rewrite P.
  destruct (or_else (p_status body) "pending" =? "sent"); repeat split.
Qed.

Lemma payout_hook_reports_witness :
  let db := set_payouts
              (fun _ => [mkPayout "po1" "e1" (Some "u-bob") (Some 100%Z)
                                  None None "pending" (Some 5) None
                                  (Some "pay1")])
              Sample.confirmed in
  let out := Webhooks.payouts (Sample.at_time 7 "w1" "a7")
               (mkHook (Some "sig")
                  (Some (mkPayload (Some "payout") (Some "pay1") None
                                   (Some "failed"))))
               db in
  map po_status (payouts (snd out)) = ["failed"]
  /\ map po_sent_at (payouts (snd out)) = [Some 7]
  /\ escrow_status (snd out) "e1" = Some "confirmed".
Proof.
  edestruct (payout_hook_reports (Sample.at_time 7 "w1" "a7")
               (mkHook (Some "sig")
                  (Some (mkPayload (Some "payout") (Some "pay1") None
                                   (Some "failed"))))
               (mkPayload (Some "payout") (Some "pay1") None (Some "failed"))
               (set_payouts
                    (fun _ => [mkPayout "po1" "e1" (Some "u-bob")
                                        (Some 100%Z) None None "pending"
                                        (Some 5) None (Some "pay1")])
                    Sample.confirmed) "pay1")
    as (_ & Hp & He);
    [reflexivity | reflexivity | reflexivity | discriminate | reflexivity
    | vm_compute; reflexivity |].
  cbv zeta. split; [rewrite Hp; reflexivity|].
  split; [rewrite Hp; reflexivity|].
  unfold escrow_status, select_escrow. rewrite He. reflexivity.
Defined.







(** ** The buyer's receipt *)

Lemma pick_file_some f fs : exists g, Receipt.pick_file (f :: fs) = Some g.
Proof.
  unfold Receipt.pick_file.
  destruct (find _ (f :: fs)) as [g|]; [exists g | exists f]; reflexivity.
Qed.

Lemma url_truthy (a b : string) : truthy (Some (a ++ "/" ++ b)) = true.
Proof. destruct a; reflexivity. Qed.

(** X17.  Uploading a receipt never changes the status of an escrow.  It
    is accepted only from a caller of role buyer who is the buyer of the
    escrow while the escrow is shipped; from such a caller a request with
    a file is answered 201 and stores the URL of the chosen file as the
    buyer's proof. *)
Theorem receipt_keeps_status env user id req db :
  let out := Receipt.upload env user id req db in
  map e_status (escrow_transactions (snd out))
  = map e_status (escrow_transactions db)
  /\ (forall escrow rest,
        select_escrow db id = escrow :: rest ->
        (res_status (fst out) = 201 ->
         au_role user = "buyer" /\ e_buyer_id escrow = au_id user
         /\ e_status escrow = "shipped")
        /\ (forall f fs,
              ship_files req = f :: fs ->
              au_role user = "buyer" -> e_buyer_id escrow = au_id user ->
              e_status escrow = "shipped" ->
              res_status (fst out) = 201
              /\ exists g,
                   Receipt.pick_file (f :: fs) = Some g
                   /\ option_map e_buyer_proof_url
                        (hd_error (select_escrow (snd out) id))
                      = Some (Some (base_url env ++ "/uploads/receipts/"
                                    ++ basename g)))).
Proof.
  cbv zeta. split.
  - unfold Receipt.upload. repeat branch; unfold reject, reply; written;
      rewrite ?map_update by reflexivity; reflexivity.
  - intros escrow rest E. unfold Receipt.upload. rewrite E. split.
    + destruct (String.eqb_spec (au_role user) "buyer"); cbn [negb];
        [|discriminate].
      destruct (String.eqb_spec (e_buyer_id escrow) (au_id user));
        cbn [negb]; [|discriminate].
      destruct (String.eqb_spec (e_status escrow) "shipped");
        cbn [negb]; [|discriminate].
      auto.
    + intros f fs Hf R B S. rewrite R, B, S, Hf, !eqb_same. cbn [negb].
      destruct (pick_file_some f fs) as [g Hg]. rewrite Hg.
      change (base_url env ++ "/uploads/receipts/" ++ basename g)
        with (base_url env ++ "/" ++ ("uploads/receipts/" ++ basename g)).
      rewrite url_truthy. cbn [negb]. split; [reflexivity|].
      exists g. split; [reflexivity|].
      unfold reply; written. unfold select_escrow. written.
      rewrite select_update_same by reflexivity.
      fold (select_escrow db id). rewrite E. reflexivity.
Qed.

Lemma receipt_keeps_status_witness :
  let out := Receipt.upload (mkEnv 4 (fun _ => "a4") "https://cdn")
               Sample.alice "e1"
               (mkShip None [mkFile "photo" "box.jpg" "image/jpeg" 10
                                    "171-ab.jpg"])
               Sample.shipped in
  res_status (fst out) = 201
  /\ escrow_status (snd out) "e1" = Some "shipped"
  /\ option_map e_buyer_proof_url (hd_error (select_escrow (snd out) "e1"))
     = Some (Some "https://cdn/uploads/receipts/171-ab.jpg").
Proof.
  destruct (receipt_keeps_status (mkEnv 4 (fun _ => "a4") "https://cdn")
              Sample.alice "e1"
              (mkShip None [mkFile "photo" "box.jpg" "image/jpeg" 10
                                   "171-ab.jpg"])
              Sample.shipped) as [_ H].
  edestruct H as [_ Hfile]; [vm_compute; reflexivity|].
  edestruct Hfile as [Hok [g [Hg Hurl]]];
    [reflexivity | reflexivity | reflexivity | reflexivity |].
  split; [exact Hok|]. split; [reflexivity|].
  rewrite Hurl. injection Hg as <-. reflexivity.
Defined.

(** ** Evidence *)

(** X18.  On a dispute that exists, evidence is accepted (201, one row
    appended to the evidence table) exactly when the request names a file,
    the dispute is open and the caller is the buyer or the seller of the
    disputed escrow; the caller's role is not asked.  A request without a
    body is answered 500.  Escrows, disputes and payouts are never
    written. *)
Theorem evidence_guard env user id file_url note s dispute e rest :
  select_dispute (base s) id = (dispute, e) :: rest ->
  EvidenceUpload.upload env user id None s
  = refuse 500 "Internal server error" s
  /\ let out := EvidenceUpload.upload env user id
                  (Some (mkEvidenceBody file_url note)) s in
     (res_status (fst out) = 201 <->
      truthy file_url = true /\ d_status dispute = "open"
      /\ (au_id user = e_buyer_id e \/ au_id user = e_seller_id e))
     /\ (res_status (fst out) = 201 ->
         evidence (snd out)
         = (evidence s
            ++ [mkEvidence (uuid env 0) id (text file_url) (or_null note)
                           (au_id user) (now env)])%list)
     /\ (res_status (fst out) <> 201 -> snd out = s)
     /\ escrow_transactions (base (snd out)) = escrow_transactions (base s)
     /\ disputes (base (snd out)) = disputes (base s)
     /\ payouts (base (snd out)) = payouts (base s).
Proof.
  intros J. split; [reflexivity|].
  intros out. subst out. unfold EvidenceUpload.upload.
  cbn [eb_file_url eb_note].
  destruct (truthy file_url); cbn [negb].
  2:{ repeat split; try discriminate. intros [H _]. discriminate. }
  rewrite J.
  destruct (String.eqb_spec (d_status dispute) "open") as [O|O]; cbn [negb].
  2:{ repeat split; try discriminate. tauto. }
  destruct (negb (au_id user =? e_buyer_id e)
            && negb (au_id user =? e_seller_id e)) eqn:P.
  { apply stranger_spec in P. repeat split; try discriminate. tauto. }
  assert (Hparty : au_id user = e_buyer_id e \/ au_id user = e_seller_id e).
  { destruct (String.eqb_spec (au_id user) (e_buyer_id e)); [tauto|].
    destruct (String.eqb_spec (au_id user) (e_seller_id e)); [tauto|].
    discriminate. }
  repeat split; try assumption. intros H. exfalso. apply H. reflexivity.
Qed.

Lemma evidence_guard_witness :
  let s := mkStore Sample.disputed [] [] in
  let out := EvidenceUpload.upload (Sample.at_time 5 "ev1" "a5") Sample.bob
               "d1" (Some (mkEvidenceBody (Some "https://cdn/photo.jpg")
                             None)) s in
  res_status (fst out) = 201
  /\ evidence (snd out)
     = [mkEvidence "ev1" "d1" "https://cdn/photo.jpg" None "u-bob" 5].
Proof.
  edestruct (evidence_guard (Sample.at_time 5 "ev1" "a5") Sample.bob "d1"
               (Some "https://cdn/photo.jpg") None
               (mkStore Sample.disputed [] []))
    as (_ & Hiff & Hrow & _); [vm_compute; reflexivity|].
  assert (Hok : res_status
                  (fst (EvidenceUpload.upload (Sample.at_time 5 "ev1" "a5")
                          Sample.bob "d1"
                          (Some (mkEvidenceBody
                                   (Some "https://cdn/photo.jpg") None))
                          (mkStore Sample.disputed [] []))) = 201).
  { apply Hiff. split; [reflexivity|]. split; [reflexivity|].
    right. reflexivity. }
  split; [exact Hok | exact (Hrow Hok)].
Defined.

(** X19.  Resolution closes a dispute to evidence: after a resolve request
    that was answered 200, whatever the decision, no evidence upload for
    that dispute is accepted and none writes anything.  An upload with a
    body is answered 400, one without a body 500. *)
Theorem evidence_closed_after_resolve env env' admin user id decision
  upload s :
  res_status (fst (Disputes.resolve env admin id decision (base s))) = 200 ->
  let s1 := snd (on_base (Disputes.resolve env admin id decision) s) in
  let out := EvidenceUpload.upload env' user id upload s1 in
  res_status (fst out) = match upload with Some _ => 400 | None => 500 end
  /\ snd out = s1.
Proof.
  intros Hok s1 out. subst out.
  assert (J : exists rec e rest,
            select_dispute (base s1) id = (rec, e) :: rest
            /\ d_status rec = "resolved").
  { subst s1. unfold on_base. cbn [snd base set_base].
    revert Hok. unfold Disputes.resolve.
    destruct decision as [body|]; [|discriminate]. cbv zeta.
    destruct (negb (au_role admin =? "admin")); [discriminate|].
    destruct (negb (Disputes.valid_decision (b_decision body)));
      [discriminate|].
    destruct (select_dispute (base s) id) as [|[rec e] rest] eqn:J;
      [discriminate|].
    destruct (negb (d_status rec =? "open")); [discriminate|].
    destruct (text (b_decision body) =? "favor_seller").
    - destruct (not_verified _); [discriminate|]. intros _.
      unfold reply. cbn [snd].
      match goal with |- context [select_dispute ?d id] =>
        destruct (select_dispute_updated (base s) d id rec e rest
                    (e_set_status "released" (now env))
                    (Disputes.d_resolve (now env)))
          as [rest' J']; auto
      end.
      eauto 6.
    - intros _. unfold reply. cbn [snd].
      match goal with |- context [select_dispute ?d id] =>
        destruct (select_dispute_resolved (base s) d id rec e rest
                    (Disputes.d_resolve (now env)))
          as [rest' J']; auto
      end.
      eauto 6. }
  destruct J as (rec & e & rest & J & Hst).
  unfold EvidenceUpload.upload.
  destruct upload as [body|]; [|split; reflexivity]. cbv zeta.
  destruct (negb (truthy (eb_file_url body))); [split; reflexivity|].
  rewrite J, Hst. split; reflexivity.
Qed.

Lemma evidence_closed_after_resolve_witness :
  let s := mkStore Sample.disputed [] [] in
  let s1 := snd (on_base (Disputes.resolve (Sample.at_time 5 "a5" "a5")
                            Sample.root "d1"
                            (Some (mkDecision (Some "favor_buyer") None)))
                   s) in
  let out := EvidenceUpload.upload (Sample.at_time 6 "ev1" "a6") Sample.alice
               "d1" (Some (mkEvidenceBody (Some "https://cdn/photo.jpg")
                             None)) s1 in
  res_status (fst out) = 400 /\ snd out = s1.
Proof.
  apply (evidence_closed_after_resolve (Sample.at_time 5 "a5" "a5")
           (Sample.at_time 6 "ev1" "a6") Sample.root Sample.alice "d1"
           (Some (mkDecision (Some "favor_buyer") None))
           (Some (mkEvidenceBody (Some "https://cdn/photo.jpg") None))
           (mkStore Sample.disputed [] [])).
  reflexivity.
Defined.

(** ** KYC *)

Lemma select_kyc_set db id k :
  select_kyc (set_users (update (is_user id) (Users.u_set_kyc k)) db) id
  = map (fun _ => k) (select_kyc db id).
Proof.
  unfold select_kyc. cbn [users set_users].
  unfold select at 1. fold (select (is_user id)
                              (update (is_user id) (Users.u_set_kyc k)
                                      (users db))).
  rewrite select_update_same by reflexivity.
  rewrite !map_map. reflexivity.
Qed.

Lemma select_kyc_other db id other k :
  other <> id ->
  select_kyc (set_users (update (is_user id) (Users.u_set_kyc k)) db) other
  = select_kyc db other.
Proof.
  intros Hne. unfold select_kyc. cbn [users set_users]. f_equal.
  rewrite select_update_commute by reflexivity.
  apply update_untouched. intros u Hu.
  apply filter_In in Hu as [_ Hu]. unfold is_user in *.
  apply eqb_true in Hu. apply String.eqb_neq. congruence.
Qed.

Lemma none_pending id (f : KycSubmission -> KycSubmission)
  (ks : list KycSubmission) :
  (forall k, Users.pending_of id (f k) = false) ->
  select (Users.pending_of id) (update (Users.pending_of id) f ks) = [].
Proof.
  intros Hf. unfold select, update.
  induction ks as [|k ks IH]; simpl; [reflexivity|].
  destruct (Users.pending_of id k) eqn:P; rewrite ?Hf, ?P; exact IH.
Qed.

Lemma kyc_verify_runs env user userId decision note s :
  au_role user = "admin" ->
  decision = "verified" \/ decision = "rejected" ->
  res_status (fst (Users.kyc_verify env user userId
              (Some (mkDecision (Some decision) note)) s))
  = 200
  /\ base (snd (Users.kyc_verify env user userId
              (Some (mkDecision (Some decision) note)) s))
     = set_users (update (is_user userId) (Users.u_set_kyc decision)) (base s)
  /\ kyc_submissions
       (snd (Users.kyc_verify env user userId
              (Some (mkDecision (Some decision) note)) s))
     = update (Users.pending_of userId)
         (Users.ks_review decision (au_id user) (or_null note) (now env))
         (kyc_submissions s).
Proof.
  intros Hadmin Hd.
  unfold Users.kyc_verify, Users.requireAdmin. rewrite Hadmin.
  change ("admin" =? "admin") with true. cbn [negb b_decision b_note].
  assert (Hdec : Users.is_decision (Some decision) = true)
    by (destruct Hd as [-> | ->]; reflexivity).
  rewrite Hdec. repeat split.
Qed.

(** X20.  An admin's KYC decision on a user id sets the KYC status of the
    rows of that id to the decision and closes every pending submission
    of that user, leaving the other users and every role as they were.
    It is answered 200 whether or not the user or a submission exists. *)
Theorem kyc_verify_sets env user userId decision note s :
  au_role user = "admin" ->
  decision = "verified" \/ decision = "rejected" ->
  let out := Users.kyc_verify env user userId
              (Some (mkDecision (Some decision) note)) s in
  res_status (fst out) = 200
  /\ select_kyc (base (snd out)) userId
     = map (fun _ => decision) (select_kyc (base s) userId)
  /\ (forall other, other <> userId ->
      select_kyc (base (snd out)) other = select_kyc (base s) other)
  /\ map u_role (users (base (snd out))) = map u_role (users (base s))
  /\ select (Users.pending_of userId) (kyc_submissions (snd out)) = [].
Proof.
  intros Hadmin Hd out. subst out.
  destruct (kyc_verify_runs env user userId decision note s Hadmin Hd)
    as (Hok & Hbase & Hsub).
  rewrite Hbase, Hsub.
  split; [exact Hok|]. split; [apply select_kyc_set|].
  split; [intros other Hne; apply select_kyc_other; exact Hne|].
  split.
  - cbn [users set_users]. apply map_update. reflexivity.
  - apply none_pending. intros k. unfold Users.pending_of.
    cbn [ks_status ks_user_id Users.ks_review].
    destruct Hd as [-> | ->]; apply andb_false_r.
Qed.

Lemma kyc_verify_sets_witness :
  let s := mkStore Sample.market []
             [mkSubmission "k1" "u-carol" "Carol" "ID-7" "doc" "selfie"
                           "pending" None None None None] in
  let out := Users.kyc_verify (Sample.at_time 2 "x" "y") Sample.root
               "u-carol" (Some (mkDecision (Some "verified") (Some "ok")))
               s in
  res_status (fst out) = 200
  /\ kyc_of (base (snd out)) "u-carol" = Some "verified"
  /\ kyc_of (base (snd out)) "u-bob" = Some "verified"
  /\ map ks_status (kyc_submissions (snd out)) = ["verified"].
Proof.
  destruct (kyc_verify_sets (Sample.at_time 2 "x" "y") Sample.root "u-carol"
              "verified" (Some "ok")
              (mkStore Sample.market []
                 [mkSubmission "k1" "u-carol" "Carol" "ID-7" "doc" "selfie"
                               "pending" None None None None]))
    as (Hok & Hk & Ho & _ & _); [reflexivity | left; reflexivity |].
  cbv zeta. split; [exact Hok|].
  split; [unfold kyc_of; rewrite Hk; reflexivity|].
  split; [unfold kyc_of; rewrite Ho; [reflexivity|discriminate]|].
  reflexivity.
Defined.

(** X21.  The KYC decision is what the shipping gate reads: once an admin
    has verified a seller who has a user row, that seller's ship request
    for a funded escrow of theirs is answered 200; once the admin has
    rejected the seller it is answered 403. *)
Theorem kyc_verify_gates_shipping env env' admin seller note s id req body
  escrow rest :
  au_role admin = "admin" ->
  au_role seller = "seller" ->
  select (is_user (au_id seller)) (users (base s)) <> [] ->
  select_escrow (base s) id = escrow :: rest ->
  e_seller_id escrow = au_id seller ->
  e_status escrow = "funded" ->
  ship_body req = Some body ->
  (let s1 := snd (Users.kyc_verify env admin (au_id seller)
                    (Some (mkDecision (Some "verified") note)) s) in
   res_status (fst (EscrowKyc.ship env' seller id req (base s1))) = 200)
  /\ (let s1 := snd (Users.kyc_verify env admin (au_id seller)
                       (Some (mkDecision (Some "rejected") note)) s) in
      res_status (fst (EscrowKyc.ship env' seller id req (base s1))) = 403).
Proof.
  intros Hadmin Hseller Hrow E Hs Hf Hb.
  assert (Hk : exists k ks, select_kyc (base s) (au_id seller) = k :: ks).
  { unfold select_kyc.
    destruct (select (is_user (au_id seller)) (users (base s))) as [|u us];
      [contradiction|]. simpl. eauto. }
  destruct Hk as (k & ks & Hk).
  split; cbv zeta.
  - destruct (kyc_verify_runs env admin (au_id seller) "verified" note s
                Hadmin (or_introl eq_refl)) as (_ & -> & _).
    unfold EscrowKyc.ship. rewrite Hb, Hseller.
    change ("seller" =? "seller") with true. cbn [negb].
    rewrite select_kyc_set, Hk. cbn [map not_verified].
    change ("verified" =? "verified") with true. cbn [negb].
    change (select_escrow (set_users _ (base s)) id)
      with (select_escrow (base s) id).
    rewrite E, Hs, Hf, eqb_same. reflexivity.
  - destruct (kyc_verify_runs env admin (au_id seller) "rejected" note s
                Hadmin (or_intror eq_refl)) as (_ & -> & _).
    unfold EscrowKyc.ship. rewrite Hb, Hseller.
    change ("seller" =? "seller") with true. cbn [negb].
    rewrite select_kyc_set, Hk. reflexivity.
Qed.

Lemma kyc_verify_gates_shipping_witness :
  let s := mkStore Sample.carols_funded [] [] in
  res_status
    (fst (EscrowKyc.ship (Sample.at_time 3 "a3" "a3") Sample.carol "e2"
            (mkShip (Some []) []) (base s))) = 403
  /\ (let s1 := snd (Users.kyc_verify (Sample.at_time 3 "x" "y") Sample.root
                       "u-carol" (Some (mkDecision (Some "verified") None))
                       s) in
      res_status
        (fst (EscrowKyc.ship (Sample.at_time 4 "a4" "a4") Sample.carol "e2"
                (mkShip (Some []) []) (base s1))) = 200).
Proof.
  split; [reflexivity|].
  edestruct (kyc_verify_gates_shipping (Sample.at_time 3 "x" "y")
               (Sample.at_time 4 "a4" "a4") Sample.root Sample.carol None
               (mkStore Sample.carols_funded [] []) "e2"
               (mkShip (Some []) []) []) as [H _];
    [reflexivity | reflexivity | discriminate | vm_compute; reflexivity
    | reflexivity | reflexivity | reflexivity |].
  exact H.
Defined.

Lemma kyc_submit_runs env user req s :
  res_status (fst (Users.kyc_submit env user req s)) = 201 ->
  base (snd (Users.kyc_submit env user req s))
  = set_users (update (is_user (au_id user)) (Users.u_set_kyc "submitted"))
              (base s)
  /\ exists row,
       kyc_submissions (snd (Users.kyc_submit env user req s))
       = (kyc_submissions s ++ [row])%list
       /\ ks_user_id row = au_id user /\ ks_status row = "pending".
Proof.
  unfold Users.kyc_submit.
  destruct (kyc_body req) as [body|]; [|discriminate].
  cbv zeta.
  destruct (negb (truthy (field "full_name" body))
            || negb (truthy (field "id_number" body))
            || negb (truthy (Users.upload_url env (kyc_document req)
                               "document_url" body))
            || negb (truthy (Users.upload_url env (kyc_selfie req)
                               "selfie_url" body))); [discriminate|].
  intros _. split; [reflexivity|]. eexists. repeat split.
Qed.

(** X22.  Submitting KYC documents sets the caller's KYC status to
    submitted whatever it was: a seller who was verified and submits again
    is no longer verified, and every ship request of theirs is answered
    403 until an admin decides again.  The submission is appended as
    pending. *)
Theorem kyc_resubmission_unverifies env user req s :
  res_status (fst (Users.kyc_submit env user req s)) = 201 ->
  let s1 := snd (Users.kyc_submit env user req s) in
  select_kyc (base s1) (au_id user)
  = map (fun _ => "submitted") (select_kyc (base s) (au_id user))
  /\ (exists row,
        kyc_submissions s1 = (kyc_submissions s ++ [row])%list
        /\ ks_user_id row = au_id user /\ ks_status row = "pending")
  /\ (forall env' id sreq sbody,
        au_role user = "seller" -> ship_body sreq = Some sbody ->
        EscrowKyc.ship env' user id sreq (base s1)
        = reject 403 "Seller is not KYC verified" (base s1)).
Proof.
  intros Hok s1. subst s1.
  destruct (kyc_submit_runs env user req s Hok) as [Hbase Hrow].
  rewrite Hbase. split; [apply select_kyc_set|]. split; [exact Hrow|].
  intros env' id sreq sbody Hrole Hb.
  unfold EscrowKyc.ship. rewrite Hb, Hrole.
  change ("seller" =? "seller") with true. cbn [negb].
  rewrite select_kyc_set.
  destruct (select_kyc (base s) (au_id user)); reflexivity.
Qed.

Lemma kyc_resubmission_unverifies_witness :
  let s := mkStore Sample.funded [] [] in
  let req := mkKycReq (Some [("full_name", "Bob"); ("id_number", "ID-1");
                             ("document_url", "doc"); ("selfie_url", "me")])
                      None None in
  kyc_of (base s) "u-bob" = Some "verified"
  /\ let s1 := snd (Users.kyc_submit (Sample.at_time 3 "k1" "k1") Sample.bob
                      req s) in
     kyc_of (base s1) "u-bob" = Some "submitted"
     /\ res_status
          (fst (EscrowKyc.ship (Sample.at_time 4 "a4" "a4") Sample.bob "e1"
                  (mkShip (Some []) []) (base s1))) = 403.
Proof.
  split; [reflexivity|].
  edestruct (kyc_resubmission_unverifies (Sample.at_time 3 "k1" "k1")
               Sample.bob
               (mkKycReq (Some [("full_name", "Bob"); ("id_number", "ID-1");
                                ("document_url", "doc");
                                ("selfie_url", "me")]) None None)
               (mkStore Sample.funded [] [])) as (Hk & _ & Hship);
    [reflexivity|].
  cbv zeta in *. split.
  - unfold kyc_of. change "u-bob" with (au_id Sample.bob).
    rewrite Hk. reflexivity.
  - rewrite (Hship (Sample.at_time 4 "a4" "a4") "e1" (mkShip (Some []) [])
               []); reflexivity.
Defined.

(** X23.  The verify route that takes the user from the body agrees with
    the one that takes it from the path: with a user_id in the body the
    email is not looked at and the outcome is that of the path route on
    that id; with an email only, it is that of the path route on the id
    of the first user of that email; without a body both answer alike. *)
Theorem kyc_verify_body_agrees env user decision note email s :
  (forall userId,
     userId <> "" ->
     Users.kyc_verify_body env user
       (Some (mkVerify decision note email (Some userId))) s
     = Users.kyc_verify env user userId (Some (mkDecision decision note)) s)
  /\ (forall address u us,
        email = Some address -> address <> "" ->
        select (fun u => u_email u =? address) (users (base s)) = u :: us ->
        u_id u <> "" ->
        Users.kyc_verify_body env user
          (Some (mkVerify decision note email None)) s
        = Users.kyc_verify env user (u_id u)
            (Some (mkDecision decision note)) s)
  /\ (forall userId,
        Users.kyc_verify_body env user None s
        = Users.kyc_verify env user userId None s).
Proof.
  assert (Hdec : negb (truthy decision) || negb (Users.is_decision decision)
                 = negb (Users.is_decision decision)).
  { destruct decision as [d|]; [|reflexivity].
    unfold truthy. destruct (String.eqb_spec d ""); [subst|]; reflexivity. }
  split; [|split].
  - intros userId Hne.
    unfold Users.kyc_verify_body, Users.kyc_verify, Users.requireAdmin.
    destruct (negb (au_role user =? "admin")); [reflexivity|].
    cbn [v_decision v_note v_email v_user_id b_decision b_note].
    rewrite Hdec.
    destruct (negb (Users.is_decision decision)); [reflexivity|].
    apply String.eqb_neq in Hne. unfold truthy at 1. rewrite Hne.
    cbn [negb andb]. unfold truthy. rewrite Hne. reflexivity.
  - intros address u us -> Hne Hsel Hid.
    unfold Users.kyc_verify_body, Users.kyc_verify, Users.requireAdmin.
    destruct (negb (au_role user =? "admin")); [reflexivity|].
    cbn [v_decision v_note v_email v_user_id b_decision b_note].
    rewrite Hdec.
    destruct (negb (Users.is_decision decision)); [reflexivity|].
    apply String.eqb_neq in Hne, Hid. unfold truthy. rewrite Hne.
    cbn [negb andb text]. rewrite Hsel, Hid. reflexivity.
  - intros userId. reflexivity.
Qed.

Lemma kyc_verify_body_agrees_witness :
  let s := mkStore Sample.market [] [] in
  Users.kyc_verify_body (Sample.at_time 2 "x" "y") Sample.root
    (Some (mkVerify (Some "verified") None (Some "carol@example.com") None))
    s
  = Users.kyc_verify (Sample.at_time 2 "x" "y") Sample.root "u-carol"
      (Some (mkDecision (Some "verified") None)) s.
Proof.
  destruct (kyc_verify_body_agrees (Sample.at_time 2 "x" "y") Sample.root
              (Some "verified") None (Some "carol@example.com")
              (mkStore Sample.market [] [])) as (_ & H & _).
  cbv zeta.
  apply (H "carol@example.com"
           (mkUser "u-carol" "carol@example.com" "seller" "pending") []);
    [reflexivity | discriminate | reflexivity | discriminate].
Defined.

(** ** The bearer token *)

Lemma split_on_word (a b : string) :
  ~ In space (list_ascii_of_string a) ->
  split_on space (a ++ String space b) = a :: split_on space b.
Proof.
  induction a as [|c a IH]; intros H; simpl.
  - reflexivity.
  - simpl in H. destruct (Ascii.eqb_spec c space) as [->|_]; [tauto|].
    rewrite IH by tauto. reflexivity.
Qed.

Lemma append_empty_r_local (a : string) : a ++ "" = a.
Proof. induction a as [|c a IH]; simpl; [|rewrite IH]; reflexivity. Qed.

Lemma split_on_one (a : string) :
  ~ In space (list_ascii_of_string a) -> split_on space a = [a].
Proof.
  induction a as [|c a IH]; intros H; simpl.
  - reflexivity.
  - simpl in H. destruct (Ascii.eqb_spec c space) as [->|_]; [tauto|].
    rewrite IH by tauto. reflexivity.
Qed.

(** X24.  Authentication reads the second space-separated word of the
    Authorization header as the token and nothing else: the scheme word
    is not checked and whatever follows a further space is dropped.  A
    header of one word is answered 401. *)
Theorem token_is_second_word verify scheme token tail next db :
  ~ In space (list_ascii_of_string scheme) ->
  ~ In space (list_ascii_of_string token) ->
  token <> "" ->
  tail = "" \/ (exists rest, tail = " " ++ rest) ->
  authenticateJWT verify (Some (scheme ++ " " ++ token ++ tail)) next db
  = match verify token with
    | Some user => next user db
    | None => reject 403 "Invalid or expired token" db
    end
  /\ (scheme <> "" ->
      authenticateJWT verify (Some scheme) next db
      = reject 401 "Token missing" db).
Proof.
  intros Hs Ht Hne Htail. split.
  - unfold authenticateJWT.
    change (scheme ++ " " ++ token ++ tail)
      with (scheme ++ String space (token ++ tail)).
    assert (Hh : truthy (Some (scheme ++ String space (token ++ tail)))
                 = true) by (destruct scheme; reflexivity).
    rewrite Hh. cbn [negb text]. rewrite (split_on_word _ _ Hs).
    assert (Hw : exists ws, split_on space (token ++ tail) = token :: ws).
    { destruct Htail as [-> | [rest ->]].
      - rewrite append_empty_r_local. rewrite (split_on_one _ Ht). eauto.
      - change (token ++ " " ++ rest) with (token ++ String space rest).
        rewrite (split_on_word _ _ Ht). eauto. }
    destruct Hw as [ws ->]. cbn [nth_error].
    apply String.eqb_neq in Hne. unfold truthy. rewrite Hne. reflexivity.
  - intros Hs0. unfold authenticateJWT.
    apply String.eqb_neq in Hs0. unfold truthy at 1. rewrite Hs0.
    cbn [negb text]. rewrite (split_on_one _ Hs). reflexivity.
Qed.

Lemma token_is_second_word_witness :
  let verify := fun t => if t =? "tok-bob" then Some Sample.bob else None in
  authenticateJWT verify (Some "Basic tok-bob and more")
    (fun user => EscrowKyc.ship (Sample.at_time 3 "a3" "a3") user "e1"
                   (mkShip (Some []) []))
    Sample.funded
  = EscrowKyc.ship (Sample.at_time 3 "a3" "a3") Sample.bob "e1"
      (mkShip (Some []) []) Sample.funded.
Proof.
  cbv zeta.
  destruct (token_is_second_word
              (fun t => if t =? "tok-bob" then Some Sample.bob else None)
              "Basic" "tok-bob" " and more"
              (fun user => EscrowKyc.ship (Sample.at_time 3 "a3" "a3") user
                             "e1" (mkShip (Some []) []))
              Sample.funded) as [H _].
  - simpl. intros H. repeat destruct H as [H|H]; try discriminate; exact H.
  - simpl. intros H. repeat destruct H as [H|H]; try discriminate; exact H.
  - discriminate.
  - right. exists "and more". reflexivity.
  - exact H.
Defined.

(** ** Releases and disputes *)

(** X25.  The buyer's release is never served.  Two handlers are
    registered for POST /api/escrow/:id/release; the admin's, registered
    first, answers every request itself, so a caller who is not an admin
    is answered 403 and nothing is written, whatever the database: also
    the KYC verified buyer of a confirmed escrow, whom the handler
    registered second would answer 200.  A release that is answered 200
    is the admin's, and its payout row is that handler's: no seller, no
    amount. *)
Theorem buyer_release_never_served env user id db :
  let out := EscrowKyc.post_release env user id db in
  (au_role user <> "admin" ->
   out = reject 403 "Only admins can release escrow funds" db)
  /\ (res_status (fst out) = 200 ->
      au_role user = "admin"
      /\ escrow_status db id = Some "confirmed"
      /\ payouts (snd out)
         = (payouts db
            ++ [mkPayout (uuid env 0) id None None (Some "1234567890")
                         (Some "BI-FAST") "pending" None None None])%list).
Proof.
  cbv zeta. unfold EscrowKyc.post_release. cbn [route].
  unfold EscrowKyc.release. split.
  - intros H. rewrite (not_role _ _ H). reflexivity.
  - destruct (String.eqb_spec (au_role user) "admin") as [A|A];
      [|discriminate]. cbn [negb].
    unfold escrow_status.
    destruct (select_escrow db id) as [|escrow rest]; [discriminate|].
    destruct (String.eqb_spec (e_status escrow) "confirmed") as [C|C];
      [|discriminate]. cbn [negb].
    destruct (not_verified _); [discriminate|].
    intros _. split; [exact A|]. split; [simpl; rewrite C|]; reflexivity.
Qed.

Lemma buyer_release_never_served_witness :
  kyc_of Sample.confirmed "u-alice" = Some "verified"
  /\ map e_buyer_id (select_escrow Sample.confirmed "e1") = ["u-alice"]
  /\ escrow_status Sample.confirmed "e1" = Some "confirmed"
  /\ res_status
       (fst (EscrowKyc.release_buyer (Sample.at_time 5 "po1" "a5")
               Sample.alice "e1" Sample.confirmed)) = 200
  /\ EscrowKyc.post_release (Sample.at_time 5 "po1" "a5") Sample.alice "e1"
       Sample.confirmed
     = reject 403 "Only admins can release escrow funds" Sample.confirmed
  /\ payouts
       (snd (EscrowKyc.post_release (Sample.at_time 5 "po1" "a5")
               Sample.root "e1" Sample.confirmed))
     = [mkPayout "po1" "e1" None None (Some "1234567890") (Some "BI-FAST")
                 "pending" None None None].
Proof.
  split; [reflexivity|]. split; [reflexivity|]. split; [reflexivity|].
  split; [reflexivity|]. split.
  - destruct (buyer_release_never_served (Sample.at_time 5 "po1" "a5")
                Sample.alice "e1" Sample.confirmed) as [H _].
    apply H. discriminate.
  - destruct (buyer_release_never_served (Sample.at_time 5 "po1" "a5")
                Sample.root "e1" Sample.confirmed) as [_ H].
    destruct (H eq_refl) as (_ & _ & Hp). rewrite Hp. reflexivity.
Defined.

Lemma dispute_runs env user id reason db escrow rest :
  select_escrow db id = escrow :: rest ->
  truthy reason = true ->
  au_id user = e_buyer_id escrow \/ au_id user = e_seller_id escrow ->
  existsb (String.eqb (e_status escrow)) ["funded"; "shipped"; "confirmed"]
  = true ->
  EscrowKyc.dispute env user id (Some reason) db
  = reply 201 "Dispute opened successfully"
      (insert_audit (uuid env 1) (au_id user) "dispute" "disputes"
         (uuid env 0) [("reason", Flat (jstr reason))] (now env)
         (set_disputes
            (insert (mkDispute (uuid env 0) id (au_id user) (text reason)
                       "open" (Some (now env)) None None)) db)).
Proof.
  intros E R P A. unfold EscrowKyc.dispute. rewrite R, E, A.
  assert (Hp : negb (au_id user =? e_buyer_id escrow)
               && negb (au_id user =? e_seller_id escrow) = false).
  { destruct P as [-> | ->]; rewrite eqb_same; [reflexivity|].
    apply andb_false_r. }
  rewrite Hp. reflexivity.
Qed.

(** X26.  Opening a dispute does not look for one that is open already:
    after a dispute request that succeeded, a further request with a
    reason by either party of the escrow succeeds as well, and the escrow
    has two more disputes than before. *)
Theorem dispute_opens_again env env' user user' id reason reason' db
  escrow rest :
  select_escrow db id = escrow :: rest ->
  res_status (fst (EscrowKyc.dispute env user id (Some reason) db)) = 201 ->
  truthy reason' = true ->
  au_id user' = e_buyer_id escrow \/ au_id user' = e_seller_id escrow ->
  let db1 := snd (EscrowKyc.dispute env user id (Some reason) db) in
  let out := EscrowKyc.dispute env' user' id (Some reason') db1 in
  res_status (fst out) = 201
  /\ length (select (fun d => d_escrow_id d =? id) (disputes (snd out)))
     = 2 + length (select (fun d => d_escrow_id d =? id) (disputes db)).
Proof.
  intros E Hok R' P'.
  assert (H : truthy reason = true
              /\ (au_id user = e_buyer_id escrow
                  \/ au_id user = e_seller_id escrow)
              /\ existsb (String.eqb (e_status escrow))
                         ["funded"; "shipped"; "confirmed"] = true).
  { revert Hok. unfold EscrowKyc.dispute. rewrite E.
    destruct (truthy reason); [|discriminate]. cbn [negb].
    destruct (negb (au_id user =? e_buyer_id escrow)
              && negb (au_id user =? e_seller_id escrow)) eqn:P;
      [discriminate|].
    remember (existsb (String.eqb (e_status escrow))
                ["funded"; "shipped"; "confirmed"]) as act eqn:A.
    destruct act; [|discriminate]. intros _.
    split; [reflexivity|]. split; [|reflexivity].
    destruct (String.eqb_spec (au_id user) (e_buyer_id escrow)); [tauto|].
    destruct (String.eqb_spec (au_id user) (e_seller_id escrow)); [tauto|].
    discriminate. }
  destruct H as (R & P & A).
  rewrite (dispute_runs env user id reason db escrow rest E R P A).
  cbv zeta. unfold reply. cbn [snd].
  match goal with
  |- context [EscrowKyc.dispute env' user' id (Some reason') ?d] =>
    rewrite (dispute_runs env' user' id reason' d escrow rest E R' P' A)
  end.
  unfold reply, insert_audit.
  cbn [fst snd res_status disputes set_audit set_disputes].
  split; [reflexivity|].
  rewrite !select_insert. cbn [d_escrow_id]. rewrite eqb_same.
  rewrite !length_app. simpl. lia.
Qed.

Lemma dispute_opens_again_witness :
  let out := EscrowKyc.dispute (Sample.at_time 5 "d2" "a5") Sample.bob "e1"
               (Some (Some "buyer lies")) Sample.disputed in
  res_status (fst out) = 201
  /\ map d_status (disputes (snd out)) = ["open"; "open"].
Proof.
  edestruct (dispute_opens_again (Sample.at_time 4 "d1" "a4")
               (Sample.at_time 5 "d2" "a5") Sample.alice Sample.bob "e1"
               (Some "not received") (Some "buyer lies") Sample.shipped)
    as [Hok _];
    [vm_compute; reflexivity | reflexivity | reflexivity
    | right; reflexivity |].
  split; [exact Hok | reflexivity].
Defined.

(** X27.  An admin's reject and approve of a dispute that exists ask
    nothing of the statuses they find: whatever the dispute's and the
    escrow's status, the request is answered 200, after a reject the
    dispute is rejected and its escrow completed, and after an approve the
    dispute is resolved and its escrow cancelled. *)
Theorem admin_decision_overrides env user id db rec e rest :
  au_role user = "admin" ->
  select_dispute db id = (rec, e) :: rest ->
  (let out := Admin.disputes_reject env user id db in
   res_status (fst out) = 200
   /\ dispute_status (snd out) id = Some "rejected"
   /\ escrow_status (snd out) (d_escrow_id rec) = Some "completed")
  /\ (let out := Admin.disputes_approve env user id db in
      res_status (fst out) = 200
      /\ dispute_status (snd out) id = Some "resolved"
      /\ escrow_status (snd out) (d_escrow_id rec) = Some "cancelled").
Proof.
  intros Hadmin J.
  destruct (select_dispute_escrow _ _ _ _ _ J) as [rest' E].
  split; cbv zeta.
  - unfold Admin.disputes_reject, requireAdmin. rewrite Hadmin, J.
    change ("admin" =? "admin") with true. cbn [negb].
    destruct ((d_status rec =? "rejected") && (e_status e =? "completed"))
      eqn:A.
    + apply andb_true_iff in A as [A1 A2].
      apply eqb_true in A1, A2.
      unfold reply, dispute_status, escrow_status. cbn [fst snd res_status].
      rewrite J, E. cbn. rewrite A1, A2. repeat split.
    + unfold reply. cbn [fst snd res_status]. split; [reflexivity|]. split.
      * match goal with |- dispute_status ?d id = _ =>
          destruct (select_dispute_updated db d id rec e rest
                      (e_set_status "completed" (now env))
                      (Admin.d_set_status "rejected" (now env)))
            as [r' J']; auto
        end.
        unfold dispute_status. rewrite J'. reflexivity.
      * unfold insert_audit.
        apply (status_after_update db (d_escrow_id rec) "completed" (now env)
                 e rest'
                 (fun d => set_audit _ (set_disputes _ d)));
          [exact E | reflexivity].
  - unfold Admin.disputes_approve, requireAdmin. rewrite Hadmin, J.
    change ("admin" =? "admin") with true. cbn [negb].
    destruct ((d_status rec =? "resolved") && (e_status e =? "cancelled"))
      eqn:A.
    + apply andb_true_iff in A as [A1 A2].
      apply eqb_true in A1, A2.
      unfold reply, dispute_status, escrow_status. cbn [fst snd res_status].
      rewrite J, E. cbn. rewrite A1, A2. repeat split.
    + unfold reply. cbn [fst snd res_status]. split; [reflexivity|]. split.
      * match goal with |- dispute_status ?d id = _ =>
          destruct (select_dispute_updated db d id rec e rest
                      (e_set_status "cancelled" (now env))
                      (Admin.d_set_status "resolved" (now env)))
            as [r' J']; auto
        end.
        unfold dispute_status. rewrite J'. reflexivity.
      * unfold insert_audit.
        apply (status_after_update db (d_escrow_id rec) "cancelled" (now env)
                 e rest'
                 (fun d => set_audit _ (set_disputes _ d)));
          [exact E | reflexivity].
Qed.

Lemma admin_decision_overrides_witness :
  let resolved := snd (Disputes.resolve (Sample.at_time 5 "po1" "a5")
                         Sample.root "d1"
                         (Some (mkDecision (Some "favor_seller") None))
                         Sample.disputed) in
  dispute_status resolved "d1" = Some "resolved"
  /\ escrow_status resolved "e1" = Some "released"
  /\ let out := Admin.disputes_approve (Sample.at_time 6 "a6" "a6")
                  Sample.root "d1" resolved in
     res_status (fst out) = 200
     /\ dispute_status (snd out) "d1" = Some "resolved"
     /\ escrow_status (snd out) "e1" = Some "cancelled".
Proof.
  split; [reflexivity|]. split; [reflexivity|].
  edestruct (admin_decision_overrides (Sample.at_time 6 "a6" "a6")
               Sample.root "d1"
               (snd (Disputes.resolve (Sample.at_time 5 "po1" "a5")
                       Sample.root "d1"
                       (Some (mkDecision (Some "favor_seller") None))
                       Sample.disputed))) as [_ H];
    [reflexivity | vm_compute; reflexivity |].
  exact H.
Defined.

(** X28.  A resolution records its decision in the audit log only: on
    an open dispute an admin's favor_buyer and rejected are both answered
    200, both leave the dispute resolved, and they leave the same users,
    escrows, payouts and disputes; the one audit row each appends differs
    from the other's in the decision alone. *)
Theorem resolve_decision_only_audited env user id note db dispute e rest :
  au_role user = "admin" ->
  select_dispute db id = (dispute, e) :: rest ->
  d_status dispute = "open" ->
  let resolve decision :=
    Disputes.resolve env user id (Some (mkDecision (Some decision) note)) db
  in
  let audited decision :=
    (audit_logs db
     ++ [mkAudit (uuid env 0) (au_id user) "resolve_dispute" "disputes" id
                 [("decision", Flat (JStr decision));
                  ("note", Flat (jstr (or_null note)))] (now env)])%list in
  let buyer := resolve "favor_buyer" in
  let rejected := resolve "rejected" in
  res_status (fst buyer) = 200
  /\ res_status (fst rejected) = 200
  /\ dispute_status (snd buyer) id = Some "resolved"
  /\ dispute_status (snd rejected) id = Some "resolved"
  /\ users (snd buyer) = users (snd rejected)
  /\ escrow_transactions (snd buyer) = escrow_transactions (snd rejected)
  /\ payouts (snd buyer) = payouts (snd rejected)
  /\ disputes (snd buyer) = disputes (snd rejected)
  /\ audit_logs (snd buyer) = audited "favor_buyer"
  /\ audit_logs (snd rejected) = audited "rejected".
Proof.
  intros Hadmin J Hopen. cbv zeta. unfold Disputes.resolve.
  rewrite Hadmin, J, Hopen. cbn [b_decision b_note].
  change ("admin" =? "admin") with true.
  change (Disputes.valid_decision (Some "favor_buyer")) with true.
  change (Disputes.valid_decision (Some "rejected")) with true.
  change ("open" =? "open") with true.
  cbn [negb text].
  change ("favor_buyer" =? "favor_seller") with false.
  change ("rejected" =? "favor_seller") with false.
  cbv iota. unfold reply. cbn [fst snd res_status].
  assert (R : forall d,
            dispute_status
              (insert_audit (uuid env 0) (au_id user) "resolve_dispute"
                 "disputes" id
                 [("decision", Flat (jstr (Some d)));
                  ("note", Flat (jstr (or_null note)))] (now env)
                 (set_disputes
                    (update (is_dispute id) (Disputes.d_resolve (now env)))
                    db)) id = Some "resolved").
  { intros d.
    match goal with |- dispute_status ?x id = _ =>
      destruct (select_dispute_resolved db x id dispute e rest
                  (Disputes.d_resolve (now env)))
        as [rest' J']; auto
    end.
    unfold dispute_status. rewrite J'. reflexivity. }
  split; [reflexivity|]. split; [reflexivity|].
  split; [apply R|]. split; [apply R|].
  repeat split.
Qed.

Lemma resolve_decision_only_audited_witness :
  let buyer := snd (Disputes.resolve (Sample.at_time 5 "a5" "a5") Sample.root
                      "d1" (Some (mkDecision (Some "favor_buyer") None))
                      Sample.disputed) in
  let rejected := snd (Disputes.resolve (Sample.at_time 5 "a5" "a5")
                         Sample.root "d1"
                         (Some (mkDecision (Some "rejected") None))
                         Sample.disputed) in
  dispute_status Sample.disputed "d1" = Some "open"
  /\ dispute_status buyer "d1" = Some "resolved"
  /\ dispute_status rejected "d1" = Some "resolved"
  /\ escrow_transactions buyer = escrow_transactions rejected
  /\ disputes buyer = disputes rejected
  /\ map a_metadata (skipn 4 (audit_logs buyer))
     = [[("decision", Flat (JStr "favor_buyer")); ("note", Flat JNull)]]
  /\ map a_metadata (skipn 4 (audit_logs rejected))
     = [[("decision", Flat (JStr "rejected")); ("note", Flat JNull)]].
Proof.
  edestruct (resolve_decision_only_audited (Sample.at_time 5 "a5" "a5")
               Sample.root "d1" None Sample.disputed)
    as (_ & _ & H1 & H2 & _ & H3 & _ & H4 & H5 & H6);
    [reflexivity | vm_compute; reflexivity | reflexivity |].
  cbv zeta. split; [reflexivity|].
  split; [exact H1|]. split; [exact H2|]. split; [exact H3|].
  split; [exact H4|]. split.
  - rewrite H5. reflexivity.
  - rewrite H6. reflexivity.
Defined.
